(** * webhook.py: TradingView alert relay

    A shallow embedding of [src/webhook.py] and the properties of its
    alert intake pipeline.

    Conventions of the model.
    - A Python [str] is a [string] of its UTF-8 bytes; the case and
      whitespace methods of [Py] are the ASCII ones (bytes above 127 are
      left alone), and the parser is also given over the library's own.
    - A Python [float] is an IEEE-754 binary64 value, [spec_float] with the
      Standard Library's operations at precision 53.
    - A [dict] with string keys is a [gmap string _].
    - The sqlite tables, the clock and the outbound HTTP calls live in a
      [World] that is threaded through a state-and-exception monad [M]. *)

From Stdlib Require Import ZArith String Ascii List Bool Lia.
From Stdlib Require Import Floats.SpecFloat.
From stdpp Require Import base option list strings gmap pretty.

Local Open Scope Z_scope.

(** ** Python exceptions and fallible results *)

Inductive exn : Type :=
  | ValueError            (* float(), int(), tuple unpacking, b64decode of non-ASCII *)
  | OverflowError         (* int(inf) *)
  | BinasciiError         (* base64.b64decode: wrong padding or length *)
  | TimeoutError          (* requests.exceptions.Timeout *)
  | ConnectionError.      (* requests.exceptions.ConnectionError *)

Inductive result (A : Type) : Type :=
  | Ok (a : A)
  | Raise (e : exn).
Arguments Ok {A} a.
Arguments Raise {A} e.

(** ** Python [str] methods used by the program *)

Module Py.

(** [c.isspace()] for an ASCII character. *)
Definition isspace (c : ascii) : bool :=
  let n := nat_of_ascii c in
  ((9 <=? n)%nat && (n <=? 13)%nat) || ((28 <=? n)%nat && (n <=? 32)%nat).

Fixpoint lstrip (s : string) : string :=
  match s with
  | String c s' => if isspace c then lstrip s' else s
  | EmptyString => EmptyString
  end.

Definition rstrip (s : string) : string := String.rev (lstrip (String.rev s)).

(** [s.strip()] *)
Definition strip (s : string) : string := rstrip (lstrip s).

Definition lower_char (c : ascii) : ascii :=
  let n := nat_of_ascii c in
  if (65 <=? n)%nat && (n <=? 90)%nat then ascii_of_nat (n + 32) else c.

Definition upper_char (c : ascii) : ascii :=
  let n := nat_of_ascii c in
  if (97 <=? n)%nat && (n <=? 122)%nat then ascii_of_nat (n - 32) else c.

Fixpoint map_chars (f : ascii -> ascii) (s : string) : string :=
  match s with
  | String c s' => String (f c) (map_chars f s')
  | EmptyString => EmptyString
  end.

(** [s.lower()] and [s.upper()] *)
Definition lower : string -> string := map_chars lower_char.
Definition upper : string -> string := map_chars upper_char.

(** [sep in s] for a one-character [sep]. *)
Fixpoint contains (sep : ascii) (s : string) : bool :=
  match s with
  | String c s' => Ascii.eqb c sep || contains sep s'
  | EmptyString => false
  end.

(** [s.split(sep)] for a one-character [sep]: never empty. *)
Fixpoint split (sep : ascii) (s : string) : list string :=
  match s with
  | EmptyString => [EmptyString]
  | String c s' =>
      if Ascii.eqb c sep then EmptyString :: split sep s'
      else match split sep s' with
           | p :: ps => String c p :: ps
           | [] => [String c EmptyString]
           end
  end.

(** [s.split(sep, 1)]: at most one cut, at the first [sep]. *)
Fixpoint split1 (sep : ascii) (s : string) : list string :=
  match s with
  | EmptyString => [EmptyString]
  | String c s' =>
      if Ascii.eqb c sep then [EmptyString; s']
      else match split1 sep s' with
           | p :: ps => String c p :: ps
           | [] => [String c EmptyString]
           end
  end.

(** [s.startswith(p)] *)
Fixpoint startswith (p s : string) : bool :=
  match p, s with
  | EmptyString, _ => true
  | String a p', String b s' => Ascii.eqb a b && startswith p' s'
  | String _ _, EmptyString => false
  end.

(** Truth value of a [str]: empty is false. *)
Definition truthy (s : string) : bool :=
  match s with EmptyString => false | String _ _ => true end.

(** Truth value of [d.get(k)]: [None] and the empty string are false. *)
Definition truthy_opt (o : option string) : bool :=
  match o with Some s => truthy s | None => false end.

(** [a or b] on values that are a [str] or [None]. *)
Definition or_else (a b : option string) : option string :=
  if truthy_opt a then a else b.

End Py.

(** ** AlertParser: [parse_alert_text] *)

(** One turn of the loop body: [if ":" in p: k, v = p.split(":", 1); ...].
    The tuple unpacking raises when the split does not have two parts. *)
Definition parse_segment (parts : gmap string string) (p : string)
  : result (gmap string string) :=
  if Py.contains ":" p then
    match Py.split1 ":" p with
    | [k; v] => Ok (<[Py.lower (Py.strip k) := Py.strip v]> parts)
    | _ => Raise ValueError
    end
  else Ok parts.

Fixpoint parse_segments (parts : gmap string string) (ps : list string)
  : result (gmap string string) :=
  match ps with
  | [] => Ok parts
  | p :: ps' =>
      match parse_segment parts p with
      | Ok parts' => parse_segments parts' ps'
      | Raise e => Raise e
      end
  end.

Definition parse_alert_text (txt : string) : result (gmap string string) :=
  parse_segments ∅ (Py.split ";" txt).

(** What the specification says the parser computes: the key and the value
    of a segment are what lies before and after its first colon. *)
Module ParserSpec.

Fixpoint before_colon (s : string) : string :=
  match s with
  | String c s' => if Ascii.eqb c ":" then EmptyString else String c (before_colon s')
  | EmptyString => EmptyString
  end.

Fixpoint after_colon (s : string) : string :=
  match s with
  | String c s' => if Ascii.eqb c ":" then s' else after_colon s'
  | EmptyString => EmptyString
  end.

Definition key_value (p : string) : string * string :=
  (Py.lower (Py.strip (before_colon p)), Py.strip (after_colon p)).

(** Segments that contain a colon, as key/value pairs in order. *)
Definition fields (txt : string) : list (string * string) :=
  key_value <$> filter (fun p => Is_true (Py.contains ":" p)) (Py.split ";" txt).

(** The value of the last pair whose key is [k]. *)
Definition last_value (k : string) (kvs : list (string * string)) : option string :=
  snd <$> last (filter (fun kv => kv.1 = k) kvs).

End ParserSpec.


(** ** Python [float] and [int] *)

Abbreviation float := spec_float.

Module F.

Definition prec : Z := 53.
Definition emax : Z := 1024.

(** [0.0] *)
Definition zero : float := S754_zero false.

(** [float(n)] for an [int] [n], rounded to nearest even. *)
Definition of_int (n : Z) : float := binary_normalize prec emax n 0 false.

(** [x - y] *)
Definition sub : float -> float -> float := SFsub prec emax.

(** [x < y] between floats; anything against NaN is false. *)
Definition ltb : float -> float -> bool := SFltb.

(** Python compares a [float] with an [int] exactly, without rounding the
    [int]: the finite value [m * 2^e] is set against [n] over the integers. *)
Definition compare_int (x : float) (n : Z) : option comparison :=
  match x with
  | S754_nan => None
  | S754_infinity s => Some (if s then Lt else Gt)
  | S754_zero _ => Some (0 ?= n)
  | S754_finite s m e =>
      let v := cond_Zopp s (Zpos m) in
      Some (if 0 <=? e then v * 2 ^ e ?= n else v ?= n * 2 ^ (- e))
  end.

Definition ltb_int (x : float) (n : Z) : bool :=
  match compare_int x n with Some Lt => true | _ => false end.

Definition leb_int (x : float) (n : Z) : bool :=
  match compare_int x n with Some (Lt | Eq) => true | _ => false end.

Definition geb_int (x : float) (n : Z) : bool :=
  match compare_int x n with Some (Gt | Eq) => true | _ => false end.

(** [int(x)]: truncation towards zero; NaN and the infinities raise. *)
Definition to_int (x : float) : result Z :=
  match x with
  | S754_nan => Raise ValueError
  | S754_infinity _ => Raise OverflowError
  | S754_zero _ => Ok 0
  | S754_finite s m e =>
      Ok (cond_Zopp s (if 0 <=? e then Zpos m * 2 ^ e else Zpos m / 2 ^ (- e)))
  end.

End F.

(** ** JSON values: what [jsonify], [json.dumps] and [r.json()] handle *)

#[warnings="-register-all"]
Inductive json : Type :=
  | JNull
  | JBool (b : bool)
  | JInt (n : Z)
  | JFloat (x : float)
  | JStr (s : string)
  | JList (l : list json)
  | JDict (kvs : list (string * json)).

(** A [dict] of strings as a JSON object. *)
Definition json_of_dict (d : gmap string string) : json :=
  JDict (prod_map id JStr <$> map_to_list d).

(** ** base64 *)

Module Base64.

(** Position of a character in the standard alphabet. *)
Definition value (c : ascii) : option N :=
  let n := N_of_ascii c in
  if ((65 <=? n) && (n <=? 90))%N then Some (n - 65)%N
  else if ((97 <=? n) && (n <=? 122))%N then Some (n - 71)%N
  else if ((48 <=? n) && (n <=? 57))%N then Some (n + 4)%N
  else if (n =? 43)%N then Some 62%N
  else if (n =? 47)%N then Some 63%N
  else None.

Definition byte (n : N) : ascii := ascii_of_N (n mod 256).

(** The loop of [binascii.a2b_base64] in its default, non-strict mode.
    [quad_pos] is the position inside the current group of four,
    [leftchar] the bits not yet written, [pads] the run of ['='] seen
    since the last data character and [out] the bytes written, latest
    first.  Characters outside the alphabet are skipped. *)
Fixpoint a2b_loop (s : string) (quad_pos : nat) (leftchar : N) (pads : nat)
    (out : string) : result string :=
  match s with
  | EmptyString =>
      if (quad_pos =? 0)%nat then Ok (String.rev out) else Raise BinasciiError
  | String c s' =>
      if Ascii.eqb c "=" then
        if (2 <=? quad_pos)%nat then
          if (4 <=? quad_pos + S pads)%nat then Ok (String.rev out)
          else a2b_loop s' quad_pos leftchar (S pads) out
        else a2b_loop s' quad_pos leftchar pads out
      else
        match value c with
        | None => a2b_loop s' quad_pos leftchar pads out
        | Some v =>
            match quad_pos with
            | 0%nat => a2b_loop s' 1%nat v 0%nat out
            | 1%nat =>
                a2b_loop s' 2%nat (N.land v 15) 0%nat
                  (String (byte (N.lor (N.shiftl leftchar 2) (N.shiftr v 4))) out)
            | 2%nat =>
                a2b_loop s' 3%nat (N.land v 3) 0%nat
                  (String (byte (N.lor (N.shiftl leftchar 4) (N.shiftr v 2))) out)
            | _ =>
                a2b_loop s' 0%nat 0%N 0%nat
                  (String (byte (N.lor (N.shiftl leftchar 6) v)) out)
            end
        end
  end.

Fixpoint is_ascii (s : string) : bool :=
  match s with
  | String c s' => (N_of_ascii c <? 128)%N && is_ascii s'
  | EmptyString => true
  end.

(** [base64.b64decode(s)] on a [str]: the text must be ASCII, then
    [a2b_base64] decodes it. *)
Definition b64decode (s : string) : result string :=
  if is_ascii s then a2b_loop s 0 0 0 EmptyString else Raise ValueError.

Definition digit (n : N) : ascii :=
  let n := (n mod 64)%N in
  if (n <? 26)%N then ascii_of_N (n + 65)
  else if (n <? 52)%N then ascii_of_N (n + 71)
  else if (n <? 62)%N then ascii_of_N (n - 4)
  else if (n =? 62)%N then "+"%char else "/"%char.

(** [base64.b64encode(b)], as text. *)
Fixpoint b64encode (b : string) : string :=
  match b with
  | EmptyString => EmptyString
  | String x EmptyString =>
      let x := N_of_ascii x in
      String (digit (N.shiftr x 2)) (String (digit (N.shiftl (N.land x 3) 4)) "==")
  | String x (String y EmptyString) =>
      let x := N_of_ascii x in
      let y := N_of_ascii y in
      String (digit (N.shiftr x 2))
        (String (digit (N.lor (N.shiftl (N.land x 3) 4) (N.shiftr y 4)))
           (String (digit (N.shiftl (N.land y 15) 2)) "="))
  | String x (String y (String z b')) =>
      let x := N_of_ascii x in
      let y := N_of_ascii y in
      let z := N_of_ascii z in
      String (digit (N.shiftr x 2))
        (String (digit (N.lor (N.shiftl (N.land x 3) 4) (N.shiftr y 4)))
           (String (digit (N.lor (N.shiftl (N.land y 15) 2) (N.shiftr z 6)))
              (String (digit (N.land z 63)) (b64encode b'))))
  end.

(** Well-formed base64 in the sense of RFC 4648: groups of four
    characters of the alphabet, the last one possibly ending in one or
    two ['=']. *)
Definition in_alphabet (c : ascii) : bool := bool_decide (is_Some (value c)).

Fixpoint valid_groups (fuel : nat) (s : string) : bool :=
  match fuel, s with
  | _, EmptyString => true
  | S fuel', String a (String b (String c (String d rest))) =>
      in_alphabet a && in_alphabet b &&
      match rest with
      | EmptyString =>
          (in_alphabet c && (in_alphabet d || Ascii.eqb d "="))
          || (Ascii.eqb c "=" && Ascii.eqb d "=")
      | _ => in_alphabet c && in_alphabet d && valid_groups fuel' rest
      end
  | _, _ => false
  end.

Definition valid (s : string) : bool := valid_groups (String.length s) s.

End Base64.


(** ** Configuration read from the environment at start-up *)

Record Config : Type := {
  COINBASE_API_KEY : string;
  COINBASE_API_SECRET : string;
  COINBASE_PASSPHRASE : string;
  ALERT_SECRET : string;
  MAX_USD_PER_ORDER : float;
  MIN_SECONDS_BETWEEN_ORDERS : Z;
  COINBASE_API_BASE : string }.

(** ** The sqlite store, the clock and the network *)

(** A row of table [alerts]; [created_at] is filled in by the database and
    read by nobody. *)
Record AlertRecord : Type := {
  rec_id : nat;
  rec_tv_id : option string;
  rec_raw : string;
  rec_symbol : string;
  rec_action : string;
  rec_amount : float;
  rec_status : string;
  rec_response : string }.

(** What [requests.post] hands back: [r.status_code], [r.text], and the
    value of [r.json()], [None] when the body is not JSON and it raises. *)
Record HttpResponse : Type := {
  status_code : Z;
  text : string;
  json_body : option json }.

(** The committed writes and the outbound calls, in the order they happen. *)
Inductive Event : Type :=
  | InsertAlert (r : AlertRecord)
  | SetMeta (key value : string)
  | Post (url : string) (headers : list (string * string)) (data : string).

(** [meta] maps a key to its [value] column, which may be NULL. *)
Record World : Type := {
  alerts : list AlertRecord;
  meta : gmap string (option string);
  clock_reads : nat;
  events : list Event }.

Definition is_insert (e : Event) : bool :=
  match e with InsertAlert _ => true | _ => false end.
Definition is_checkpoint (e : Event) : bool :=
  match e with SetMeta _ _ => true | _ => false end.
Definition is_post (e : Event) : bool :=
  match e with Post _ _ _ => true | _ => false end.

Definition count (p : Event -> bool) (w : World) : nat :=
  length (List.filter p (events w)).

(** The id an AUTOINCREMENT column gives the next row: one more than the
    largest id used so far.  Rows are never deleted, so that is the largest
    id in the table. *)
Definition next_rowid (rows : list AlertRecord) : nat :=
  S (foldr Nat.max 0%nat (rec_id <$> rows)).

(** Library functions the program calls and this development leaves open:
    [float(s)] on a [str] ([None] when it raises), [str(x)] and
    [round(x, 2)] on a [float], [json.dumps], [urllib.parse.urljoin], and
    [hmac.new(key, msg, hashlib.sha256).digest()]. *)
Record Runtime : Type := {
  float_of_str : string -> option float;
  str_of_float : float -> string;
  round2 : float -> float;
  json_dumps : json -> string;
  urljoin : string -> string -> string;
  hmac_sha256 : string -> string -> string }.

(** The outside world: the successive readings of [time.time()], and what
    [requests.post] does with a request given the events so far: a
    response, or an exception of the transport. *)
Record Env : Type := {
  clock : nat -> float;
  transport :
    list Event -> string -> list (string * string) -> string -> result HttpResponse }.

(** ** State and exceptions *)

Definition M (A : Type) : Type := World -> result A * World.

Definition ret {A} (a : A) : M A := fun w => (Ok a, w).
Definition lift {A} (r : result A) : M A := fun w => (r, w).
Definition bind {A B} (m : M A) (k : A -> M B) : M B :=
  fun w =>
    match m w with
    | (Ok a, w') => k a w'
    | (Raise e, w') => (Raise e, w')
    end.

Declare Scope py_scope.
Delimit Scope py_scope with py.
Notation "x <- m ;; k" := (bind m (fun x => k))
  (at level 100, m at next level, right associativity) : py_scope.
Notation "m ;; k" := (bind m (fun _ => k))
  (at level 100, right associativity) : py_scope.
Local Open Scope py_scope.

Section Program.

Variable cfg : Config.
Variable py : Runtime.
Variable env : Env.

Definition time_time : M float :=
  fun w =>
    (Ok (clock env (clock_reads w)),
     {| alerts := alerts w; meta := meta w;
        clock_reads := S (clock_reads w); events := events w |}).

Definition requests_post (url : string) (headers : list (string * string))
    (data : string) : M HttpResponse :=
  fun w =>
    (transport env (events w) url headers data,
     {| alerts := alerts w; meta := meta w; clock_reads := clock_reads w;
        events := events w ++ [Post url headers data] |}).

(** *** AuditStore *)

Definition get_last_order_ts : M float :=
  fun w =>
    match meta w !! "last_order_ts" with
    | Some row =>
        match row ≫= float_of_str py with
        | Some x => (Ok x, w)
        | None => (Ok F.zero, w)
        end
    | None => (Ok F.zero, w)
    end.

Definition set_last_order_ts (ts : float) : M unit :=
  fun w =>
    let v := str_of_float py ts in
    (Ok tt,
     {| alerts := alerts w;
        meta := <["last_order_ts" := Some v]> (meta w);
        clock_reads := clock_reads w;
        events := events w ++ [SetMeta "last_order_ts" v] |}).

(** The INSERT leaves [id] to AUTOINCREMENT; [cur.lastrowid] is that id. *)
Definition insert_alert (tv_id : option string) (raw symbol action : string)
    (amount : float) (status : string) (response : json) : M nat :=
  fun w =>
    let r := {| rec_id := next_rowid (alerts w); rec_tv_id := tv_id;
                rec_raw := raw; rec_symbol := symbol; rec_action := action;
                rec_amount := amount; rec_status := status;
                rec_response := json_dumps py response |} in
    (Ok (rec_id r),
     {| alerts := alerts w ++ [r]; meta := meta w;
        clock_reads := clock_reads w;
        events := events w ++ [InsertAlert r] |}).

Definition has_tv_id (t : string) (r : AlertRecord) : bool :=
  bool_decide (rec_tv_id r = Some t).

Definition already_processed (tv_id : option string) : M bool :=
  fun w =>
    match tv_id with
    | Some t =>
        if negb (Py.truthy t) then (Ok false, w)
        else (Ok (existsb (has_tv_id t) (alerts w)), w)
    | None => (Ok false, w)
    end.

(** *** ExchangeSigner *)

Definition cb_auth_headers (method path body : string)
  : M (list (string * string)) :=
  now <- time_time ;;
  secs <- lift (F.to_int now) ;;
  let timestamp := pretty secs in
  let message := timestamp +:+ Py.upper method +:+ path +:+ body in
  secret <- lift (Base64.b64decode (COINBASE_API_SECRET cfg)) ;;
  let signature := Base64.b64encode (hmac_sha256 py secret message) in
  ret [("CB-ACCESS-KEY", COINBASE_API_KEY cfg);
       ("CB-ACCESS-SIGN", signature);
       ("CB-ACCESS-TIMESTAMP", timestamp);
       ("CB-ACCESS-PASSPHRASE", COINBASE_PASSPHRASE cfg);
       ("Content-Type", "application/json")].

(** *** OrderGateway *)

Definition place_market_order_by_funds (product_id side : string)
    (usd_amount : float) : M (Z * json) :=
  let path := "/orders" in
  let body :=
    json_dumps py (JDict [("type", JStr "market");
                       ("side", JStr side);
                       ("product_id", JStr product_id);
                       ("funds", JStr (str_of_float py (round2 py usd_amount)))]) in
  let url := urljoin py (COINBASE_API_BASE cfg) path in
  headers <- cb_auth_headers "POST" path body ;;
  r <- requests_post url headers body ;;
  match json_body r with
  | Some j => ret (status_code r, j)
  | None => ret (status_code r, JStr (text r))
  end.

(** *** AlertPipeline *)

(** [data.get("tv_id") or data.get("id") or None] *)
Definition idempotency_key (data : gmap string string) : option string :=
  Py.or_else (data !! "tv_id") (Py.or_else (data !! "id") None).

(** [status_code in (200, 201)] *)
Definition is_success (status_code : Z) : bool :=
  (status_code =? 200) || (status_code =? 201).

(** [jsonify(body), status] *)
Definition respond (body : list (string * json)) (status : Z) : M (json * Z) :=
  ret (JDict body, status).

Definition tradingview_webhook (request_data : string) : M (json * Z) :=
  let raw := Py.strip request_data in
  if negb (Py.truthy raw) then respond [("error", JStr "empty body")] 400 else
  data <- lift (parse_alert_text raw) ;;
  if negb (String.eqb (default "" (data !! "secret")) (ALERT_SECRET cfg)) then
    respond [("error", JStr "invalid secret")] 401
  else
  let tv_id := idempotency_key data in
  dup <- (if Py.truthy_opt tv_id then already_processed tv_id else ret false) ;;
  if dup then
    respond [("error", JStr "duplicate alert");
             ("tv_id", JStr (default "" tv_id))] 409
  else
  let symbol := data !! "symbol" in
  let action := data !! "action" in
  let amount := data !! "amount" in
  match symbol, action, amount with
  | Some symbol, Some action, Some amount =>
      if negb (Py.truthy symbol) || negb (Py.truthy action)
         || negb (Py.truthy amount) then
        respond [("error", JStr "missing fields");
                 ("received", json_of_dict data)] 400
      else
      match float_of_str py amount with
      | None =>
          (* [return jsonify({"error":"invalid amount"}, 400)]: both
             arguments go to [jsonify], and the status stays the default *)
          ret (JList [JDict [("error", JStr "invalid amount")]; JInt 400], 200)
      | Some usd_amount =>
          if F.leb_int usd_amount 0 || F.ltb (MAX_USD_PER_ORDER cfg) usd_amount then
            respond [("error", JStr "amount out of bounds");
                     ("max_allowed", JFloat (MAX_USD_PER_ORDER cfg))] 400
          else
          last_ts <- get_last_order_ts ;;
          now_ts <- time_time ;;
          if F.ltb_int (F.sub now_ts last_ts) (MIN_SECONDS_BETWEEN_ORDERS cfg) then
            respond [("error", JStr "rate limit");
                     ("min_seconds", JInt (MIN_SECONDS_BETWEEN_ORDERS cfg))] 429
          else
          let side :=
            if Py.startswith "buy" (Py.lower action) then "buy" else "sell" in
          placed <- place_market_order_by_funds symbol side usd_amount ;;
          let '(status_code, resp) := placed in
          insert_alert tv_id raw symbol action usd_amount
            (if negb (is_success status_code) then "attempted" else "placed") resp ;;
          set_last_order_ts now_ts ;;
          if is_success status_code then
            respond [("status", JStr "ok"); ("code", JInt status_code);
                     ("response", resp)] 200
          else
            respond [("status", JStr "error"); ("code", JInt status_code);
                     ("response", resp)] 500
      end
  | _, _, _ =>
      respond [("error", JStr "missing fields");
               ("received", json_of_dict data)] 400
  end.

End Program.

(** ** Steps 1 to 8 of the pipeline, as the specification lists them *)

(** The decision taken on a request before any order is placed. *)
Inductive verdict : Type :=
  | EmptyBody
  | InvalidSecret
  | DuplicateAlert (tv_id : string)
  | MissingFields (received : gmap string string)
  | InvalidAmount
  | OutOfBounds
  | RateLimited
  | Accepted (tv_id : option string) (raw symbol action : string)
      (usd_amount now_ts : float).

Definition is_accepted (v : verdict) : bool :=
  match v with Accepted _ _ _ _ _ _ => true | _ => false end.

Module PipelineSpec.

(** Step 2: the mapping of the parser, last occurrence of a key first. *)
Definition parse (raw : string) : gmap string string :=
  list_to_map (reverse (ParserSpec.fields raw)).

(** A field that is present and non-empty. *)
Definition present (o : option string) : option string :=
  match o with
  | Some (String c s) => Some (String c s)
  | _ => None
  end.

(** Step 4: [tv_id], falling back to [id]. *)
Definition external_id (data : gmap string string) : option string :=
  match present (data !! "tv_id") with
  | Some t => Some t
  | None => present (data !! "id")
  end.

(** AuditStore's [existsByExternalId]. *)
Definition exists_by_external_id (t : string) (w : World) : bool :=
  bool_decide (Some t ∈ rec_tv_id <$> alerts w).

(** RateLimiter's [lastTimestamp]: the checkpoint, [0.0] without one. *)
Definition last_timestamp (py : Runtime) (w : World) : float :=
  match meta w !! "last_order_ts" with
  | Some (Some v) => default F.zero (float_of_str py v)
  | _ => F.zero
  end.

(** Step 9: anything that does not start with "buy" sells. *)
Definition side_of (action : string) : string :=
  if Py.startswith "buy" (Py.lower action) then "buy" else "sell".

(** Steps 5 to 8: required fields, amount, bounds, rate limit. *)
Definition steps_5_8 (cfg : Config) (py : Runtime) (env : Env)
    (tv_id : option string) (raw : string) (data : gmap string string)
    (w : World) : verdict :=
  match present (data !! "symbol"), present (data !! "action"),
        present (data !! "amount") with
  | Some symbol, Some action, Some amount =>
      match float_of_str py amount with
      | None => InvalidAmount
      | Some x =>
          if F.leb_int x 0 || F.ltb (MAX_USD_PER_ORDER cfg) x then OutOfBounds
          else
            let now := clock env (clock_reads w) in
            if F.ltb_int (F.sub now (last_timestamp py w))
                 (MIN_SECONDS_BETWEEN_ORDERS cfg)
            then RateLimited
            else Accepted tv_id raw symbol action x now
      end
  | _, _, _ => MissingFields data
  end.

Definition steps_1_8 (cfg : Config) (py : Runtime) (env : Env)
    (request_data : string) (w : World) : verdict :=
  let raw := Py.strip request_data in
  if bool_decide (raw = "") then EmptyBody else
  let data := parse raw in
  if bool_decide (default "" (data !! "secret") = ALERT_SECRET cfg) then
    match external_id data with
    | Some t =>
        if exists_by_external_id t w then DuplicateAlert t
        else steps_5_8 cfg py env (Some t) raw data w
    | None => steps_5_8 cfg py env None raw data w
    end
  else InvalidSecret.

End PipelineSpec.

(** ** Wording of the specification *)

Module Wording.

(** A request carries id [t]: in field [tv_id], or in [id] when there is
    no [tv_id]. *)
Definition carries (data : gmap string string) (t : string) : Prop :=
  data !! "tv_id" = Some t ∨ (data !! "tv_id" = None ∧ data !! "id" = Some t).

(** The store holds a record whose [tv_id] is [t]. *)
Definition recorded (t : string) (w : World) : Prop :=
  ∃ r, r ∈ alerts w ∧ rec_tv_id r = Some t.

(** How many records have [tv_id] [t]. *)
Definition records_of (t : string) (w : World) : nat :=
  length (List.filter (has_tv_id t) (alerts w)).

(** The request passes the empty-body, secret, duplicate-id and
    missing-fields checks with these fields. *)
Definition passes_checks (cfg : Config) (request_data : string) (w : World)
    (data : gmap string string) (symbol action amount : string) : Prop :=
  Py.strip request_data ≠ "" ∧
  parse_alert_text (Py.strip request_data) = Ok data ∧
  default "" (data !! "secret") = ALERT_SECRET cfg ∧
  (∀ t, idempotency_key data = Some t → ¬ recorded t w) ∧
  data !! "symbol" = Some symbol ∧ symbol ≠ "" ∧
  data !! "action" = Some action ∧ action ≠ "" ∧
  data !! "amount" = Some amount ∧ amount ≠ "".

(** The signature the exchange expects: base64 of the HMAC-SHA256, under
    the decoded secret, of timestamp, method in upper case, path and body. *)
Definition signature (py : Runtime) (key timestamp method path body : string)
  : string :=
  Base64.b64encode
    (hmac_sha256 py key (timestamp +:+ Py.upper method +:+ path +:+ body)).

End Wording.

(** ** What a verdict entails *)

(** The world after one more reading of the clock. *)
Definition tick (w : World) : World :=
  {| alerts := alerts w; meta := meta w;
     clock_reads := S (clock_reads w); events := events w |}.

Module Replies.

(** The terminal responses of steps 1, 3, 4, 5, 6, 7 and 8. *)
Definition rejection (cfg : Config) (v : verdict) : json * Z :=
  match v with
  | EmptyBody => (JDict [("error", JStr "empty body")], 400)
  | InvalidSecret => (JDict [("error", JStr "invalid secret")], 401)
  | DuplicateAlert t =>
      (JDict [("error", JStr "duplicate alert"); ("tv_id", JStr t)], 409)
  | MissingFields data =>
      (JDict [("error", JStr "missing fields"); ("received", json_of_dict data)], 400)
  | InvalidAmount => (JDict [("error", JStr "invalid amount")], 400)
  | OutOfBounds =>
      (JDict [("error", JStr "amount out of bounds");
              ("max_allowed", JFloat (MAX_USD_PER_ORDER cfg))], 400)
  | RateLimited =>
      (JDict [("error", JStr "rate limit");
              ("min_seconds", JInt (MIN_SECONDS_BETWEEN_ORDERS cfg))], 429)
  | Accepted _ _ _ _ _ _ => (JNull, 0)
  end.

(** Step 11: the record of an attempt. *)
Definition record (py : Runtime) (w : World) (tv_id : option string)
    (raw symbol action : string) (usd_amount : float) (code : Z) (resp : json)
  : AlertRecord :=
  {| rec_id := next_rowid (alerts w); rec_tv_id := tv_id; rec_raw := raw;
     rec_symbol := symbol; rec_action := action; rec_amount := usd_amount;
     rec_status := if is_success code then "placed" else "attempted";
     rec_response := json_dumps py resp |}.

(** Steps 11 and 12: one record appended, the checkpoint advanced. *)
Definition persisted (py : Runtime) (w : World) (r : AlertRecord) (now_ts : float)
  : World :=
  {| alerts := alerts w ++ [r];
     meta := <["last_order_ts" := Some (str_of_float py now_ts)]> (meta w);
     clock_reads := clock_reads w;
     events := events w ++
               [InsertAlert r; SetMeta "last_order_ts" (str_of_float py now_ts)] |}.

(** Step 13: the response after the gateway answered. *)
Definition reply (code : Z) (resp : json) : json * Z :=
  if is_success code then
    (JDict [("status", JStr "ok"); ("code", JInt code); ("response", resp)], 200)
  else
    (JDict [("status", JStr "error"); ("code", JInt code); ("response", resp)], 500).

End Replies.

(** What the handler does with a verdict: the result and the world after.
    On an amount that does not parse it answers with a two-element list and
    the default status. *)
Definition run_verdict (cfg : Config) (py : Runtime) (env : Env)
    (v : verdict) (w : World) : result (json * Z) * World :=
  match v with
  | InvalidAmount =>
      (Ok (JList [JDict [("error", JStr "invalid amount")]; JInt 400], 200), w)
  | RateLimited => (Ok (Replies.rejection cfg v), tick w)
  | Accepted tv_id raw symbol action usd_amount now_ts =>
      match place_market_order_by_funds cfg py env symbol
              (PipelineSpec.side_of action) usd_amount (tick w) with
      | (Ok (code, resp), w1) =>
          (Ok (Replies.reply code resp),
           Replies.persisted py w1
             (Replies.record py w1 tv_id raw symbol action
                usd_amount code resp) now_ts)
      | (Raise e, w1) => (Raise e, w1)
      end
  | _ => (Ok (Replies.rejection cfg v), w)
  end.

(** ** A reference runtime

    CPython's behaviour for the library functions of [Runtime], on ASCII
    text, so that the program can be run on concrete requests. *)

Module CPython.

Definition digit (c : ascii) : option Z :=
  let n := Z.of_N (N_of_ascii c) in
  if (48 <=? n) && (n <=? 57) then Some (n - 48) else None.

(** A run of digits, single underscores allowed between two digits:
    the number read so far, how many digits it has, and what is left. *)
Fixpoint digits (s : string) (acc n : Z) : Z * Z * string :=
  match s with
  | String c s' =>
      match digit c with
      | Some d => digits s' (10 * acc + d) (n + 1)
      | None =>
          if Ascii.eqb c "_" && (0 <? n) then
            match s' with
            | String c' _ =>
                if is_Some_dec (digit c') then digits s' acc n else (acc, n, s)
            | EmptyString => (acc, n, s)
            end
          else (acc, n, s)
      end
  | EmptyString => (acc, n, s)
  end.

(** The float nearest to [m * 10^e10], ties to even. *)
Definition of_decimal (neg : bool) (m e10 : Z) : float :=
  match m with
  | Zpos p =>
      if 0 <=? e10 then
        binary_normalize F.prec F.emax (cond_Zopp neg (m * 10 ^ e10)) 0 false
      else
        SFdiv F.prec F.emax (S754_finite neg p 0)
          (S754_finite false (Z.to_pos (10 ^ (- e10))) 0)
  | _ => S754_zero neg
  end.

Definition sign (s : string) : bool * string :=
  match s with
  | String "-" s' => (true, s')
  | String "+" s' => (false, s')
  | _ => (false, s)
  end.

(** The exponent part: nothing, or [e], a sign and digits up to the end. *)
Definition exponent (s : string) : option Z :=
  match s with
  | EmptyString => Some 0
  | String "e" s' =>
      let '(neg, s'') := sign s' in
      match digits s'' 0 0 with
      | (v, n, EmptyString) => if 0 <? n then Some (cond_Zopp neg v) else None
      | _ => None
      end
  | _ => None
  end.

(** [float(s)] for a [str]. *)
Definition float_of_str (s : string) : option float :=
  let '(neg, body) := sign (Py.lower (Py.strip s)) in
  if bool_decide (body = "inf") || bool_decide (body = "infinity")
  then Some (S754_infinity neg)
  else if bool_decide (body = "nan") then Some S754_nan
  else
    let '(int_part, n_int, rest) := digits body 0 0 in
    let '(mantissa, n_frac, rest) :=
      match rest with
      | String "." rest' =>
          match rest' with
          | String "_" _ => (int_part, 0, rest)
          | _ => digits rest' int_part 0
          end
      | _ => (int_part, 0, rest)
      end in
    if 0 <? n_int + n_frac then
      match exponent rest with
      | Some e => Some (of_decimal neg mantissa (e - n_frac))
      | None => None
      end
    else None.


Definition float_eqb (x y : float) : bool :=
  match x, y with
  | S754_zero a, S754_zero b => Bool.eqb a b
  | S754_infinity a, S754_infinity b => Bool.eqb a b
  | S754_nan, S754_nan => true
  | S754_finite a m e, S754_finite b m' e' =>
      Bool.eqb a b && (m =? m')%positive && (e =? e')
  | _, _ => false
  end.

(** [m * 2^e] as a fraction of integers. *)
Definition fraction (m : positive) (e : Z) : Z * Z :=
  if 0 <=? e then (Zpos m * 2 ^ e, 1) else (Zpos m, 2 ^ (- e)).

(** [num / den < 10^k] *)
Definition below_pow10 (num den k : Z) : bool :=
  if 0 <=? k then num <? den * 10 ^ k else num * 10 ^ (- k) <? den.

Fixpoint first_pow10_above (fuel : nat) (num den k : Z) : Z :=
  match fuel with
  | O => k
  | S fuel' =>
      if below_pow10 num den k then k else first_pow10_above fuel' num den (k + 1)
  end.

(** The [k] with [10^(k-1) <= num / den < 10^k]. *)
Definition decimal_point (num den : Z) : Z :=
  let l := Z.log2 num - Z.log2 den in
  first_pow10_above 8 num den ((l - 1) * 30103 / 100000 - 1).

(** The integer with [n] digits that reads back as [x], if there is one:
    of the two integers around [x * 10^(n-k)], the nearer that does. *)
Definition shortest_at (x : float) (num den k n : Z) : option Z :=
  let '(num', den') :=
    if 0 <=? n - k then (num * 10 ^ (n - k), den) else (num, den * 10 ^ (k - n)) in
  let lo := num' / den' in
  let r := num' mod den' in
  let hi := lo + 1 in
  let ok c := float_eqb (of_decimal false c (k - n)) x in
  let prefer_hi := (den' <? 2 * r) || ((den' =? 2 * r) && Z.odd lo) in
  if r =? 0 then (if ok lo then Some lo else None)
  else if prefer_hi then
    (if ok hi then Some hi else if ok lo then Some lo else None)
  else
    (if ok lo then Some lo else if ok hi then Some hi else None).

Fixpoint shortest_from (fuel : nat) (x : float) (num den k n : Z) : Z * Z :=
  match fuel with
  | O => (0, n)
  | S fuel' =>
      match shortest_at x num den k n with
      | Some c => (c, n)
      | None => shortest_from fuel' x num den k (n + 1)
      end
  end.

Fixpoint strip_zeros (s : string) : string :=
  match s with
  | String c s' =>
      match strip_zeros s' with
      | EmptyString => if Ascii.eqb c "0" then EmptyString else String c EmptyString
      | t => String c t
      end
  | EmptyString => EmptyString
  end.

Fixpoint zeros (n : nat) : string :=
  match n with O => EmptyString | S n' => String "0" (zeros n') end.

Definition two_digits (n : Z) : string :=
  if n <? 10 then "0" +:+ pretty n else pretty n.

(** The digits [ds] with the decimal point after the first [decpt] of
    them, in the notation [repr] picks. *)
Definition layout (ds : string) (decpt : Z) : string :=
  let len := Z.of_nat (String.length ds) in
  if (decpt <=? -4) || (16 <? decpt) then
    let frac := match ds with
                | String d EmptyString => String d EmptyString
                | String d rest => String d (String "." rest)
                | EmptyString => EmptyString
                end in
    frac +:+ "e" +:+
    (if decpt - 1 <? 0 then "-" +:+ two_digits (1 - decpt)
     else "+" +:+ two_digits (decpt - 1))
  else if decpt <=? 0 then "0." +:+ zeros (Z.to_nat (- decpt)) +:+ ds
  else if len <=? decpt then ds +:+ zeros (Z.to_nat (decpt - len)) +:+ ".0"
  else substring 0 (Z.to_nat decpt) ds +:+ "." +:+
       substring (Z.to_nat decpt) (Z.to_nat (len - decpt)) ds.

(** [str(x)], which is [repr(x)]: the shortest decimal that reads back. *)
Definition str_of_float (x : float) : string :=
  match x with
  | S754_nan => "nan"
  | S754_infinity s => if s then "-inf" else "inf"
  | S754_zero s => if s then "-0.0" else "0.0"
  | S754_finite s m e =>
      let '(num, den) := fraction m e in
      let k := decimal_point num den in
      let '(c, n) := shortest_from 17 (S754_finite false m e) num den k 1 in
      let all := pretty c in
      let decpt := k + (Z.of_nat (String.length all) - n) in
      (if s then "-" else "") +:+ layout (strip_zeros all) decpt
  end.

(** [round(x, 2)]: the exact value rounded to two decimals, ties to even,
    and read back. *)
Definition round2 (x : float) : float :=
  match x with
  | S754_finite s m e =>
      let '(num, den) := fraction m e in
      let q := num * 100 / den in
      let r := (num * 100) mod den in
      let up := (den <? 2 * r) || ((den =? 2 * r) && Z.odd q) in
      of_decimal s (if up then q + 1 else q) (-2)
  | _ => x
  end.

(** *** [json.dumps] with its defaults *)

Definition dquote : string := String (ascii_of_N 34) EmptyString.
Definition backslash : string := String (ascii_of_N 92) EmptyString.

Definition hex_digit (n : N) : ascii :=
  if (n <? 10)%N then ascii_of_N (48 + n) else ascii_of_N (87 + n).

(** The code point [cp] as [\uXXXX]. *)
Definition u_escape (cp : N) : string :=
  backslash +:+ "u" +:+
  String (hex_digit (N.shiftr cp 12 mod 16))
    (String (hex_digit (N.shiftr cp 8 mod 16))
       (String (hex_digit (N.shiftr cp 4 mod 16))
          (String (hex_digit (cp mod 16)) EmptyString))).

(** A code point above the basic plane is a surrogate pair. *)
Definition escape_code_point (cp : N) : string :=
  if (cp <? 65536)%N then u_escape cp
  else
    let v := (cp - 65536)%N in
    u_escape (55296 + N.shiftr v 10 mod 1024) +:+ u_escape (56320 + v mod 1024).

Definition cont (c : ascii) : N := (N_of_ascii c mod 64)%N.

(** Everything but the printable ASCII characters is escaped; the bytes
    of a character outside ASCII are its UTF-8 encoding. *)
Fixpoint escape (s : string) : string :=
  match s with
  | EmptyString => EmptyString
  | String c s' =>
      let n := N_of_ascii c in
      if (n =? 34)%N then backslash +:+ dquote +:+ escape s'
      else if (n =? 92)%N then backslash +:+ backslash +:+ escape s'
      else if (n =? 10)%N then backslash +:+ "n" +:+ escape s'
      else if (n =? 13)%N then backslash +:+ "r" +:+ escape s'
      else if (n =? 9)%N then backslash +:+ "t" +:+ escape s'
      else if (n =? 8)%N then backslash +:+ "b" +:+ escape s'
      else if (n =? 12)%N then backslash +:+ "f" +:+ escape s'
      else if ((32 <=? n) && (n <=? 126))%N then String c (escape s')
      else if (n <? 192)%N then u_escape n +:+ escape s'
      else
        match s' with
        | String c2 s2 =>
            if (n <? 224)%N then
              escape_code_point ((n mod 32) * 64 + cont c2) +:+ escape s2
            else
              match s2 with
              | String c3 s3 =>
                  if (n <? 240)%N then
                    escape_code_point (((n mod 16) * 64 + cont c2) * 64 + cont c3)
                    +:+ escape s3
                  else
                    match s3 with
                    | String c4 s4 =>
                        escape_code_point
                          ((((n mod 8) * 64 + cont c2) * 64 + cont c3) * 64 + cont c4)
                        +:+ escape s4
                    | EmptyString => u_escape n +:+ escape s'
                    end
              | EmptyString => u_escape n +:+ escape s'
              end
        | EmptyString => u_escape n
        end
  end.

Definition quote (s : string) : string := dquote +:+ escape s +:+ dquote.

Fixpoint join (sep : string) (l : list string) : string :=
  match l with
  | [] => EmptyString
  | [x] => x
  | x :: l' => x +:+ sep +:+ join sep l'
  end.

Fixpoint json_dumps (j : json) : string :=
  match j with
  | JNull => "null"
  | JBool b => if b then "true" else "false"
  | JInt n => pretty n
  | JFloat x =>
      match x with
      | S754_nan => "NaN"
      | S754_infinity s => if s then "-Infinity" else "Infinity"
      | _ => str_of_float x
      end
  | JStr s => quote s
  | JList l => "[" +:+ join ", " (List.map json_dumps l) +:+ "]"
  | JDict kvs =>
      "{" +:+
      join ", " (List.map (fun kv => quote (fst kv) +:+ ": " +:+ json_dumps (snd kv)) kvs)
      +:+ "}"
  end.

(** *** [urllib.parse.urljoin] for a reference that is an absolute path *)

(** The scheme and authority of [base]: up to the first of [/?#] after
    [://]; empty when [base] has no [://]. *)
Fixpoint authority (s : string) : string :=
  match s with
  | String c s' =>
      if Ascii.eqb c "/" || Ascii.eqb c "?" || Ascii.eqb c "#" then EmptyString
      else String c (authority s')
  | EmptyString => EmptyString
  end.

Fixpoint scheme_and_authority (s : string) : option string :=
  match s with
  | String ":" (String "/" (String "/" rest)) => Some ("://" +:+ authority rest)
  | String c s' =>
      if Ascii.eqb c "/" || Ascii.eqb c "?" || Ascii.eqb c "#" then None
      else String c <$> scheme_and_authority s'
  | EmptyString => None
  end.

Definition urljoin (base url : string) : string :=
  match scheme_and_authority base with
  | Some origin => origin +:+ url
  | None => url
  end.

(** *** SHA-256 and HMAC (FIPS 180-4, RFC 2104) on byte strings *)

Definition word (x : Z) : Z := x mod 2 ^ 32.
Definition rotr (n x : Z) : Z := Z.lor (Z.shiftr x n) (word (Z.shiftl x (32 - n))).

(** The round constants are the first 32 bits of the fractional parts of
    the cube roots of the first 64 primes, the initial hash value those of
    the square roots of the first 8. *)
Definition is_prime (n : Z) : bool :=
  forallb (fun d => negb (n mod d =? 0)) (seqZ 2 (n - 2)).

Definition primes_below (n : Z) : list Z := List.filter is_prime (seqZ 2 (n - 2)).

(** The integer cube root of [n], bit by bit from [2^bits] down. *)
Fixpoint cube_root (bits : nat) (n r : Z) : Z :=
  match bits with
  | O => r
  | S bits' =>
      let r' := r + 2 ^ Z.of_nat bits' in
      cube_root bits' n (if r' * r' * r' <=? n then r' else r)
  end.

Definition sha_k : list Z :=
  (fun p => word (cube_root 40 (p * 2 ^ 96) 0)) <$> primes_below 312.

Definition sha_h0 : list Z :=
  (fun p => word (Z.sqrt (p * 2 ^ 64))) <$> primes_below 20.

Definition bytes_of (s : string) : list Z :=
  (fun c => Z.of_N (N_of_ascii c)) <$> list_ascii_of_string s.

Definition string_of (bs : list Z) : string :=
  string_of_list_ascii ((fun b => ascii_of_N (Z.to_N (b mod 256))) <$> bs).

(** Big-endian bytes of [x], [n] of them. *)
Fixpoint be_bytes (n : nat) (x : Z) : list Z :=
  match n with
  | O => []
  | S n' => Z.shiftr x (8 * Z.of_nat n') mod 256 :: be_bytes n' x
  end.

Definition sha_pad (msg : list Z) : list Z :=
  let len := Z.of_nat (length msg) in
  msg ++ [128] ++ replicate (Z.to_nat ((55 - len) mod 64)) 0 ++ be_bytes 8 (8 * len).

Fixpoint be_words (fuel : nat) (bs : list Z) : list Z :=
  match fuel, bs with
  | S fuel', a :: b :: c :: d :: bs' =>
      (Z.shiftl a 24 + Z.shiftl b 16 + Z.shiftl c 8 + d) :: be_words fuel' bs'
  | _, _ => []
  end.

(** The message schedule, latest word first. *)
Fixpoint schedule (n : nat) (w : list Z) : list Z :=
  match n with
  | O => w
  | S n' =>
      let at_ i := nth i w 0 in
      let s0 := Z.lxor (Z.lxor (rotr 7 (at_ 14%nat)) (rotr 18 (at_ 14%nat)))
                  (Z.shiftr (at_ 14%nat) 3) in
      let s1 := Z.lxor (Z.lxor (rotr 17 (at_ 1%nat)) (rotr 19 (at_ 1%nat)))
                  (Z.shiftr (at_ 1%nat) 10) in
      schedule n' (word (s1 + at_ 6%nat + s0 + at_ 15%nat) :: w)
  end.

Definition sha_round (st : list Z) (kw : Z * Z) : list Z :=
  match st with
  | [a; b; c; d; e; f; g; h] =>
      let big1 := Z.lxor (Z.lxor (rotr 6 e) (rotr 11 e)) (rotr 25 e) in
      let ch := Z.lxor (Z.land e f) (Z.land (Z.lxor e (2 ^ 32 - 1)) g) in
      let t1 := h + big1 + ch + kw.1 + kw.2 in
      let big0 := Z.lxor (Z.lxor (rotr 2 a) (rotr 13 a)) (rotr 22 a) in
      let maj := Z.lxor (Z.lxor (Z.land a b) (Z.land a c)) (Z.land b c) in
      [word (t1 + big0 + maj); a; b; c; word (d + t1); e; f; g]
  | _ => st
  end.

Definition sha_block (h : list Z) (block : list Z) : list Z :=
  let w := reverse (schedule 48 (reverse (be_words 16 block))) in
  let st := foldl sha_round h (zip sha_k w) in
  (fun p => word (p.1 + p.2)) <$> zip h st.

Fixpoint sha_blocks (fuel : nat) (h : list Z) (bs : list Z) : list Z :=
  match fuel, bs with
  | S fuel', _ :: _ => sha_blocks fuel' (sha_block h (take 64 bs)) (drop 64 bs)
  | _, _ => h
  end.

(** [hashlib.sha256(msg).digest()] *)
Definition sha256 (msg : list Z) : list Z :=
  let padded := sha_pad msg in
  mjoin (be_bytes 4 <$> sha_blocks (length padded) sha_h0 padded).

(** [hmac.new(key, msg, hashlib.sha256).digest()] *)
Definition hmac_sha256 (key msg : string) : string :=
  let k := bytes_of key in
  let k := if (64 <? Z.of_nat (length k)) then sha256 k else k in
  let k := k ++ replicate (64 - length k) 0 in
  let ipad := Z.lxor 54 <$> k in
  let opad := Z.lxor 92 <$> k in
  string_of (sha256 (opad ++ sha256 (ipad ++ bytes_of msg))).

End CPython.

Definition cpython : Runtime :=
  {| float_of_str := CPython.float_of_str;
     str_of_float := CPython.str_of_float;
     round2 := CPython.round2;
     json_dumps := CPython.json_dumps;
     urljoin := CPython.urljoin;
     hmac_sha256 := CPython.hmac_sha256 |}.

(** ** Sample deployments and worlds *)

(** The configuration when no environment variable is set. *)
Definition default_config : Config :=
  {| COINBASE_API_KEY := "";
     COINBASE_API_SECRET := "";
     COINBASE_PASSPHRASE := "";
     ALERT_SECRET := "changeme";
     MAX_USD_PER_ORDER := F.of_int 100;
     MIN_SECONDS_BETWEEN_ORDERS := 1;
     COINBASE_API_BASE := "https://api-public.sandbox.pro.coinbase.com" |}.

(** A store just created by [init_db], and a clock never read. *)
Definition fresh : World :=
  {| alerts := []; meta := ∅; clock_reads := 0; events := [] |}.

(** A clock that advances one second per reading. *)
Definition ticking (n : nat) : float := F.of_int (1700000000 + Z.of_nat n).

(** An exchange that answers every request the same way, one that is out
    of reach, and one whose first request times out. *)
Definition answering (r : HttpResponse) : Env :=
  {| clock := ticking; transport := fun _ _ _ _ => Ok r |}.

Definition unreachable (e : exn) : Env :=
  {| clock := ticking; transport := fun _ _ _ _ => Raise e |}.

Definition flaky (r : HttpResponse) : Env :=
  {| clock := ticking;
     transport := fun evs _ _ _ =>
       if existsb is_post evs then Ok r else Raise TimeoutError |}.

(** The exchange's answers: an order created, and a proxy error page. *)
Definition created : HttpResponse :=
  {| status_code := 201;
     text := CPython.json_dumps (JDict [("id", JStr "X")]);
     json_body := Some (JDict [("id", JStr "X")]) |}.

Definition bad_gateway : HttpResponse :=
  {| status_code := 502; text := "<html>Bad Gateway</html>"; json_body := None |}.

(** The default deployment with another API secret. *)
Definition with_secret (secret : string) : Config :=
  {| COINBASE_API_KEY := "key";
     COINBASE_API_SECRET := secret;
     COINBASE_PASSPHRASE := "passphrase";
     ALERT_SECRET := ALERT_SECRET default_config;
     MAX_USD_PER_ORDER := MAX_USD_PER_ORDER default_config;
     MIN_SECONDS_BETWEEN_ORDERS := MIN_SECONDS_BETWEEN_ORDERS default_config;
     COINBASE_API_BASE := COINBASE_API_BASE default_config |}.

(** A store whose checkpoint is not a number. *)
Definition garbled : World :=
  {| alerts := []; meta := {["last_order_ts" := Some "soon"]};
     clock_reads := 0; events := [] |}.

(** Sample alerts. *)
Definition buy_10_id_42 : string :=
  "secret: changeme; tv_id: 42; symbol: BTC-USD; action: buy; amount: 10".
Definition sell_50 : string :=
  "secret: changeme; symbol: BTC-USD; action: sell; amount: 50".
Definition buy_max : string :=
  "secret: changeme; symbol: BTC-USD; action: buy; amount: 100".
Definition buy_abc : string :=
  "secret: changeme; symbol: BTC-USD; action: buy; amount: abc".
Definition buy_empty_ids : string :=
  "secret: changeme; tv_id: ; id: ; symbol: BTC-USD; action: buy; amount: 10".
Definition buy_id_7 : string :=
  "secret: changeme; tv_id: ; id: 7; symbol: BTC-USD; action: buy; amount: 10".
Definition no_secret : string :=
  "symbol: BTC-USD; action: buy; amount: 10".

(** ** The parser over the library's own [strip] and [lower] *)

(** [parse_alert_text] with [str.strip] and [str.lower] left to the
    library.  Text is UTF-8, where the bytes of [;] and [:] occur in these
    two characters only, so the cuts are those of Python on every text,
    whatever the two methods do to characters beyond ASCII. *)
Section ParserOverStr.

Variable str_strip : string -> string.
Variable str_lower : string -> string.

Definition parse_segment_with (parts : gmap string string) (p : string)
  : result (gmap string string) :=
  if Py.contains ":" p then
    match Py.split1 ":" p with
    | [k; v] => Ok (<[str_lower (str_strip k) := str_strip v]> parts)
    | _ => Raise ValueError
    end
  else Ok parts.

Fixpoint parse_segments_with (parts : gmap string string) (ps : list string)
  : result (gmap string string) :=
  match ps with
  | [] => Ok parts
  | p :: ps' =>
      match parse_segment_with parts p with
      | Ok parts' => parse_segments_with parts' ps'
      | Raise e => Raise e
      end
  end.

Definition parse_alert_text_with (txt : string) : result (gmap string string) :=
  parse_segments_with ∅ (Py.split ";" txt).

(** The key/value pairs the specification describes, in order. *)
Definition fields_with (txt : string) : list (string * string) :=
  (fun p => (str_lower (str_strip (ParserSpec.before_colon p)),
             str_strip (ParserSpec.after_colon p)))
  <$> filter (fun p => Is_true (Py.contains ":" p)) (Py.split ";" txt).

End ParserOverStr.

(** What trimming and lower-casing mean on ASCII text, written out. *)
Module StrSpec.

(** The ASCII characters Python counts as whitespace: tab, line feed,
    vertical tab, form feed, carriage return, the four separators, space. *)
Definition whitespace : list ascii :=
  ascii_of_nat <$> [9; 10; 11; 12; 13; 28; 29; 30; 31; 32]%nat.

Definition is_ws (c : ascii) : bool := bool_decide (c ∈ whitespace).

Fixpoint all_ws (s : string) : bool :=
  match s with
  | String c s' => is_ws c && all_ws s'
  | EmptyString => true
  end.

(** The first character is not whitespace, if there is one. *)
Definition clean_start (s : string) : Prop :=
  match s with
  | String c _ => is_ws c = false
  | EmptyString => True
  end.

(** Neither end is whitespace. *)
Definition clean_ends (s : string) : Prop :=
  clean_start s ∧ clean_start (String.rev s).

(** [sep.join(ps)] *)
Fixpoint join (sep : ascii) (ps : list string) : string :=
  match ps with
  | [] => EmptyString
  | p :: ps' =>
      match ps' with
      | [] => p
      | _ :: _ => p +:+ String sep (join sep ps')
      end
  end.

(** The lower-case letter of each upper-case one; other characters stay. *)
Definition to_lower (c : ascii) : ascii :=
  match c with
  | "A" => "a" | "B" => "b" | "C" => "c" | "D" => "d" | "E" => "e"
  | "F" => "f" | "G" => "g" | "H" => "h" | "I" => "i" | "J" => "j"
  | "K" => "k" | "L" => "l" | "M" => "m" | "N" => "n" | "O" => "o"
  | "P" => "p" | "Q" => "q" | "R" => "r" | "S" => "s" | "T" => "t"
  | "U" => "u" | "V" => "v" | "W" => "w" | "X" => "x" | "Y" => "y"
  | "Z" => "z"
  | _ => c
  end%char.

End StrSpec.

(** [s.isascii()] *)
Definition isascii (s : string) : bool := Base64.is_ascii s.

(** ** Serving deliveries one after another *)

(** The world a delivery leaves behind, whether the handler answered or
    raised: the server goes on with the next request either way. *)
Definition deliver (cfg : Config) (py : Runtime) (env : Env) (w : World)
    (request_data : string) : World :=
  (tradingview_webhook cfg py env request_data w).2.

Definition serve (cfg : Config) (py : Runtime) (env : Env)
    (requests : list string) (w : World) : World :=
  foldl (deliver cfg py env) w requests.

(** ** Conditions on bodies, stores and headers *)

Module Store.

(** At most one record for each external id. *)
Definition unique_ids (w : World) : Prop := NoDup (omap rec_tv_id (alerts w)).

(** Row ids count up from one in insertion order. *)
Definition sequential_ids (w : World) : Prop :=
  rec_id <$> alerts w = seq 1 (length (alerts w)).

(** A record as the handler writes them. *)
Definition valid_record (cfg : Config) (r : AlertRecord) : Prop :=
  (rec_status r = "placed" ∨ rec_status r = "attempted") ∧
  rec_tv_id r ≠ Some "" ∧
  rec_raw r ≠ "" ∧ rec_symbol r ≠ "" ∧ rec_action r ≠ "" ∧
  F.leb_int (rec_amount r) 0 = false ∧
  F.ltb (MAX_USD_PER_ORDER cfg) (rec_amount r) = false.

(** The bookkeeping of the events against the tables. *)
Definition accounted (w : World) : Prop :=
  count is_insert w = length (alerts w) ∧
  count is_checkpoint w = count is_insert w ∧
  (count is_insert w ≤ count is_post w)%nat.

End Store.

(** Every character of [s] is whitespace. *)
Fixpoint blank (s : string) : bool :=
  match s with
  | String c s' => Py.isspace c && blank s'
  | EmptyString => true
  end.

(** No character of [s] is an upper-case ASCII letter. *)
Fixpoint no_upper (s : string) : bool :=
  match s with
  | String c s' =>
      negb ((65 <=? nat_of_ascii c)%nat && (nat_of_ascii c <=? 90)%nat) && no_upper s'
  | EmptyString => true
  end.

(** [s] neither starts nor ends with whitespace. *)
Definition trimmed (s : string) : Prop := Py.strip s = s.

(** The default deployment with a minimum of a minute between orders. *)
Definition one_per_minute : Config :=
  {| COINBASE_API_KEY := COINBASE_API_KEY default_config;
     COINBASE_API_SECRET := COINBASE_API_SECRET default_config;
     COINBASE_PASSPHRASE := COINBASE_PASSPHRASE default_config;
     ALERT_SECRET := ALERT_SECRET default_config;
     MAX_USD_PER_ORDER := MAX_USD_PER_ORDER default_config;
     MIN_SECONDS_BETWEEN_ORDERS := 60;
     COINBASE_API_BASE := COINBASE_API_BASE default_config |}.

(** The default deployment with an empty shared secret. *)
Definition no_alert_secret : Config :=
  {| COINBASE_API_KEY := COINBASE_API_KEY default_config;
     COINBASE_API_SECRET := COINBASE_API_SECRET default_config;
     COINBASE_PASSPHRASE := COINBASE_PASSPHRASE default_config;
     ALERT_SECRET := "";
     MAX_USD_PER_ORDER := MAX_USD_PER_ORDER default_config;
     MIN_SECONDS_BETWEEN_ORDERS := MIN_SECONDS_BETWEEN_ORDERS default_config;
     COINBASE_API_BASE := COINBASE_API_BASE default_config |}.

(** More sample alerts. *)
Definition wrong_secret : string :=
  "secret: letmein; symbol: BTC-USD; action: buy; amount: 10".
Definition no_amount : string :=
  "secret: changeme; symbol: BTC-USD; action: buy".
Definition buy_nan : string :=
  "secret: changeme; symbol: BTC-USD; action: buy; amount: nan".
Definition mixed_case : string :=
  "  Secret : changeme ;SYMBOL: BTC-USD; Action:Buy now; amount: 10 ; note".

(** * Properties *)

(** ** The parser *)

Lemma split1_colon (p : string) :
  Py.contains ":" p = true →
  Py.split1 ":" p = [ParserSpec.before_colon p; ParserSpec.after_colon p].
Proof.
  induction p as [|c p IH]; simpl; [discriminate|].
  destruct (Ascii.eqb c ":"); simpl; [reflexivity|].
  intros Hp. rewrite (IH Hp). reflexivity.
Qed.

Lemma parse_segment_ok (parts : gmap string string) (p : string) :
  parse_segment parts p =
  Ok (if Py.contains ":" p
      then <[(ParserSpec.key_value p).1 := (ParserSpec.key_value p).2]> parts
      else parts).
Proof.
  unfold parse_segment.
  destruct (Py.contains ":" p) eqn:Hp; [|reflexivity].
  rewrite (split1_colon p Hp). reflexivity.
Qed.

Lemma parse_segments_ok (ps : list string) (parts : gmap string string) :
  parse_segments parts ps =
  Ok (foldl (fun m kv => <[kv.1 := kv.2]> m) parts
        (ParserSpec.key_value <$> filter (fun p => Is_true (Py.contains ":" p)) ps)).
Proof.
  revert parts. induction ps as [|p ps IH]; intros parts; simpl; [reflexivity|].
  rewrite parse_segment_ok, filter_cons.
  destruct (Py.contains ":" p) eqn:Hp.
  - rewrite decide_True by exact I. simpl. apply IH.
  - rewrite decide_False by (intros []). apply IH.
Qed.

Lemma foldl_insert_lookup (kvs : list (string * string)) (m : gmap string string)
    (k : string) :
  foldl (fun m kv => <[kv.1 := kv.2]> m) m kvs !! k =
  match ParserSpec.last_value k kvs with
  | Some v => Some v
  | None => m !! k
  end.
Proof.
  unfold ParserSpec.last_value.
  revert m. induction kvs as [|[k' v'] kvs IH]; intros m; simpl; [reflexivity|].
  rewrite IH, filter_cons. simpl.
  destruct (decide (k' = k)) as [->|Hne].
  - rewrite last_cons.
    destruct (last (filter (λ kv : string * string, kv.1 = k) kvs)); simpl;
      [reflexivity|apply lookup_insert_eq].
  - destruct (last (filter (λ kv : string * string, kv.1 = k) kvs)); simpl;
      [reflexivity|by apply lookup_insert_ne].
Qed.

Lemma parse_alert_text_ok (txt : string) :
  parse_alert_text txt = Ok (PipelineSpec.parse txt).
Proof.
  unfold parse_alert_text, PipelineSpec.parse, ParserSpec.fields.
  rewrite parse_segments_ok. f_equal.
  generalize (ParserSpec.key_value <$>
    filter (λ p : string, Is_true (Py.contains ":" p)) (Py.split ";" txt)).
  intros kvs. apply map_eq. intros k.
  rewrite foldl_insert_lookup, lookup_empty.
  unfold ParserSpec.last_value.
  induction kvs as [|[k' v'] kvs IH] using rev_ind; [reflexivity|].
  rewrite reverse_snoc, filter_app, filter_cons, filter_nil. simpl.
  destruct (decide (k' = k)) as [->|Hne].
  - rewrite last_snoc. simpl. symmetry. apply lookup_insert_eq.
  - rewrite app_nil_r, lookup_insert_ne by done. exact IH.
Qed.

Lemma parse_lookup (txt k : string) :
  PipelineSpec.parse txt !! k = ParserSpec.last_value k (ParserSpec.fields txt).
Proof.
  pose proof (parse_alert_text_ok txt) as H.
  unfold parse_alert_text in H. rewrite parse_segments_ok in H.
  injection H as H. rewrite <- H, foldl_insert_lookup, lookup_empty.
  unfold ParserSpec.fields. by destruct (ParserSpec.last_value _ _).
Qed.

(** ** The handler follows steps 1 to 8 *)

Lemma truthy_empty (s : string) : negb (Py.truthy s) = bool_decide (s = "").
Proof. by destruct s. Qed.

Lemma idempotency_key_external_id (data : gmap string string) :
  idempotency_key data = PipelineSpec.external_id data.
Proof.
  unfold idempotency_key, PipelineSpec.external_id, Py.or_else.
  destruct (data !! "tv_id") as [[|c s]|]; simpl;
    destruct (data !! "id") as [[|c' s']|]; reflexivity.
Qed.

Lemma external_id_truthy (data : gmap string string) (t : string) :
  PipelineSpec.external_id data = Some t → Py.truthy t = true.
Proof.
  unfold PipelineSpec.external_id.
  destruct (data !! "tv_id") as [[|c s]|]; simpl;
    destruct (data !! "id") as [[|c' s']|]; simpl; intros [= <-]; reflexivity.
Qed.

Lemma existsb_has_tv_id (t : string) (rs : list AlertRecord) :
  existsb (has_tv_id t) rs = bool_decide (Some t ∈ rec_tv_id <$> rs).
Proof.
  induction rs as [|r rs IH]; simpl.
  - reflexivity.
  - rewrite IH. unfold has_tv_id.
    destruct (decide (rec_tv_id r = Some t)) as [Hr|Hr].
    + rewrite (bool_decide_eq_true_2 _ Hr). simpl. symmetry.
      apply bool_decide_eq_true. rewrite Hr. apply list_elem_of_here.
    + rewrite (bool_decide_eq_false_2 _ Hr). simpl.
      apply bool_decide_ext. rewrite elem_of_cons.
      split; [auto|intros [?|?]; [congruence|assumption]].
Qed.

Section Pipeline.

Variable cfg : Config.
Variable py : Runtime.
Variable env : Env.

Lemma get_last_order_ts_spec (w : World) :
  get_last_order_ts py w = (Ok (PipelineSpec.last_timestamp py w), w).
Proof.
  unfold get_last_order_ts, PipelineSpec.last_timestamp.
  destruct (meta w !! "last_order_ts") as [[v|]|]; simpl; try reflexivity.
  destruct (float_of_str py v); reflexivity.
Qed.

Lemma webhook_tail (tv_id : option string) (raw : string)
    (data : gmap string string) (w : World) :
  match data !! "symbol", data !! "action", data !! "amount" with
  | Some symbol, Some action, Some amount =>
      if negb (Py.truthy symbol) || negb (Py.truthy action)
         || negb (Py.truthy amount) then
        respond [("error", JStr "missing fields");
                 ("received", json_of_dict data)] 400
      else
      match float_of_str py amount with
      | None =>
          ret (JList [JDict [("error", JStr "invalid amount")]; JInt 400], 200)
      | Some usd_amount =>
          if F.leb_int usd_amount 0 || F.ltb (MAX_USD_PER_ORDER cfg) usd_amount then
            respond [("error", JStr "amount out of bounds");
                     ("max_allowed", JFloat (MAX_USD_PER_ORDER cfg))] 400
          else
          last_ts <- get_last_order_ts py ;;
          now_ts <- time_time env ;;
          if F.ltb_int (F.sub now_ts last_ts) (MIN_SECONDS_BETWEEN_ORDERS cfg) then
            respond [("error", JStr "rate limit");
                     ("min_seconds", JInt (MIN_SECONDS_BETWEEN_ORDERS cfg))] 429
          else
          let side :=
            if Py.startswith "buy" (Py.lower action) then "buy" else "sell" in
          placed <- place_market_order_by_funds cfg py env symbol side usd_amount ;;
          let '(status_code, resp) := placed in
          insert_alert py tv_id raw symbol action usd_amount
            (if negb (is_success status_code) then "attempted" else "placed") resp ;;
          set_last_order_ts py now_ts ;;
          if is_success status_code then
            respond [("status", JStr "ok"); ("code", JInt status_code);
                     ("response", resp)] 200
          else
            respond [("status", JStr "error"); ("code", JInt status_code);
                     ("response", resp)] 500
      end
  | _, _, _ =>
      respond [("error", JStr "missing fields");
               ("received", json_of_dict data)] 400
  end w =
  run_verdict cfg py env (PipelineSpec.steps_5_8 cfg py env tv_id raw data w) w.
Proof.
  unfold PipelineSpec.steps_5_8.
  destruct (data !! "symbol") as [[|c1 symbol]|]; try reflexivity;
    destruct (data !! "action") as [[|c2 action]|]; try reflexivity;
    destruct (data !! "amount") as [[|c3 amount]|]; try reflexivity.
  cbn [PipelineSpec.present Py.truthy negb orb].
  destruct (float_of_str py (String c3 amount)) as [x|]; [|reflexivity].
  destruct (F.leb_int x 0 || F.ltb (MAX_USD_PER_ORDER cfg) x); [reflexivity|].
  unfold bind at 1. rewrite get_last_order_ts_spec.
  unfold bind at 1. unfold time_time at 1. fold (tick w).
  destruct (F.ltb_int _ _); [reflexivity|].
  unfold run_verdict. fold (PipelineSpec.side_of (String c2 action)).
  unfold bind at 1.
  destruct (place_market_order_by_funds _ _ _ _ _ _ _) as [[[code resp]|e] w1];
    [|reflexivity].
  unfold bind, insert_alert, set_last_order_ts, respond, ret,
    Replies.reply, Replies.persisted,
    Replies.record.
  simpl. destruct (is_success code); simpl; rewrite <- app_assoc; reflexivity.
Qed.

(** The handler computes the verdict of steps 1 to 8 and acts on it. *)
Lemma webhook_by_steps (request_data : string) (w : World) :
  tradingview_webhook cfg py env request_data w =
  run_verdict cfg py env (PipelineSpec.steps_1_8 cfg py env request_data w) w.
Proof.
  unfold tradingview_webhook, PipelineSpec.steps_1_8.
  rewrite truthy_empty.
  destruct (bool_decide (Py.strip request_data = "")); [reflexivity|].
  unfold bind at 1. unfold lift at 1. rewrite parse_alert_text_ok.
  set (data := PipelineSpec.parse (Py.strip request_data)).
  destruct (String.eqb_spec (default "" (data !! "secret")) (ALERT_SECRET cfg))
    as [Hs|Hs].
  2: { rewrite (bool_decide_eq_false_2 _ Hs). reflexivity. }
  rewrite (bool_decide_eq_true_2 _ Hs). cbn [negb].
  rewrite idempotency_key_external_id.
  destruct (PipelineSpec.external_id data) as [t|] eqn:Ht.
  - pose proof (external_id_truthy _ _ Ht) as Htt.
    unfold bind at 1. cbn [Py.truthy_opt]. rewrite Htt.
    unfold already_processed. rewrite Htt. cbn [negb default].
    rewrite existsb_has_tv_id. fold (PipelineSpec.exists_by_external_id t w).
    destruct (PipelineSpec.exists_by_external_id t w); [reflexivity|].
    apply webhook_tail.
  - unfold bind at 1. simpl. apply webhook_tail.
Qed.

End Pipeline.

(** ** Requests that reach the amount *)

Lemma recorded_exists (t : string) (w : World) :
  Wording.recorded t w ↔ PipelineSpec.exists_by_external_id t w = true.
Proof.
  unfold Wording.recorded, PipelineSpec.exists_by_external_id.
  rewrite bool_decide_eq_true, list_elem_of_fmap. split.
  - intros (r & Hr & Ht). exists r. split; [by symmetry|exact Hr].
  - intros (r & Ht & Hr). exists r. split; [exact Hr|by symmetry].
Qed.

Lemma present_nonempty (o : option string) (s : string) :
  o = Some s → s ≠ "" → PipelineSpec.present o = Some s.
Proof. intros -> Hs. destruct s; [done|reflexivity]. Qed.

Section Checks.

Variable cfg : Config.
Variable py : Runtime.
Variable env : Env.

Lemma passes_checks_steps (request_data : string) (w : World)
    (data : gmap string string) (symbol action amount : string) :
  Wording.passes_checks cfg request_data w data symbol action amount →
  PipelineSpec.steps_1_8 cfg py env request_data w =
  match float_of_str py amount with
  | None => InvalidAmount
  | Some x =>
      if F.leb_int x 0 || F.ltb (MAX_USD_PER_ORDER cfg) x then OutOfBounds
      else if F.ltb_int
                (F.sub (clock env (clock_reads w)) (PipelineSpec.last_timestamp py w))
                (MIN_SECONDS_BETWEEN_ORDERS cfg)
      then RateLimited
      else Accepted (idempotency_key data) (Py.strip request_data) symbol action x
             (clock env (clock_reads w))
  end.
Proof.
  intros (Hraw & Hdata & Hsecret & Hdup & Hsym & Hsym' & Hact & Hact' & Hamt & Hamt').
  rewrite parse_alert_text_ok in Hdata. injection Hdata as Hdata.
  unfold PipelineSpec.steps_1_8.
  rewrite (bool_decide_eq_false_2 _ Hraw). cbv zeta. rewrite Hdata.
  rewrite (bool_decide_eq_true_2 _ Hsecret).
  assert (Hsteps : PipelineSpec.steps_5_8 cfg py env (idempotency_key data)
                     (Py.strip request_data) data w = _) by
    (unfold PipelineSpec.steps_5_8;
     rewrite (present_nonempty _ _ Hsym Hsym'), (present_nonempty _ _ Hact Hact'),
       (present_nonempty _ _ Hamt Hamt'); reflexivity).
  rewrite <- Hsteps, idempotency_key_external_id.
  destruct (PipelineSpec.external_id data) as [t|] eqn:Ht; [|reflexivity].
  destruct (PipelineSpec.exists_by_external_id t w) eqn:Hex; [|reflexivity].
  exfalso. apply (Hdup t).
  - by rewrite idempotency_key_external_id.
  - by apply recorded_exists.
Qed.

(** C1. A request that passes the empty-body, secret, duplicate-id and
    missing-fields checks and whose amount does not parse as a number is
    answered with the default status 200 and the two-element list
    [[{error: "invalid amount"}, 400]]: the status 400 is handed to
    [jsonify] instead of being returned next to it.  Nothing is written. *)
Theorem invalid_amount_answer (request_data : string) (w : World)
    (data : gmap string string) (symbol action amount : string) :
  Wording.passes_checks cfg request_data w data symbol action amount →
  float_of_str py amount = None →
  tradingview_webhook cfg py env request_data w =
  (Ok (JList [JDict [("error", JStr "invalid amount")]; JInt 400], 200), w).
Proof.
  intros Hchecks Hamount.
  rewrite webhook_by_steps, (passes_checks_steps _ _ _ _ _ _ Hchecks), Hamount.
  reflexivity.
Qed.

(** C8. A request that reaches the bounds check with parsed amount [x] is
    answered 400 with [{error: "amount out of bounds", max_allowed}]
    exactly when [x <= 0] or [x > MAX_USD_PER_ORDER]; so a zero amount and
    any amount above the maximum are rejected, and the maximum itself,
    when it is positive, is accepted. *)
Theorem amount_bounds (request_data : string) (w : World)
    (data : gmap string string) (symbol action amount : string) (x : float) :
  Wording.passes_checks cfg request_data w data symbol action amount →
  float_of_str py amount = Some x →
  let out_of_bounds :=
    tradingview_webhook cfg py env request_data w =
    (Ok (JDict [("error", JStr "amount out of bounds");
                ("max_allowed", JFloat (MAX_USD_PER_ORDER cfg))], 400), w) in
  (out_of_bounds ↔ F.leb_int x 0 = true ∨ F.ltb (MAX_USD_PER_ORDER cfg) x = true) ∧
  ((∃ s, x = S754_zero s) → out_of_bounds) ∧
  (F.ltb (MAX_USD_PER_ORDER cfg) x = true → out_of_bounds) ∧
  (x = MAX_USD_PER_ORDER cfg → F.leb_int x 0 = false → ¬ out_of_bounds).
Proof.
  intros Hchecks Hamount out_of_bounds.
  assert (Hiff : out_of_bounds ↔
                 F.leb_int x 0 = true ∨ F.ltb (MAX_USD_PER_ORDER cfg) x = true).
  { unfold out_of_bounds.
    rewrite webhook_by_steps, (passes_checks_steps _ _ _ _ _ _ Hchecks), Hamount.
    rewrite <- orb_true_iff.
    destruct (F.leb_int x 0 || F.ltb (MAX_USD_PER_ORDER cfg) x); [done|].
    split; [|discriminate].
    destruct (F.ltb_int _ _); simpl; [discriminate|].
    destruct (place_market_order_by_funds _ _ _ _ _ _ _) as [[[code resp]|e] w1];
      [|discriminate].
    unfold Replies.reply. destruct (is_success code); discriminate. }
  split; [exact Hiff|]. split; [|split].
  - intros [s ->]. apply Hiff. left. reflexivity.
  - intros Hgt. apply Hiff. by right.
  - intros -> Hpos Hout. apply Hiff in Hout as [Hle|Hgt]; [congruence|].
    unfold F.ltb, SFltb, SFcompare in Hgt.
    destruct (MAX_USD_PER_ORDER cfg) as [| | |s m e]; try discriminate.
    + destruct s; discriminate.
    + rewrite Z.compare_refl, Pos.compare_cont_refl in Hgt.
      destruct s; discriminate.
Qed.

End Checks.

(** ** Verdicts and what is written *)

Section Effects.

Variable cfg : Config.
Variable py : Runtime.
Variable env : Env.

Lemma cb_auth_headers_events (method path body : string) (w : World) :
  let w' := (cb_auth_headers cfg py env method path body w).2 in
  alerts w' = alerts w ∧ meta w' = meta w ∧ events w' = events w ∧
  clock_reads w' = S (clock_reads w).
Proof.
  unfold cb_auth_headers, bind, time_time, lift, ret. simpl.
  destruct (F.to_int _); simpl; [|done].
  destruct (Base64.b64decode _); simpl; done.
Qed.

(** Placing an order leaves the store alone and makes at most one call. *)
Lemma place_market_order_by_funds_events (product_id side : string)
    (usd_amount : float) (w w' : World) (out : result (Z * json)) :
  place_market_order_by_funds cfg py env product_id side usd_amount w = (out, w') →
  alerts w' = alerts w ∧ meta w' = meta w ∧
  (events w' = events w ∨ ∃ url headers data, events w' = events w ++ [Post url headers data]).
Proof.
  unfold place_market_order_by_funds.
  set (body := json_dumps py _). set (url := urljoin py _ _).
  pose proof (cb_auth_headers_events "POST" "/orders" body w) as H.
  unfold bind at 1.
  destruct (cb_auth_headers cfg py env "POST" "/orders" body w) as [[hdrs|e] w1];
    simpl in H; destruct H as (Ha & Hm & He & _); [|intros [= _ <-]; by auto].
  unfold bind, requests_post. rewrite <- Ha, <- Hm, <- He.
  destruct (transport env (events w1) url hdrs body) as [r|e].
  - destruct (json_body r); intros [= _ <-]; simpl;
      (split; [done|split; [done|right; by exists url, hdrs, body]]).
  - intros [= _ <-]; simpl.
    split; [done|split; [done|right; by exists url, hdrs, body]].
Qed.

(** When it returns, it made exactly one call. *)
Lemma place_market_order_by_funds_returns (product_id side : string)
    (usd_amount : float) (w w1 : World) (code : Z) (resp : json) :
  place_market_order_by_funds cfg py env product_id side usd_amount w
    = (Ok (code, resp), w1) →
  alerts w1 = alerts w ∧ meta w1 = meta w ∧
  ∃ url headers data, events w1 = events w ++ [Post url headers data].
Proof.
  unfold place_market_order_by_funds.
  set (body := json_dumps py _). set (url := urljoin py _ _).
  pose proof (cb_auth_headers_events "POST" "/orders" body w) as H.
  unfold bind at 1.
  destruct (cb_auth_headers cfg py env "POST" "/orders" body w) as [[hdrs|e] w1'];
    simpl in H; destruct H as (Ha & Hm & He & _); [|discriminate].
  unfold bind, requests_post. rewrite <- Ha, <- Hm, <- He.
  destruct (transport env (events w1') url hdrs body) as [r|e]; [|discriminate].
  destruct (json_body r); intros [= _ _ <-]; simpl;
    (split; [done|split; [done|by exists url, hdrs, body]]).
Qed.

(** A rejection leaves the tables and the events as they were. *)
Lemma rejection_writes_nothing (v : verdict) (w : World) :
  is_accepted v = false →
  let '(out, w') := run_verdict cfg py env v w in
  (∃ reply, out = Ok reply) ∧
  alerts w' = alerts w ∧ meta w' = meta w ∧ events w' = events w.
Proof. destruct v; simpl; try discriminate; eauto. Qed.

End Effects.

(** ** Writes, replies and fallbacks of the pipeline *)

Lemma F_sub_zero (x : float) : F.sub x F.zero = x.
Proof. destruct x as [[]|[]| |s m e]; reflexivity. Qed.

Lemma geb_int_not_ltb_int (x : float) (n : Z) :
  F.geb_int x n = true → F.ltb_int x n = false.
Proof.
  unfold F.geb_int, F.ltb_int.
  destruct (F.compare_int x n) as [[]|]; done.
Qed.

Lemma is_success_spec (code : Z) : is_success code = true ↔ code = 200 ∨ code = 201.
Proof. unfold is_success. rewrite orb_true_iff, !Z.eqb_eq. reflexivity. Qed.

Section PipelineProperties.

Variable cfg : Config.
Variable py : Runtime.
Variable env : Env.

(** The status of the answer tells rate limiting and duplicates apart
    from every other verdict. *)
Lemma run_verdict_status (v : verdict) (w w' : World) (body : json) (status : Z) :
  run_verdict cfg py env v w = (Ok (body, status), w') →
  (status = 429 → v = RateLimited) ∧
  (status = 409 → ∃ t, v = DuplicateAlert t).
Proof.
  destruct v; simpl.
  8: { destruct (place_market_order_by_funds _ _ _ _ _ _ _) as [[[code resp]|e] w1];
         [|discriminate].
       unfold Replies.reply.
       destruct (is_success code); intros [= <- <- <-]; split; discriminate. }
  all: intros [= <- <- <-]; split; intros; try discriminate; eauto.
Qed.

(** C4, as the code has it.  A request rejected at one of steps 1 to 8 is
    answered and performs no insert and no checkpoint write.  A request
    that passes them performs exactly one insert and one checkpoint write
    whenever order placement returns, whatever the status code; when
    order placement raises, the handler raises too and nothing is
    written. *)
Theorem writes_per_request (request_data : string) (w : World) :
  (is_accepted (PipelineSpec.steps_1_8 cfg py env request_data w) = false →
   ∃ reply w',
     tradingview_webhook cfg py env request_data w = (Ok reply, w') ∧
     alerts w' = alerts w ∧ meta w' = meta w ∧
     count is_insert w' = count is_insert w ∧
     count is_checkpoint w' = count is_checkpoint w) ∧
  (∀ tv_id raw symbol action usd_amount now_ts,
     PipelineSpec.steps_1_8 cfg py env request_data w =
       Accepted tv_id raw symbol action usd_amount now_ts →
     (∀ code resp w1,
        place_market_order_by_funds cfg py env symbol
          (PipelineSpec.side_of action) usd_amount (tick w) = (Ok (code, resp), w1) →
        ∃ reply w',
          tradingview_webhook cfg py env request_data w = (Ok reply, w') ∧
          length (alerts w') = S (length (alerts w)) ∧
          count is_insert w' = S (count is_insert w) ∧
          count is_checkpoint w' = S (count is_checkpoint w)) ∧
     (∀ e w1,
        place_market_order_by_funds cfg py env symbol
          (PipelineSpec.side_of action) usd_amount (tick w) = (Raise e, w1) →
        ∃ w',
          tradingview_webhook cfg py env request_data w = (Raise e, w') ∧
          alerts w' = alerts w ∧ meta w' = meta w ∧
          count is_insert w' = count is_insert w ∧
          count is_checkpoint w' = count is_checkpoint w)).
Proof.
  rewrite webhook_by_steps. split.
  - intros Hrej.
    pose proof (rejection_writes_nothing cfg py env _ w Hrej) as H.
    destruct (run_verdict cfg py env _ w) as [out w'].
    destruct H as ([reply ->] & Ha & Hm & He).
    exists reply, w'. unfold count. rewrite He. done.
  - intros tv_id raw symbol action usd_amount now_ts ->. simpl. split.
    + intros code resp w1 Hplace. rewrite Hplace.
      apply place_market_order_by_funds_returns in Hplace
        as (Ha & _ & url & hdrs & data & He).
      eexists _, _. split; [reflexivity|]. simpl.
      rewrite length_app, Ha. simpl. split; [lia|].
      unfold count. simpl. rewrite He, !List.filter_app, !length_app. simpl.
      split; lia.
    + intros e w1 Hplace. rewrite Hplace. exists w1. split; [reflexivity|].
      apply place_market_order_by_funds_events in Hplace
        as (Ha & Hm & [He|(url & hdrs & data & He)]); simpl in *.
      * unfold count. rewrite He. done.
      * unfold count. rewrite He, !List.filter_app, !length_app. simpl.
        repeat split; [done|done|lia|lia].
Qed.

(** The record and the answer once order placement has returned. *)
Lemma record_and_reply_returned (request_data : string) (w w1 : World)
    (tv_id : option string) (raw symbol action : string)
    (usd_amount now_ts : float) (code : Z) (resp : json) :
  PipelineSpec.steps_1_8 cfg py env request_data w =
    Accepted tv_id raw symbol action usd_amount now_ts →
  place_market_order_by_funds cfg py env symbol
    (PipelineSpec.side_of action) usd_amount (tick w) = (Ok (code, resp), w1) →
  ∃ r body status w2,
    tradingview_webhook cfg py env request_data w = (Ok (body, status), w2) ∧
    alerts w2 = alerts w ++ [r] ∧
    rec_tv_id r = tv_id ∧ rec_symbol r = symbol ∧ rec_action r = action ∧
    rec_amount r = usd_amount ∧
    (code = 200 ∨ code = 201 →
     rec_status r = "placed" ∧ status = 200 ∧
     body = JDict [("status", JStr "ok"); ("code", JInt code); ("response", resp)]) ∧
    (¬ (code = 200 ∨ code = 201) →
     rec_status r = "attempted" ∧ status = 500 ∧
     body = JDict [("status", JStr "error"); ("code", JInt code); ("response", resp)]).
Proof.
  intros Hv Hplace. rewrite webhook_by_steps, Hv. simpl. rewrite Hplace.
  apply place_market_order_by_funds_returns in Hplace as (Ha & _ & _).
  unfold Replies.reply.
  eexists (Replies.record py w1 tv_id raw symbol action usd_amount code resp).
  destruct (is_success code) eqn:Hcode.
  - eexists _, _, _. split; [reflexivity|]. simpl. rewrite Ha, Hcode.
    repeat split; try done.
    all: exfalso; match goal with H : ¬ _ |- _ => apply H end;
      by apply is_success_spec.
  - eexists _, _, _. split; [reflexivity|]. simpl. rewrite Ha, Hcode.
    repeat split; try done.
    all: match goal with H : _ ∨ _ |- _ => apply is_success_spec in H end;
      congruence.
Qed.

(** C5, as the code has it.  For an alert that reaches order placement:
    when the gateway returns status [code] and body [resp], one record is
    appended whose status is "placed" if [code] is 200 or 201 and
    "attempted" otherwise, and the answer is 200 [{status: "ok", code,
    response}] in the first case and 500 [{status: "error", code,
    response}] in the second; when order placement raises, no record is
    persisted and the handler raises the same exception instead of
    answering. *)
Theorem record_and_reply (request_data : string) (w : World)
    (tv_id : option string) (raw symbol action : string)
    (usd_amount now_ts : float) :
  PipelineSpec.steps_1_8 cfg py env request_data w =
    Accepted tv_id raw symbol action usd_amount now_ts →
  (∀ code resp w1,
     place_market_order_by_funds cfg py env symbol
       (PipelineSpec.side_of action) usd_amount (tick w) = (Ok (code, resp), w1) →
     ∃ r body status w2,
       tradingview_webhook cfg py env request_data w = (Ok (body, status), w2) ∧
       alerts w2 = alerts w ++ [r] ∧
       rec_tv_id r = tv_id ∧ rec_symbol r = symbol ∧ rec_action r = action ∧
       rec_amount r = usd_amount ∧
       (code = 200 ∨ code = 201 →
        rec_status r = "placed" ∧ status = 200 ∧
        body = JDict [("status", JStr "ok"); ("code", JInt code); ("response", resp)]) ∧
       (¬ (code = 200 ∨ code = 201) →
        rec_status r = "attempted" ∧ status = 500 ∧
        body = JDict [("status", JStr "error"); ("code", JInt code);
                      ("response", resp)])) ∧
  (∀ e w1,
     place_market_order_by_funds cfg py env symbol
       (PipelineSpec.side_of action) usd_amount (tick w) = (Raise e, w1) →
     tradingview_webhook cfg py env request_data w = (Raise e, w1) ∧
     alerts w1 = alerts w).
Proof.
  intros Hv. split.
  - intros code resp w1 Hplace.
    exact (record_and_reply_returned request_data w w1 tv_id raw symbol action
             usd_amount now_ts code resp Hv Hplace).
  - intros e w1 Hplace. rewrite webhook_by_steps, Hv. simpl. rewrite Hplace.
    split; [reflexivity|].
    by apply place_market_order_by_funds_events in Hplace as (Ha & _).
Qed.

(** C9. When the checkpoint row is missing, or holds NULL or a text that
    does not parse as a float, [get_last_order_ts] returns [0.0] without
    raising; so against a store without a checkpoint, at a time not below
    [MIN_SECONDS_BETWEEN_ORDERS], no request is answered 429. *)
Theorem get_last_order_ts_fallback :
  (∀ w : World,
     meta w !! "last_order_ts" = None ∨
     meta w !! "last_order_ts" = Some None ∨
     (∃ v, meta w !! "last_order_ts" = Some (Some v) ∧ float_of_str py v = None) →
     get_last_order_ts py w = (Ok F.zero, w)) ∧
  (∀ (request_data : string) (w : World),
     meta w !! "last_order_ts" = None →
     F.geb_int (clock env (clock_reads w)) (MIN_SECONDS_BETWEEN_ORDERS cfg) = true →
     PipelineSpec.steps_1_8 cfg py env request_data w ≠ RateLimited ∧
     ∀ body w', tradingview_webhook cfg py env request_data w ≠ (Ok (body, 429), w')).
Proof.
  split.
  - intros w [H|[H|(v & H & Hv)]]; unfold get_last_order_ts; rewrite H; simpl;
      [reflexivity|reflexivity|by rewrite Hv].
  - intros request_data w Hmeta Hnow.
    assert (Hv : PipelineSpec.steps_1_8 cfg py env request_data w ≠ RateLimited).
    { unfold PipelineSpec.steps_1_8.
      assert (H58 : ∀ tv raw data,
                PipelineSpec.steps_5_8 cfg py env tv raw data w ≠ RateLimited).
      { intros tv raw data. unfold PipelineSpec.steps_5_8, PipelineSpec.last_timestamp.
        rewrite Hmeta, F_sub_zero, (geb_int_not_ltb_int _ _ Hnow).
        repeat case_match; discriminate. }
      repeat case_match; try discriminate; apply H58. }
    split; [exact Hv|].
    intros body w' H. rewrite webhook_by_steps in H.
    apply run_verdict_status in H as [H _]. by apply Hv, H.
Qed.

(** C10. [already_processed] is false for [None] and for the empty
    string.  An alert whose resolved id is absent is never answered 409,
    whatever the store holds.  An empty [tv_id] counts as absent: the id
    is then the non-empty [id] field, and there is none when [id] is
    empty or missing too. *)
Theorem absent_id_never_duplicate :
  (∀ w : World,
     already_processed None w = (Ok false, w) ∧
     already_processed (Some "") w = (Ok false, w)) ∧
  (∀ (request_data : string) (w : World) (data : gmap string string),
     parse_alert_text (Py.strip request_data) = Ok data →
     idempotency_key data = None →
     ∀ body w', tradingview_webhook cfg py env request_data w ≠ (Ok (body, 409), w')) ∧
  (∀ (data : gmap string string) (t : string),
     data !! "tv_id" = Some "" → data !! "id" = Some t → t ≠ "" →
     idempotency_key data = Some t) ∧
  (∀ data : gmap string string,
     data !! "tv_id" = Some "" ∨ data !! "tv_id" = None →
     data !! "id" = Some "" ∨ data !! "id" = None →
     idempotency_key data = None).
Proof.
  split; [|split; [|split]].
  - intros w. split; reflexivity.
  - intros request_data w data Hdata Hkey body w' H.
    rewrite webhook_by_steps in H.
    apply run_verdict_status in H as [_ H]. destruct (H eq_refl) as [t Ht].
    revert Ht. unfold PipelineSpec.steps_1_8.
    rewrite parse_alert_text_ok in Hdata. injection Hdata as ->.
    rewrite <- idempotency_key_external_id, Hkey.
    unfold PipelineSpec.steps_5_8. repeat case_match; discriminate.
  - intros data t Htv Hid Ht. unfold idempotency_key, Py.or_else.
    rewrite Htv, Hid. by destruct t.
  - intros data [Htv|Htv] [Hid|Hid]; unfold idempotency_key, Py.or_else;
      rewrite Htv, Hid; reflexivity.
Qed.

End PipelineProperties.

(** ** Idempotency *)

Lemma carries_external_id (data : gmap string string) (t : string) :
  Wording.carries data t → t ≠ "" → PipelineSpec.external_id data = Some t.
Proof.
  unfold Wording.carries, PipelineSpec.external_id.
  intros [Htv|[Htv Hid]] Ht; rewrite Htv; [|rewrite Hid]; by destruct t.
Qed.

Lemma not_exists_no_records (t : string) (w : World) :
  PipelineSpec.exists_by_external_id t w = false → Wording.records_of t w = 0%nat.
Proof.
  unfold PipelineSpec.exists_by_external_id, Wording.records_of.
  rewrite <- existsb_has_tv_id.
  induction (alerts w) as [|r rs IH]; simpl; [reflexivity|].
  destruct (has_tv_id t r); simpl; [discriminate|exact IH].
Qed.

Section Idempotency.

Variable cfg : Config.
Variable py : Runtime.
Variable env : Env.

Lemma accepted_with_id_is_new (request_data : string) (w : World) (t : string)
    (raw symbol action : string) (usd_amount now_ts : float) :
  PipelineSpec.steps_1_8 cfg py env request_data w =
    Accepted (Some t) raw symbol action usd_amount now_ts →
  PipelineSpec.exists_by_external_id t w = false.
Proof.
  unfold PipelineSpec.steps_1_8.
  assert (H58 : ∀ tv raw' data,
            PipelineSpec.steps_5_8 cfg py env tv raw' data w =
              Accepted (Some t) raw symbol action usd_amount now_ts →
            tv = Some t).
  { intros tv raw' data. unfold PipelineSpec.steps_5_8.
    repeat case_match; try discriminate. by intros [= -> _ _ _ _ _]. }
  repeat case_match; try discriminate.
  - intros Hacc. apply H58 in Hacc as [= <-]. assumption.
  - intros Hacc. apply H58 in Hacc. discriminate.
Qed.

Lemma duplicate_verdict (request_data : string) (w : World)
    (data : gmap string string) (t : string) :
  Py.strip request_data ≠ "" →
  parse_alert_text (Py.strip request_data) = Ok data →
  default "" (data !! "secret") = ALERT_SECRET cfg →
  Wording.carries data t → t ≠ "" →
  PipelineSpec.exists_by_external_id t w = true →
  tradingview_webhook cfg py env request_data w =
  (Ok (JDict [("error", JStr "duplicate alert"); ("tv_id", JStr t)], 409), w).
Proof.
  intros Hraw Hdata Hsecret Hcarries Ht Hex.
  rewrite webhook_by_steps. unfold PipelineSpec.steps_1_8.
  rewrite parse_alert_text_ok in Hdata. injection Hdata as ->.
  rewrite (bool_decide_eq_false_2 _ Hraw). cbv zeta.
  rewrite (bool_decide_eq_true_2 _ Hsecret).
  rewrite (carries_external_id _ _ Hcarries Ht), Hex. reflexivity.
Qed.

(** C3, as the code has it.  Let [t] be a non-empty id carried by a
    request with a non-empty body and the right secret.  If the store
    holds a record with [tv_id] [t], the request is answered 409
    [{error: "duplicate alert", tv_id: t}] and the world is left as it
    was: no record, no exchange call.  Hence, after a first delivery with
    id [t] that passed steps 1 to 8 and whose order placement returned,
    there is exactly one record with [tv_id] [t] and one more exchange
    call, and the request is answered 409 and adds nothing. *)
Theorem duplicate_rejected (request_data : string) (data : gmap string string)
    (t : string) :
  t ≠ "" →
  Py.strip request_data ≠ "" →
  parse_alert_text (Py.strip request_data) = Ok data →
  default "" (data !! "secret") = ALERT_SECRET cfg →
  Wording.carries data t →
  (∀ w : World,
     Wording.recorded t w →
     tradingview_webhook cfg py env request_data w =
     (Ok (JDict [("error", JStr "duplicate alert"); ("tv_id", JStr t)], 409), w)) ∧
  (∀ (first : string) (w w1 : World) (reply : json * Z)
     (raw symbol action : string) (usd_amount now_ts : float),
     PipelineSpec.steps_1_8 cfg py env first w =
       Accepted (Some t) raw symbol action usd_amount now_ts →
     tradingview_webhook cfg py env first w = (Ok reply, w1) →
     Wording.records_of t w1 = 1%nat ∧
     count is_post w1 = S (count is_post w) ∧
     tradingview_webhook cfg py env request_data w1 =
     (Ok (JDict [("error", JStr "duplicate alert"); ("tv_id", JStr t)], 409), w1)).
Proof.
  intros Ht Hraw Hdata Hsecret Hcarries. split.
  - intros w Hrec. apply (duplicate_verdict _ _ data); try done.
    by apply recorded_exists.
  - intros first w w1 reply raw symbol action usd_amount now_ts Hv Hfirst.
    pose proof (accepted_with_id_is_new _ _ _ _ _ _ _ _ Hv) as Hnew.
    rewrite webhook_by_steps, Hv in Hfirst. simpl in Hfirst.
    destruct (place_market_order_by_funds _ _ _ _ _ _ _)
      as [[[code resp]|e] w0] eqn:Hplace; [|discriminate].
    apply place_market_order_by_funds_returns in Hplace
      as (Ha & _ & url & hdrs & body & He).
    injection Hfirst as _ <-. simpl in Ha.
    assert (Hone : Wording.records_of t
              (Replies.persisted py w0
                 (Replies.record py w0 (Some t) raw symbol action usd_amount code resp)
                 now_ts) = 1%nat).
    { unfold Wording.records_of. simpl.
      rewrite List.filter_app, length_app, Ha. simpl.
      fold (Wording.records_of t w). rewrite (not_exists_no_records _ _ Hnew).
      unfold has_tv_id. simpl. by rewrite bool_decide_eq_true_2. }
    split; [exact Hone|]. split.
    + unfold count. simpl. rewrite He. simpl.
      rewrite !List.filter_app, !length_app. simpl. lia.
    + apply (duplicate_verdict _ _ data); try done.
      match goal with
      | |- PipelineSpec.exists_by_external_id t ?x = true =>
          destruct (PipelineSpec.exists_by_external_id t x) eqn:Hex; [done|]
      end.
      apply not_exists_no_records in Hex.
      discriminate (eq_trans (eq_sym Hex) Hone).
Qed.

End Idempotency.

(** ** Signer and gateway *)

Lemma in_alphabet_value (c : ascii) :
  Base64.in_alphabet c = true → ∃ v, Base64.value c = Some v.
Proof.
  unfold Base64.in_alphabet. rewrite bool_decide_eq_true. intros [v Hv]. eauto.
Qed.

Lemma in_alphabet_not_pad (c : ascii) :
  Base64.in_alphabet c = true → Ascii.eqb c "=" = false.
Proof.
  destruct (Ascii.eqb_spec c "=") as [->|]; [|reflexivity].
  vm_compute. discriminate.
Qed.

Lemma in_alphabet_ascii (c : ascii) :
  Base64.in_alphabet c = true → (N_of_ascii c <? 128)%N = true.
Proof.
  destruct c as [[] [] [] [] [] [] [] []]; vm_compute; congruence.
Qed.

(** A data character moves the decoder one place on in its group. *)
Lemma a2b_loop_data (c : ascii) (s : string) (quad_pos : nat) (leftchar : N)
    (pads : nat) (out : string) :
  Base64.in_alphabet c = true →
  ∃ leftchar' out',
    Base64.a2b_loop (String c s) quad_pos leftchar pads out =
    Base64.a2b_loop s (match quad_pos with
                       | 0 => 1 | 1 => 2 | 2 => 3 | _ => 0
                       end)%nat leftchar' 0 out'.
Proof.
  intros Hc. destruct (in_alphabet_value c Hc) as [v Hv].
  simpl. rewrite (in_alphabet_not_pad c Hc), Hv.
  destruct quad_pos as [|[|[|q]]]; eauto.
Qed.

Lemma valid_groups_decodes (fuel : nat) :
  ∀ (s : string) (leftchar : N) (out : string),
    Base64.valid_groups fuel s = true →
    ∃ key, Base64.a2b_loop s 0 leftchar 0 out = Ok key.
Proof.
  induction fuel as [|fuel IH]; intros s leftchar out.
  - destruct s; simpl; [eauto|discriminate].
  - destruct s as [|a [|b [|c [|d rest]]]]; simpl Base64.valid_groups;
      [eauto|discriminate..|].
    intros H. apply andb_prop in H as [Hab H]. apply andb_prop in Hab as [Ha Hb].
    destruct (a2b_loop_data a (String b (String c (String d rest))) 0 leftchar 0 out Ha)
      as (l1 & o1 & ->).
    destruct (a2b_loop_data b (String c (String d rest)) 1 l1 0 o1 Hb)
      as (l2 & o2 & ->).
    destruct rest as [|e rest].
    + apply orb_prop in H as [H|H].
      * apply andb_prop in H as [Hc Hd].
        destruct (a2b_loop_data c (String d "") 2 l2 0 o2 Hc) as (l3 & o3 & ->).
        apply orb_prop in Hd as [Hd|Hd].
        -- destruct (a2b_loop_data d "" 3 l3 0 o3 Hd) as (l4 & o4 & ->).
           simpl. eauto.
        -- simpl. rewrite Hd. simpl. eauto.
      * apply andb_prop in H as [Hc Hd]. simpl. rewrite Hc, Hd. simpl. eauto.
    + apply andb_prop in H as [Hcd H]. apply andb_prop in Hcd as [Hc Hd].
      destruct (a2b_loop_data c (String d (String e rest)) 2 l2 0 o2 Hc)
        as (l3 & o3 & ->).
      destruct (a2b_loop_data d (String e rest) 3 l3 0 o3 Hd) as (l4 & o4 & ->).
      apply IH. exact H.
Qed.

Lemma valid_groups_ascii (fuel : nat) :
  ∀ s : string, Base64.valid_groups fuel s = true → Base64.is_ascii s = true.
Proof.
  induction fuel as [|fuel IH]; intros s.
  - destruct s; simpl; [reflexivity|discriminate].
  - destruct s as [|a [|b [|c [|d rest]]]]; simpl Base64.valid_groups;
      [reflexivity|discriminate..|].
    intros H. apply andb_prop in H as [Hab H]. apply andb_prop in Hab as [Ha Hb].
    simpl Base64.is_ascii.
    rewrite (in_alphabet_ascii a Ha), (in_alphabet_ascii b Hb). simpl.
    assert (Hpad : ∀ x, Ascii.eqb x "=" = true → (N_of_ascii x <? 128)%N = true)
      by (intros x Hx; apply Ascii.eqb_eq in Hx as ->; reflexivity).
    destruct rest as [|e rest].
    + apply orb_prop in H as [H|H]; apply andb_prop in H as [Hc Hd].
      * rewrite (in_alphabet_ascii c Hc). simpl.
        apply orb_prop in Hd as [Hd|Hd];
          [rewrite (in_alphabet_ascii d Hd)|rewrite (Hpad d Hd)]; reflexivity.
      * rewrite (Hpad c Hc), (Hpad d Hd). reflexivity.
    + apply andb_prop in H as [Hcd H]. apply andb_prop in Hcd as [Hc Hd].
      rewrite (in_alphabet_ascii c Hc), (in_alphabet_ascii d Hd). simpl.
      apply (IH _ H).
Qed.

(** Well-formed base64 always decodes. *)
Lemma valid_decodes (s : string) :
  Base64.valid s = true → ∃ key, Base64.b64decode s = Ok key.
Proof.
  unfold Base64.valid, Base64.b64decode. intros H.
  rewrite (valid_groups_ascii _ _ H). by apply (valid_groups_decodes _ _ _ _ H).
Qed.

Section Gateway.

Variable cfg : Config.
Variable py : Runtime.
Variable env : Env.

(** C6, as the code has it.  At a clock reading of [secs] whole seconds,
    if [base64.b64decode] accepts the configured secret and yields [key],
    the headers are the API key, the timestamp [secs] in decimal, the
    passphrase, the content type, and under CB-ACCESS-SIGN the base64 of
    the HMAC-SHA256, keyed by [key], of timestamp, upper-cased method,
    path and body: a function of these inputs alone.  Signing fails
    exactly when the decoder rejects the secret, which it never does for
    well-formed base64. *)
Theorem cb_auth_headers_spec (method path body : string) (w : World) (secs : Z) :
  F.to_int (clock env (clock_reads w)) = Ok secs →
  (∀ key,
     Base64.b64decode (COINBASE_API_SECRET cfg) = Ok key →
     cb_auth_headers cfg py env method path body w =
     (Ok [("CB-ACCESS-KEY", COINBASE_API_KEY cfg);
          ("CB-ACCESS-SIGN",
           Wording.signature py key (pretty secs) method path body);
          ("CB-ACCESS-TIMESTAMP", pretty secs);
          ("CB-ACCESS-PASSPHRASE", COINBASE_PASSPHRASE cfg);
          ("Content-Type", "application/json")], tick w)) ∧
  (∀ e,
     Base64.b64decode (COINBASE_API_SECRET cfg) = Raise e →
     cb_auth_headers cfg py env method path body w = (Raise e, tick w)) ∧
  (Base64.valid (COINBASE_API_SECRET cfg) = true →
   ∃ headers, cb_auth_headers cfg py env method path body w = (Ok headers, tick w)).
Proof.
  intros Hsecs.
  assert (Hok : ∀ key,
            Base64.b64decode (COINBASE_API_SECRET cfg) = Ok key →
            cb_auth_headers cfg py env method path body w =
            (Ok [("CB-ACCESS-KEY", COINBASE_API_KEY cfg);
                 ("CB-ACCESS-SIGN",
                  Wording.signature py key (pretty secs) method path body);
                 ("CB-ACCESS-TIMESTAMP", pretty secs);
                 ("CB-ACCESS-PASSPHRASE", COINBASE_PASSPHRASE cfg);
                 ("Content-Type", "application/json")], tick w)).
  { intros key Hkey.
    unfold cb_auth_headers, bind, time_time, lift. fold (tick w).
    rewrite Hsecs. cbn [clock_reads tick]. rewrite Hkey. reflexivity. }
  split; [exact Hok|]. split.
  - intros e He.
    unfold cb_auth_headers, bind, time_time, lift. fold (tick w).
    rewrite Hsecs. cbn [clock_reads tick]. rewrite He. reflexivity.
  - intros Hvalid. destruct (valid_decodes _ Hvalid) as [key Hkey].
    eexists. apply (Hok key Hkey).
Qed.

(** C2, as the code has it.  Once the request is signed, if the transport
    hands back a response, [place_market_order_by_funds] returns its
    status code with the decoded JSON body, or with the raw text when the
    body is not JSON; if the transport raises (timeout, connection
    refused), so does [place_market_order_by_funds], and so it does when
    signing raises. *)
Theorem place_market_order_by_funds_result (product_id side : string)
    (usd_amount : float) (w : World) :
  let body :=
    json_dumps py (JDict [("type", JStr "market");
                          ("side", JStr side);
                          ("product_id", JStr product_id);
                          ("funds", JStr (str_of_float py (round2 py usd_amount)))]) in
  let url := urljoin py (COINBASE_API_BASE cfg) "/orders" in
  (∀ headers w1,
     cb_auth_headers cfg py env "POST" "/orders" body w = (Ok headers, w1) →
     (∀ r,
        transport env (events w1) url headers body = Ok r →
        ∃ w2,
          place_market_order_by_funds cfg py env product_id side usd_amount w =
          (Ok (status_code r,
               match json_body r with Some j => j | None => JStr (text r) end), w2)) ∧
     (∀ e,
        transport env (events w1) url headers body = Raise e →
        ∃ w2,
          place_market_order_by_funds cfg py env product_id side usd_amount w =
          (Raise e, w2))) ∧
  (∀ e w1,
     cb_auth_headers cfg py env "POST" "/orders" body w = (Raise e, w1) →
     place_market_order_by_funds cfg py env product_id side usd_amount w =
     (Raise e, w1)).
Proof.
  intros body url. split.
  - intros headers w1 Hsign. split.
    + intros r Hr. unfold place_market_order_by_funds. fold body. fold url.
      unfold bind at 1. rewrite Hsign.
      unfold bind, requests_post. rewrite Hr.
      destruct (json_body r); eexists; reflexivity.
    + intros e He. unfold place_market_order_by_funds. fold body. fold url.
      unfold bind at 1. rewrite Hsign.
      unfold bind, requests_post. rewrite He. eexists; reflexivity.
  - intros e w1 Hsign. unfold place_market_order_by_funds. fold body. fold url.
    unfold bind at 1. rewrite Hsign. reflexivity.
Qed.

End Gateway.

(** * The properties on sample requests *)

Ltac run := vm_compute; reflexivity.

Lemma fresh_has_no_record (t : string) : ¬ Wording.recorded t fresh.
Proof. intros (r & Hr & _). by apply elem_of_nil in Hr. Qed.

Lemma passes_checks_fresh (request_data symbol action amount : string) :
  Py.strip request_data ≠ "" →
  default "" (PipelineSpec.parse (Py.strip request_data) !! "secret") = "changeme" →
  PipelineSpec.parse (Py.strip request_data) !! "symbol" = Some symbol →
  symbol ≠ "" →
  PipelineSpec.parse (Py.strip request_data) !! "action" = Some action →
  action ≠ "" →
  PipelineSpec.parse (Py.strip request_data) !! "amount" = Some amount →
  amount ≠ "" →
  Wording.passes_checks default_config request_data fresh
    (PipelineSpec.parse (Py.strip request_data)) symbol action amount.
Proof.
  intros. repeat split; try assumption.
  - apply parse_alert_text_ok.
  - intros t _. apply fresh_has_no_record.
Qed.

Lemma invalid_amount_answer_witness :
  Wording.passes_checks default_config buy_abc fresh
    (PipelineSpec.parse (Py.strip buy_abc)) "BTC-USD" "buy" "abc" ∧
  float_of_str cpython "abc" = None ∧
  tradingview_webhook default_config cpython (answering created) buy_abc fresh =
  (Ok (JList [JDict [("error", JStr "invalid amount")]; JInt 400], 200), fresh).
Proof.
  assert (Hc : Wording.passes_checks default_config buy_abc fresh
                 (PipelineSpec.parse (Py.strip buy_abc)) "BTC-USD" "buy" "abc").
  { apply passes_checks_fresh; solve [run | vm_compute; discriminate]. }
  assert (Hf : float_of_str cpython "abc" = None) by run.
  split; [exact Hc|]. split; [exact Hf|].
  exact (invalid_amount_answer default_config cpython (answering created)
           buy_abc fresh _ "BTC-USD" "buy" "abc" Hc Hf).
Defined.

Lemma amount_bounds_witness :
  Wording.passes_checks default_config buy_max fresh
    (PipelineSpec.parse (Py.strip buy_max)) "BTC-USD" "buy" "100" ∧
  float_of_str cpython "100" = Some (MAX_USD_PER_ORDER default_config) ∧
  F.leb_int (MAX_USD_PER_ORDER default_config) 0 = false ∧
  tradingview_webhook default_config cpython (answering created) buy_max fresh ≠
  (Ok (JDict [("error", JStr "amount out of bounds");
              ("max_allowed", JFloat (MAX_USD_PER_ORDER default_config))], 400), fresh).
Proof.
  assert (Hc : Wording.passes_checks default_config buy_max fresh
                 (PipelineSpec.parse (Py.strip buy_max)) "BTC-USD" "buy" "100").
  { apply passes_checks_fresh; solve [run | vm_compute; discriminate]. }
  assert (Hf : float_of_str cpython "100" = Some (MAX_USD_PER_ORDER default_config))
    by run.
  assert (Hp : F.leb_int (MAX_USD_PER_ORDER default_config) 0 = false) by run.
  split; [exact Hc|]. split; [exact Hf|]. split; [exact Hp|].
  exact (proj2 (proj2 (proj2
           (amount_bounds default_config cpython (answering created)
              buy_max fresh _ "BTC-USD" "buy" "100" _ Hc Hf))) eq_refl Hp).
Defined.

Lemma record_and_reply_witness :
  ((∃ raw now_ts w1,
      PipelineSpec.steps_1_8 default_config cpython (answering created) sell_50 fresh =
        Accepted None raw "BTC-USD" "sell" (F.of_int 50) now_ts ∧
      place_market_order_by_funds default_config cpython (answering created)
        "BTC-USD" (PipelineSpec.side_of "sell") (F.of_int 50) (tick fresh) =
        (Ok (201, JDict [("id", JStr "X")]), w1)) ∧
   ∃ r w2,
     tradingview_webhook default_config cpython (answering created) sell_50 fresh =
     (Ok (JDict [("status", JStr "ok"); ("code", JInt 201);
                 ("response", JDict [("id", JStr "X")])], 200), w2) ∧
     alerts w2 = [r] ∧ rec_status r = "placed") ∧
  ((∃ raw now_ts w1,
      PipelineSpec.steps_1_8 default_config cpython (unreachable ConnectionError)
        sell_50 fresh =
        Accepted None raw "BTC-USD" "sell" (F.of_int 50) now_ts ∧
      place_market_order_by_funds default_config cpython (unreachable ConnectionError)
        "BTC-USD" (PipelineSpec.side_of "sell") (F.of_int 50) (tick fresh) =
        (Raise ConnectionError, w1)) ∧
   ∃ w1,
     tradingview_webhook default_config cpython (unreachable ConnectionError)
       sell_50 fresh = (Raise ConnectionError, w1) ∧
     alerts w1 = []).
Proof.
  split.
  - assert (Hv : PipelineSpec.steps_1_8 default_config cpython (answering created)
                   sell_50 fresh =
                 Accepted None sell_50 "BTC-USD" "sell" (F.of_int 50) (ticking 0)) by run.
    assert (Hp : place_market_order_by_funds default_config cpython (answering created)
                   "BTC-USD" (PipelineSpec.side_of "sell") (F.of_int 50) (tick fresh) =
                 (Ok (201, JDict [("id", JStr "X")]),
                  (place_market_order_by_funds default_config cpython
                     (answering created) "BTC-USD" (PipelineSpec.side_of "sell")
                     (F.of_int 50) (tick fresh)).2)) by run.
    split; [eauto|].
    destruct (proj1 (record_and_reply default_config cpython (answering created)
                       sell_50 fresh None sell_50 "BTC-USD" "sell" (F.of_int 50)
                       (ticking 0) Hv)
                201 (JDict [("id", JStr "X")]) _ Hp)
      as (r & body & status & w2 & Hrun & Halerts & _ & _ & _ & _ & Hyes & _).
    destruct (Hyes (or_intror eq_refl)) as (Hstatus & -> & ->).
    exists r, w2. split; [exact Hrun|]. split; [exact Halerts|exact Hstatus].
  - assert (Hv : PipelineSpec.steps_1_8 default_config cpython
                   (unreachable ConnectionError) sell_50 fresh =
                 Accepted None sell_50 "BTC-USD" "sell" (F.of_int 50) (ticking 0)) by run.
    assert (Hp : place_market_order_by_funds default_config cpython
                   (unreachable ConnectionError) "BTC-USD" (PipelineSpec.side_of "sell")
                   (F.of_int 50) (tick fresh) =
                 (Raise ConnectionError,
                  (place_market_order_by_funds default_config cpython
                     (unreachable ConnectionError) "BTC-USD"
                     (PipelineSpec.side_of "sell") (F.of_int 50) (tick fresh)).2)) by run.
    split; [eauto|].
    destruct (proj2 (record_and_reply default_config cpython
                       (unreachable ConnectionError) sell_50 fresh None sell_50
                       "BTC-USD" "sell" (F.of_int 50) (ticking 0) Hv)
                ConnectionError _ Hp) as (Hrun & Halerts).
    eexists. split; [exact Hrun|exact Halerts].
Defined.

(** C5 as stated fails when the exchange refuses the connection: the alert
    reaches order placement, yet no record is persisted, with either status,
    and the handler raises instead of answering 200 or 500. *)
Lemma refused_order_leaves_no_record :
  PipelineSpec.steps_1_8 default_config cpython (unreachable ConnectionError)
    buy_10_id_42 fresh =
    Accepted (Some "42") buy_10_id_42 "BTC-USD" "buy" (F.of_int 10) (ticking 0) ∧
  (tradingview_webhook default_config cpython (unreachable ConnectionError)
     buy_10_id_42 fresh).1 = Raise ConnectionError ∧
  alerts (tradingview_webhook default_config cpython (unreachable ConnectionError)
            buy_10_id_42 fresh).2 = [] ∧
  count is_post (tradingview_webhook default_config cpython
                   (unreachable ConnectionError) buy_10_id_42 fresh).2 = 1%nat.
Proof. repeat split; run. Qed.

Lemma writes_per_request_witness :
  (is_accepted (PipelineSpec.steps_1_8 default_config cpython (answering bad_gateway)
                  no_secret fresh) = false ∧
   ∃ reply w',
     tradingview_webhook default_config cpython (answering bad_gateway) no_secret fresh
       = (Ok reply, w') ∧
     count is_insert w' = 0%nat ∧ count is_checkpoint w' = 0%nat) ∧
  ((∃ raw now_ts w1,
      PipelineSpec.steps_1_8 default_config cpython (answering bad_gateway) sell_50 fresh
        = Accepted None raw "BTC-USD" "sell" (F.of_int 50) now_ts ∧
      place_market_order_by_funds default_config cpython (answering bad_gateway)
        "BTC-USD" (PipelineSpec.side_of "sell") (F.of_int 50) (tick fresh) =
        (Ok (502, JStr "<html>Bad Gateway</html>"), w1)) ∧
   ∃ reply w',
     tradingview_webhook default_config cpython (answering bad_gateway) sell_50 fresh
       = (Ok reply, w') ∧
     count is_insert w' = 1%nat ∧ count is_checkpoint w' = 1%nat).
Proof.
  split.
  - assert (Hr : is_accepted (PipelineSpec.steps_1_8 default_config cpython
                                (answering bad_gateway) no_secret fresh) = false) by run.
    split; [exact Hr|].
    destruct (proj1 (writes_per_request default_config cpython (answering bad_gateway)
                       no_secret fresh) Hr)
      as (reply & w' & Hrun & _ & _ & Hi & Hc).
    exists reply, w'. split; [exact Hrun|]. split; [exact Hi|exact Hc].
  - assert (Hv : PipelineSpec.steps_1_8 default_config cpython (answering bad_gateway)
                   sell_50 fresh =
                 Accepted None sell_50 "BTC-USD" "sell" (F.of_int 50) (ticking 0)) by run.
    assert (Hp : place_market_order_by_funds default_config cpython
                   (answering bad_gateway) "BTC-USD" (PipelineSpec.side_of "sell")
                   (F.of_int 50) (tick fresh) =
                 (Ok (502, JStr "<html>Bad Gateway</html>"),
                  (place_market_order_by_funds default_config cpython
                     (answering bad_gateway) "BTC-USD" (PipelineSpec.side_of "sell")
                     (F.of_int 50) (tick fresh)).2)) by run.
    split; [eauto|].
    destruct (proj1 (proj2 (writes_per_request default_config cpython
                              (answering bad_gateway) sell_50 fresh)
                       None sell_50 "BTC-USD" "sell" (F.of_int 50) (ticking 0) Hv)
                _ _ _ Hp)
      as (reply & w' & Hrun & _ & Hi & Hc).
    exists reply, w'. split; [exact Hrun|]. split; [exact Hi|exact Hc].
Defined.

(** C4 as stated fails when the exchange is out of reach: the request
    passes steps 1 to 8 and the order is sent, but the handler raises and
    writes neither a record nor the checkpoint. *)
Lemma timeout_writes_nothing :
  is_accepted (PipelineSpec.steps_1_8 default_config cpython
                 (unreachable TimeoutError) sell_50 fresh) = true ∧
  (tradingview_webhook default_config cpython (unreachable TimeoutError)
     sell_50 fresh).1 = Raise TimeoutError ∧
  let w' := (tradingview_webhook default_config cpython (unreachable TimeoutError)
               sell_50 fresh).2 in
  count is_post w' = 1%nat ∧ count is_insert w' = 0%nat ∧
  count is_checkpoint w' = 0%nat ∧ alerts w' = [].
Proof. repeat split; run. Qed.

Lemma duplicate_rejected_witness :
  ("42" ≠ "" ∧
   Py.strip buy_10_id_42 ≠ "" ∧
   parse_alert_text (Py.strip buy_10_id_42) = Ok (PipelineSpec.parse buy_10_id_42) ∧
   default "" (PipelineSpec.parse buy_10_id_42 !! "secret") = ALERT_SECRET default_config ∧
   Wording.carries (PipelineSpec.parse buy_10_id_42) "42") ∧
  ∃ reply w1,
    PipelineSpec.steps_1_8 default_config cpython (answering created) buy_10_id_42 fresh
      = Accepted (Some "42") buy_10_id_42 "BTC-USD" "buy" (F.of_int 10) (ticking 0) ∧
    tradingview_webhook default_config cpython (answering created) buy_10_id_42 fresh
      = (Ok reply, w1) ∧
    Wording.recorded "42" w1 ∧
    Wording.records_of "42" w1 = 1%nat ∧
    count is_post w1 = 1%nat ∧
    tradingview_webhook default_config cpython (answering created) buy_10_id_42 w1 =
    (Ok (JDict [("error", JStr "duplicate alert"); ("tv_id", JStr "42")], 409), w1).
Proof.
  assert (H1 : "42" ≠ "") by discriminate.
  assert (H2 : Py.strip buy_10_id_42 ≠ "") by (vm_compute; discriminate).
  assert (H3 : parse_alert_text (Py.strip buy_10_id_42) =
               Ok (PipelineSpec.parse buy_10_id_42)) by run.
  assert (H4 : default "" (PipelineSpec.parse buy_10_id_42 !! "secret") =
               ALERT_SECRET default_config) by run.
  assert (H5 : Wording.carries (PipelineSpec.parse buy_10_id_42) "42") by (left; run).
  split; [done|].
  assert (Hv : PipelineSpec.steps_1_8 default_config cpython (answering created)
                 buy_10_id_42 fresh =
               Accepted (Some "42") buy_10_id_42 "BTC-USD" "buy" (F.of_int 10)
                 (ticking 0)) by run.
  assert (Hrun : tradingview_webhook default_config cpython (answering created)
                   buy_10_id_42 fresh =
                 (Ok (JDict [("status", JStr "ok"); ("code", JInt 201);
                             ("response", JDict [("id", JStr "X")])], 200),
                  (tradingview_webhook default_config cpython (answering created)
                     buy_10_id_42 fresh).2)) by run.
  destruct (duplicate_rejected default_config cpython (answering created)
              buy_10_id_42 (PipelineSpec.parse buy_10_id_42) "42" H1 H2 H3 H4 H5)
    as [Hdup Htwice].
  destruct (Htwice buy_10_id_42 fresh _ _ _ _ _ _ _ Hv Hrun) as (Hone & Hpost & Hagain).
  eexists _, _. split; [exact Hv|]. split; [exact Hrun|].
  assert (Hrec : Wording.recorded "42"
                   (tradingview_webhook default_config cpython (answering created)
                      buy_10_id_42 fresh).2).
  { apply recorded_exists. run. }
  split; [exact Hrec|]. split; [exact Hone|]. split; [exact Hpost|].
  exact (Hdup _ Hrec).
Defined.

(** C3 as stated fails when the first delivery times out at the exchange:
    the handler raises before anything is recorded, the sender's retry of
    the same id is processed again, and the two deliveries of id 42 make two
    exchange calls. *)
Lemma retry_after_timeout_places_twice :
  Wording.carries (PipelineSpec.parse buy_10_id_42) "42" ∧
  let first := tradingview_webhook default_config cpython (flaky created)
                 buy_10_id_42 fresh in
  let second := tradingview_webhook default_config cpython (flaky created)
                  buy_10_id_42 first.2 in
  first.1 = Raise TimeoutError ∧
  Wording.records_of "42" first.2 = 0%nat ∧
  second.1 = Ok (JDict [("status", JStr "ok"); ("code", JInt 201);
                        ("response", JDict [("id", JStr "X")])], 200) ∧
  Wording.records_of "42" second.2 = 1%nat ∧
  count is_post second.2 = 2%nat.
Proof. split; [left; run|]. repeat split; run. Qed.

Lemma get_last_order_ts_fallback_witness :
  ((∃ v, meta garbled !! "last_order_ts" = Some (Some v) ∧
         float_of_str cpython v = None) ∧
   get_last_order_ts cpython garbled = (Ok F.zero, garbled)) ∧
  (meta fresh !! "last_order_ts" = None ∧
   F.geb_int (clock (answering created) (clock_reads fresh))
     (MIN_SECONDS_BETWEEN_ORDERS default_config) = true ∧
   PipelineSpec.steps_1_8 default_config cpython (answering created) sell_50 fresh
     ≠ RateLimited ∧
   ∀ body w',
     tradingview_webhook default_config cpython (answering created) sell_50 fresh
       ≠ (Ok (body, 429), w')).
Proof.
  assert (Hg : ∃ v, meta garbled !! "last_order_ts" = Some (Some v) ∧
                    float_of_str cpython v = None)
    by (exists "soon"; split; run).
  assert (Hm : meta fresh !! "last_order_ts" = None) by run.
  assert (Hn : F.geb_int (clock (answering created) (clock_reads fresh))
                 (MIN_SECONDS_BETWEEN_ORDERS default_config) = true) by run.
  destruct (get_last_order_ts_fallback default_config cpython (answering created))
    as [Hzero Hfirst].
  split.
  - split; [exact Hg|]. apply Hzero. right. right. exact Hg.
  - split; [exact Hm|]. split; [exact Hn|]. exact (Hfirst sell_50 fresh Hm Hn).
Defined.

Lemma absent_id_never_duplicate_witness :
  (parse_alert_text (Py.strip buy_empty_ids) = Ok (PipelineSpec.parse buy_empty_ids) ∧
   PipelineSpec.parse buy_empty_ids !! "tv_id" = Some "" ∧
   PipelineSpec.parse buy_empty_ids !! "id" = Some "" ∧
   idempotency_key (PipelineSpec.parse buy_empty_ids) = None ∧
   ∀ w body w',
     tradingview_webhook default_config cpython (answering created) buy_empty_ids w
       ≠ (Ok (body, 409), w')) ∧
  (PipelineSpec.parse buy_id_7 !! "tv_id" = Some "" ∧
   PipelineSpec.parse buy_id_7 !! "id" = Some "7" ∧
   "7" ≠ "" ∧
   idempotency_key (PipelineSpec.parse buy_id_7) = Some "7").
Proof.
  destruct (absent_id_never_duplicate default_config cpython (answering created))
    as (_ & Hpass & Hfall & Hnone).
  assert (Hp : parse_alert_text (Py.strip buy_empty_ids) =
               Ok (PipelineSpec.parse buy_empty_ids)) by run.
  assert (Htv : PipelineSpec.parse buy_empty_ids !! "tv_id" = Some "") by run.
  assert (Hid : PipelineSpec.parse buy_empty_ids !! "id" = Some "") by run.
  assert (Hk : idempotency_key (PipelineSpec.parse buy_empty_ids) = None)
    by exact (Hnone _ (or_introl Htv) (or_introl Hid)).
  split.
  - split; [exact Hp|]. split; [exact Htv|]. split; [exact Hid|].
    split; [exact Hk|]. intros w. exact (Hpass buy_empty_ids w _ Hp Hk).
  - assert (H1 : PipelineSpec.parse buy_id_7 !! "tv_id" = Some "") by run.
    assert (H2 : PipelineSpec.parse buy_id_7 !! "id" = Some "7") by run.
    assert (H3 : "7" ≠ "") by discriminate.
    split; [exact H1|]. split; [exact H2|]. split; [exact H3|].
    exact (Hfall _ "7" H1 H2 H3).
Defined.

Lemma cb_auth_headers_spec_witness :
  (F.to_int (clock (answering created) (clock_reads fresh)) = Ok 1700000000 ∧
   Base64.valid (COINBASE_API_SECRET (with_secret "c2VjcmV0")) = true ∧
   Base64.b64decode (COINBASE_API_SECRET (with_secret "c2VjcmV0")) = Ok "secret" ∧
   cb_auth_headers (with_secret "c2VjcmV0") cpython (answering created)
     "post" "/orders" "{}" fresh =
   (Ok [("CB-ACCESS-KEY", "key");
        ("CB-ACCESS-SIGN",
         Wording.signature cpython "secret" "1700000000" "post" "/orders" "{}");
        ("CB-ACCESS-TIMESTAMP", "1700000000");
        ("CB-ACCESS-PASSPHRASE", "passphrase");
        ("Content-Type", "application/json")], tick fresh)) ∧
  (Base64.b64decode (COINBASE_API_SECRET (with_secret "c2VjcmV")) = Raise BinasciiError ∧
   cb_auth_headers (with_secret "c2VjcmV") cpython (answering created)
     "post" "/orders" "{}" fresh = (Raise BinasciiError, tick fresh)).
Proof.
  assert (Ht : F.to_int (clock (answering created) (clock_reads fresh)) = Ok 1700000000)
    by run.
  assert (Hv : Base64.valid (COINBASE_API_SECRET (with_secret "c2VjcmV0")) = true) by run.
  assert (Hk : Base64.b64decode (COINBASE_API_SECRET (with_secret "c2VjcmV0")) =
               Ok "secret") by run.
  assert (He : Base64.b64decode (COINBASE_API_SECRET (with_secret "c2VjcmV")) =
               Raise BinasciiError) by run.
  split.
  - split; [exact Ht|]. split; [exact Hv|]. split; [exact Hk|].
    exact (proj1 (cb_auth_headers_spec (with_secret "c2VjcmV0") cpython
                    (answering created) "post" "/orders" "{}" fresh 1700000000 Ht)
             "secret" Hk).
  - split; [exact He|].
    exact (proj1 (proj2 (cb_auth_headers_spec (with_secret "c2VjcmV") cpython
                           (answering created) "post" "/orders" "{}" fresh
                           1700000000 Ht))
             BinasciiError He).
Defined.

(** C6 as stated fails on a secret with a stray character: it is not valid
    base64, yet the decoder drops the character and signing succeeds, with
    the signature of the secret without it. *)
Lemma stray_character_is_signed :
  Base64.valid "c2VjcmV0!" = false ∧
  cb_auth_headers (with_secret "c2VjcmV0!") cpython (answering created)
    "POST" "/orders" "{}" fresh =
  (Ok [("CB-ACCESS-KEY", "key");
       ("CB-ACCESS-SIGN",
        Wording.signature cpython "secret" "1700000000" "POST" "/orders" "{}");
       ("CB-ACCESS-TIMESTAMP", "1700000000");
       ("CB-ACCESS-PASSPHRASE", "passphrase");
       ("Content-Type", "application/json")], tick fresh).
Proof. split; run. Qed.

Lemma place_market_order_by_funds_result_witness :
  ∃ headers w1,
    cb_auth_headers default_config cpython (answering bad_gateway) "POST" "/orders"
      (json_dumps cpython
         (JDict [("type", JStr "market"); ("side", JStr "buy");
                 ("product_id", JStr "BTC-USD");
                 ("funds", JStr (str_of_float cpython (round2 cpython (F.of_int 10))))]))
      fresh = (Ok headers, w1) ∧
    transport (answering bad_gateway) (events w1)
      (urljoin cpython (COINBASE_API_BASE default_config) "/orders") headers
      (json_dumps cpython
         (JDict [("type", JStr "market"); ("side", JStr "buy");
                 ("product_id", JStr "BTC-USD");
                 ("funds", JStr (str_of_float cpython (round2 cpython (F.of_int 10))))]))
      = Ok bad_gateway ∧
    ∃ w2,
      place_market_order_by_funds default_config cpython (answering bad_gateway)
        "BTC-USD" "buy" (F.of_int 10) fresh =
      (Ok (502, JStr "<html>Bad Gateway</html>"), w2).
Proof.
  pose proof (place_market_order_by_funds_result default_config cpython
                (answering bad_gateway) "BTC-USD" "buy" (F.of_int 10) fresh) as [H _].
  eexists _, _.
  assert (Hs : cb_auth_headers default_config cpython (answering bad_gateway)
                 "POST" "/orders"
                 (json_dumps cpython
                    (JDict [("type", JStr "market"); ("side", JStr "buy");
                            ("product_id", JStr "BTC-USD");
                            ("funds",
                             JStr (str_of_float cpython (round2 cpython (F.of_int 10))))]))
                 fresh = _) by (vm_compute; reflexivity).
  split; [exact Hs|]. split; [reflexivity|].
  exact (proj1 (H _ _ Hs) bad_gateway eq_refl).
Defined.

(** C2 as stated fails when the transport raises: the exception leaves
    [place_market_order_by_funds] as it came, for a timeout and for a
    refused connection alike, and no status/body pair is returned. *)
Lemma network_failure_propagates :
  (place_market_order_by_funds default_config cpython (unreachable TimeoutError)
     "BTC-USD" "buy" (F.of_int 10) fresh).1 = Raise TimeoutError ∧
  (place_market_order_by_funds default_config cpython (unreachable ConnectionError)
     "BTC-USD" "buy" (F.of_int 10) fresh).1 = Raise ConnectionError.
Proof. split; run. Qed.

(** * Further properties of the handler *)

(** ** The early checks *)

Lemma lstrip_blank (s : string) : blank s = true → Py.lstrip s = "".
Proof.
  induction s as [|c s IH]; simpl; [reflexivity|].
  intros H. apply andb_prop in H as [Hc Hs]. rewrite Hc. by apply IH.
Qed.

Lemma strip_blank (s : string) : blank s = true → Py.strip s = "".
Proof. intros H. unfold Py.strip. rewrite (lstrip_blank s H). reflexivity. Qed.

Section EarlyChecks.

Variable cfg : Config.
Variable py : Runtime.
Variable env : Env.

(** The verdict of a request that gets as far as the secret. *)
Lemma steps_from_secret (request_data : string) (w : World)
    (data : gmap string string) :
  Py.strip request_data ≠ "" →
  parse_alert_text (Py.strip request_data) = Ok data →
  PipelineSpec.steps_1_8 cfg py env request_data w =
  if bool_decide (default "" (data !! "secret") = ALERT_SECRET cfg) then
    match PipelineSpec.external_id data with
    | Some t =>
        if PipelineSpec.exists_by_external_id t w then DuplicateAlert t
        else PipelineSpec.steps_5_8 cfg py env (Some t) (Py.strip request_data) data w
    | None => PipelineSpec.steps_5_8 cfg py env None (Py.strip request_data) data w
    end
  else InvalidSecret.
Proof.
  intros Hraw Hdata. rewrite parse_alert_text_ok in Hdata. injection Hdata as <-.
  unfold PipelineSpec.steps_1_8. rewrite (bool_decide_eq_false_2 _ Hraw). reflexivity.
Qed.

(** X1. A body made of whitespace only is answered 400
    [{error: "empty body"}] before anything is parsed, read or written. *)
Theorem blank_body_rejected (request_data : string) (w : World) :
  blank request_data = true →
  tradingview_webhook cfg py env request_data w =
  (Ok (JDict [("error", JStr "empty body")], 400), w).
Proof.
  intros Hblank. rewrite webhook_by_steps. unfold PipelineSpec.steps_1_8.
  rewrite (strip_blank _ Hblank). reflexivity.
Qed.

(** X2. A request with a non-empty body whose [secret] field differs from
    the configured secret, or is missing while the configured secret is not
    empty, is answered 401 [{error: "invalid secret"}] whatever else it
    carries, and the world is left as it was. *)
Theorem wrong_secret_unauthorized (request_data : string) (w : World)
    (data : gmap string string) :
  Py.strip request_data ≠ "" →
  parse_alert_text (Py.strip request_data) = Ok data →
  (data !! "secret" ≠ Some (ALERT_SECRET cfg) ∧
   (data !! "secret" = None → ALERT_SECRET cfg ≠ "")) →
  tradingview_webhook cfg py env request_data w =
  (Ok (JDict [("error", JStr "invalid secret")], 401), w).
Proof.
  intros Hraw Hdata [Hne Hnone].
  rewrite webhook_by_steps, (steps_from_secret _ _ _ Hraw Hdata).
  rewrite bool_decide_eq_false_2; [reflexivity|].
  destruct (data !! "secret") as [s|]; simpl.
  - intros ->. by apply Hne.
  - intros Heq. by apply Hnone.
Qed.

(** X3. When the configured secret is the empty string, a request without
    a [secret] field passes authentication: it is never answered 401. *)
Theorem empty_secret_admits_unsigned (request_data : string) (w : World)
    (data : gmap string string) :
  ALERT_SECRET cfg = "" →
  parse_alert_text (Py.strip request_data) = Ok data →
  data !! "secret" = None →
  ∀ body w', tradingview_webhook cfg py env request_data w ≠ (Ok (body, 401), w').
Proof.
  intros Hcfg Hdata Hsecret body w'. rewrite webhook_by_steps.
  unfold PipelineSpec.steps_1_8.
  rewrite parse_alert_text_ok in Hdata. injection Hdata as <-.
  rewrite Hsecret, Hcfg. simpl.
  assert (H58 : ∀ tv raw data0,
            run_verdict cfg py env (PipelineSpec.steps_5_8 cfg py env tv raw data0 w) w
            ≠ (Ok (body, 401), w')).
  { intros tv raw data0. unfold PipelineSpec.steps_5_8.
    repeat case_match; simpl; try discriminate.
    destruct (place_market_order_by_funds _ _ _ _ _ _ _) as [[[code resp]|e] w1];
      [|discriminate].
    unfold Replies.reply. destruct (is_success code); discriminate. }
  repeat case_match; simpl; try discriminate; apply H58.
Qed.

(** X4. An authenticated request that is no duplicate and lacks one of
    [symbol], [action], [amount], or has it empty, is answered 400
    [{error: "missing fields", received}] with the parsed fields echoed, and
    nothing is read from the clock or written. *)
Theorem missing_fields_rejected (request_data : string) (w : World)
    (data : gmap string string) :
  Py.strip request_data ≠ "" →
  parse_alert_text (Py.strip request_data) = Ok data →
  default "" (data !! "secret") = ALERT_SECRET cfg →
  (∀ t, idempotency_key data = Some t → ¬ Wording.recorded t w) →
  Py.truthy_opt (data !! "symbol") && Py.truthy_opt (data !! "action")
    && Py.truthy_opt (data !! "amount") = false →
  tradingview_webhook cfg py env request_data w =
  (Ok (JDict [("error", JStr "missing fields"); ("received", json_of_dict data)], 400), w).
Proof.
  intros Hraw Hdata Hsecret Hnew Hmissing.
  rewrite webhook_by_steps, (steps_from_secret _ _ _ Hraw Hdata).
  rewrite (bool_decide_eq_true_2 _ Hsecret).
  assert (H58 : ∀ tv,
            PipelineSpec.steps_5_8 cfg py env tv (Py.strip request_data) data w =
            MissingFields data).
  { intros tv. unfold PipelineSpec.steps_5_8.
    destruct (data !! "symbol") as [[|c1 s1]|]; try reflexivity;
      destruct (data !! "action") as [[|c2 s2]|]; try reflexivity;
      destruct (data !! "amount") as [[|c3 s3]|]; try reflexivity.
    discriminate. }
  destruct (PipelineSpec.external_id data) as [t|] eqn:Ht.
  - destruct (PipelineSpec.exists_by_external_id t w) eqn:Hex.
    + exfalso. apply (Hnew t); [by rewrite idempotency_key_external_id|].
      by apply recorded_exists.
    + rewrite H58. reflexivity.
  - rewrite H58. reflexivity.
Qed.

End EarlyChecks.

(** ** What a delivery can do to the world *)

Lemma present_Some (o : option string) (s : string) :
  PipelineSpec.present o = Some s → o = Some s ∧ s ≠ "".
Proof. destruct o as [[|c s']|]; simpl; intros [= <-]; done. Qed.

Section Steps.

Variable cfg : Config.
Variable py : Runtime.
Variable env : Env.

(** What acceptance says about the alert. *)
Lemma accepted_facts (request_data : string) (w : World) (tv_id : option string)
    (raw symbol action : string) (usd_amount now_ts : float) :
  PipelineSpec.steps_1_8 cfg py env request_data w =
    Accepted tv_id raw symbol action usd_amount now_ts →
  (tv_id = None ∨
   ∃ t, tv_id = Some t ∧ t ≠ "" ∧ PipelineSpec.exists_by_external_id t w = false) ∧
  raw = Py.strip request_data ∧ raw ≠ "" ∧ symbol ≠ "" ∧ action ≠ "" ∧
  F.leb_int usd_amount 0 = false ∧
  F.ltb (MAX_USD_PER_ORDER cfg) usd_amount = false ∧
  now_ts = clock env (clock_reads w).
Proof.
  unfold PipelineSpec.steps_1_8.
  destruct (bool_decide (Py.strip request_data = "")) eqn:Hraw; [discriminate|].
  apply bool_decide_eq_false in Hraw. cbv zeta.
  set (data := PipelineSpec.parse (Py.strip request_data)).
  assert (H58 : ∀ tv,
            PipelineSpec.steps_5_8 cfg py env tv (Py.strip request_data) data w =
              Accepted tv_id raw symbol action usd_amount now_ts →
            tv = tv_id ∧ raw = Py.strip request_data ∧ symbol ≠ "" ∧ action ≠ "" ∧
            F.leb_int usd_amount 0 = false ∧
            F.ltb (MAX_USD_PER_ORDER cfg) usd_amount = false ∧
            now_ts = clock env (clock_reads w)).
  { intros tv. unfold PipelineSpec.steps_5_8.
    destruct (PipelineSpec.present (data !! "symbol")) as [sym|] eqn:Hsym;
      [|discriminate].
    destruct (PipelineSpec.present (data !! "action")) as [act|] eqn:Hact;
      [|discriminate].
    destruct (PipelineSpec.present (data !! "amount")) as [amt|] eqn:Hamt;
      [|discriminate].
    destruct (float_of_str py amt) as [x|]; [|discriminate].
    destruct (F.leb_int x 0 || F.ltb (MAX_USD_PER_ORDER cfg) x) eqn:Hb;
      [discriminate|].
    destruct (F.ltb_int _ _); [discriminate|].
    intros [= <- <- <- <- <- <-].
    apply orb_false_elim in Hb as [Hb1 Hb2].
    apply present_Some in Hsym as [_ Hsym]. apply present_Some in Hact as [_ Hact].
    done. }
  destruct (bool_decide (default "" (data !! "secret") = ALERT_SECRET cfg));
    [|discriminate].
  destruct (PipelineSpec.external_id data) as [t|] eqn:Ht.
  - destruct (PipelineSpec.exists_by_external_id t w) eqn:Hex; [discriminate|].
    intros Hacc. apply H58 in Hacc as (<- & -> & Hrest).
    split; [|by repeat split; try apply Hrest].
    right. exists t. repeat split; [|exact Hex].
    intros ->. apply external_id_truthy in Ht. discriminate.
  - intros Hacc. apply H58 in Hacc as (<- & -> & Hrest).
    split; [by left|by repeat split; try apply Hrest].
Qed.

(** A delivery either leaves the tables alone, making at most one exchange
    call, or was accepted, made one call and persisted one attempt. *)
Lemma delivery_cases (request_data : string) (w : World) :
  let w' := deliver cfg py env w request_data in
  (alerts w' = alerts w ∧ meta w' = meta w ∧
   (events w' = events w ∨ ∃ url hdrs data, events w' = events w ++ [Post url hdrs data])) ∨
  (∃ tv_id raw symbol action usd_amount now_ts code resp w1 url hdrs data,
     PipelineSpec.steps_1_8 cfg py env request_data w =
       Accepted tv_id raw symbol action usd_amount now_ts ∧
     alerts w1 = alerts w ∧ meta w1 = meta w ∧
     events w1 = events w ++ [Post url hdrs data] ∧
     w' = Replies.persisted py w1
            (Replies.record py w1 tv_id raw symbol action usd_amount code resp) now_ts).
Proof.
  unfold deliver. rewrite webhook_by_steps.
  destruct (PipelineSpec.steps_1_8 cfg py env request_data w) eqn:Hv; simpl;
    try (left; by auto).
  destruct (place_market_order_by_funds _ _ _ _ _ _ _) as [[[code resp]|e] w1]
    eqn:Hplace.
  - right. apply place_market_order_by_funds_returns in Hplace
      as (Ha & Hm & url & hdrs & data & He).
    simpl in *. eauto 20.
  - left. apply place_market_order_by_funds_events in Hplace as (Ha & Hm & He).
    simpl in *. auto.
Qed.

End Steps.

(** ** Invariants of the store over any run of deliveries *)

Lemma not_exists_not_in_ids (t : string) (w : World) :
  PipelineSpec.exists_by_external_id t w = false → t ∉ omap rec_tv_id (alerts w).
Proof.
  unfold PipelineSpec.exists_by_external_id. intros H.
  apply bool_decide_eq_false in H. intros Hin. apply H.
  apply list_elem_of_omap in Hin as (r & Hr & Ht).
  apply list_elem_of_fmap. exists r. split; [by symmetry|exact Hr].
Qed.

Lemma count_persisted (py : Runtime) (p : Event → bool) (w1 : World)
    (r : AlertRecord) (now_ts : float) :
  count p (Replies.persisted py w1 r now_ts) =
  (count p w1 + (if p (InsertAlert r) then 1 else 0)
   + (if p (SetMeta "last_order_ts" (str_of_float py now_ts)) then 1 else 0))%nat.
Proof.
  unfold count. simpl. rewrite List.filter_app, length_app. simpl.
  destruct (p (InsertAlert r)), (p (SetMeta _ _)); simpl; lia.
Qed.

Lemma count_events_app (p : Event → bool) (w w1 : World) (e : Event) :
  events w1 = events w ++ [e] →
  count p w1 = (count p w + (if p e then 1 else 0))%nat.
Proof.
  unfold count. intros ->. rewrite List.filter_app, length_app. simpl.
  destruct (p e); simpl; lia.
Qed.

Lemma max_seq_from (n : nat) :
  ∀ k, foldr Nat.max 0%nat (seq k n)
       = match n with O => 0%nat | S _ => (k + n - 1)%nat end.
Proof.
  induction n as [|n IH]; intros k; [reflexivity|].
  simpl. rewrite IH. destruct n; lia.
Qed.

Lemma max_seq (n : nat) : foldr Nat.max 0%nat (seq 1 n) = n.
Proof. rewrite max_seq_from. destruct n; lia. Qed.

Lemma next_rowid_above (rows : list AlertRecord) (r : AlertRecord) :
  r ∈ rows → (rec_id r < next_rowid rows)%nat.
Proof.
  intros Hr. unfold next_rowid. apply Nat.lt_succ_r.
  assert (Hmax : ∀ (l : list nat) (x : nat),
            x ∈ l → (x ≤ foldr Nat.max 0 l)%nat).
  { induction l as [|y l IH]; intros x; [by intros ?%elem_of_nil|].
    intros [->|Hx]%elem_of_cons; cbn [foldr]; [lia|].
    specialize (IH x Hx). lia. }
  apply Hmax, list_elem_of_fmap. by exists r.
Qed.

Section Invariants.

Variable cfg : Config.
Variable py : Runtime.
Variable env : Env.

(** What every delivery keeps, every run of deliveries keeps. *)
Lemma serve_keeps (P : World → Prop) :
  (∀ w request_data, P w → P (deliver cfg py env w request_data)) →
  ∀ requests w, P w → P (serve cfg py env requests w).
Proof.
  intros Hstep requests. unfold serve.
  induction requests as [|r requests IH]; intros w Hw; simpl; [exact Hw|].
  apply IH, Hstep, Hw.
Qed.

(** X5. The audit table is append-only: whatever requests are served, and
    whether the handler answers or raises, the records and the events that
    were there stay as a prefix, and each request adds at most one record. *)
Theorem audit_log_append_only (requests : list string) (w : World) :
  alerts w `prefix_of` alerts (serve cfg py env requests w) ∧
  events w `prefix_of` events (serve cfg py env requests w) ∧
  (length (alerts (serve cfg py env requests w))
   ≤ length (alerts w) + length requests)%nat.
Proof.
  revert w. unfold serve.
  induction requests as [|r requests IH]; intros w; simpl.
  - repeat split; try reflexivity. lia.
  - destruct (IH (deliver cfg py env w r)) as (Ha & He & Hl).
    assert (Hstep : alerts w `prefix_of` alerts (deliver cfg py env w r) ∧
                    events w `prefix_of` events (deliver cfg py env w r) ∧
                    (length (alerts (deliver cfg py env w r)) ≤ S (length (alerts w)))%nat).
    { destruct (delivery_cases cfg py env r w)
        as [(Ha' & _ & He')|(tv & raw & sym & act & usd & now & code & resp & w1 &
                              url & hdrs & data & _ & Ha' & _ & He' & ->)].
      - rewrite Ha'. split; [reflexivity|]. split; [|lia].
        destruct He' as [->|(url & hdrs & data & ->)];
          [reflexivity|by apply prefix_app_r].
      - simpl. rewrite Ha', He', length_app. simpl.
        split; [by apply prefix_app_r|]. split; [|lia].
        rewrite <- app_assoc. by apply prefix_app_r. }
    destruct Hstep as (Ha0 & He0 & Hl0).
    split; [by etrans|]. split; [by etrans|]. lia.
Qed.

(** X6. Idempotency as an invariant of the store: if no two records share
    an external id, then after any run of deliveries, answered or raised,
    still no two records share one. *)
Theorem unique_ids_kept (requests : list string) (w : World) :
  Store.unique_ids w → Store.unique_ids (serve cfg py env requests w).
Proof.
  apply serve_keeps. clear w. intros w r Hw. unfold Store.unique_ids in *.
  destruct (delivery_cases cfg py env r w)
    as [(Ha' & _)|(tv & raw & sym & act & usd & now & code & resp & w1 &
                   url & hdrs & data & Hv & Ha' & _ & _ & ->)].
  - by rewrite Ha'.
  - simpl. rewrite Ha', omap_app. simpl.
    apply accepted_facts in Hv as ([->|(t & -> & _ & Hnew)] & _).
    + by rewrite app_nil_r.
    + apply NoDup_app. split; [exact Hw|]. split; [|apply NoDup_singleton].
      intros x Hx Hx'. apply list_elem_of_singleton in Hx' as ->.
      by apply (not_exists_not_in_ids _ _ Hnew).
Qed.

(** X7. Row ids: if the ids of the records count up from one, they still
    do after any run of deliveries; [insert_alert] always hands out the
    next one. *)
Theorem sequential_ids_kept (requests : list string) (w : World) :
  Store.sequential_ids w → Store.sequential_ids (serve cfg py env requests w).
Proof.
  apply serve_keeps. clear w. intros w r Hw. unfold Store.sequential_ids in *.
  destruct (delivery_cases cfg py env r w)
    as [(Ha' & _)|(tv & raw & sym & act & usd & now & code & resp & w1 &
                   url & hdrs & data & _ & Ha' & _ & _ & ->)].
  - by rewrite Ha'.
  - simpl. rewrite fmap_app, length_app. simpl.
    rewrite !Ha', Nat.add_1_r, seq_S. unfold next_rowid.
    rewrite Hw at 2. rewrite max_seq, Hw. reflexivity.
Qed.

(** X8. Every record the handler writes is well formed: its status is
    "placed" or "attempted", its external id is absent or non-empty, its
    raw text, symbol and action are non-empty, and its amount passed the
    bounds check.  So a store of such records stays one. *)
Theorem records_valid_kept (requests : list string) (w : World) :
  Forall (Store.valid_record cfg) (alerts w) →
  Forall (Store.valid_record cfg) (alerts (serve cfg py env requests w)).
Proof.
  apply (serve_keeps (fun w => Forall (Store.valid_record cfg) (alerts w))).
  clear w. intros w r Hw.
  destruct (delivery_cases cfg py env r w)
    as [(Ha' & _)|(tv & raw & sym & act & usd & now & code & resp & w1 &
                   url & hdrs & data & Hv & Ha' & _ & _ & ->)].
  - by rewrite Ha'.
  - simpl. rewrite Ha'. apply Forall_app. split; [exact Hw|].
    apply Forall_singleton.
    apply accepted_facts in Hv as (Htv & _ & Hraw & Hsym & Hact & Hlo & Hhi & _).
    unfold Store.valid_record. simpl. repeat split; try assumption.
    + destruct (is_success code); auto.
    + destruct Htv as [->|(t & -> & Ht & _)]; [discriminate|]. by intros [= ->].
Qed.

(** X9. The bookkeeping: if the table has one record for each insert
    event, one checkpoint write for each insert and no more inserts than
    exchange calls, this still holds after any run of deliveries.  No
    record is ever written without an exchange call before it. *)
Theorem accounting_kept (requests : list string) (w : World) :
  Store.accounted w → Store.accounted (serve cfg py env requests w).
Proof.
  apply serve_keeps. clear w. intros w r (H1 & H2 & H3). unfold Store.accounted.
  destruct (delivery_cases cfg py env r w)
    as [(Ha' & _ & He')|(tv & raw & sym & act & usd & now & code & resp & w1 &
                         url & hdrs & data & _ & Ha' & _ & He' & ->)].
  - rewrite Ha'. destruct He' as [He'|(url & hdrs & data & He')].
    + unfold count. rewrite He'. done.
    + rewrite !(count_events_app _ _ _ _ He'). simpl. lia.
  - rewrite !count_persisted. simpl. rewrite length_app, Ha'. simpl.
    rewrite !(count_events_app _ _ _ _ He'). simpl. lia.
Qed.

End Invariants.

(** ** The store's operations *)

Section StoreOperations.

Variable py : Runtime.

(** X10. The checkpoint is one row that is overwritten: after
    [set_last_order_ts ts], [get_last_order_ts] reads [ts] back provided
    the text written for [ts] parses back to it; an earlier checkpoint is
    gone, and the records and the other rows of [meta] are untouched. *)
Theorem checkpoint_round_trip (earlier ts : float) (w : World) :
  float_of_str py (str_of_float py ts) = Some ts →
  let w1 := (set_last_order_ts py earlier w).2 in
  let w2 := (set_last_order_ts py ts w1).2 in
  get_last_order_ts py w2 = (Ok ts, w2) ∧
  meta w2 = meta (set_last_order_ts py ts w).2 ∧
  alerts w2 = alerts w ∧
  ∀ k, k ≠ "last_order_ts" → meta w2 !! k = meta w !! k.
Proof.
  intros Hrt w1 w2. unfold get_last_order_ts, w2, w1, set_last_order_ts. simpl.
  rewrite lookup_insert_eq. simpl. rewrite Hrt.
  split; [reflexivity|]. split; [apply insert_insert_eq|]. split; [reflexivity|].
  intros k Hk. by rewrite !lookup_insert_ne.
Qed.

(** X11. [insert_alert] and [already_processed]: the record is appended
    under the id that is returned, which is above the id of every record
    already there; once an alert is inserted under a non-empty external id,
    that id is reported as processed; the answer for every other external
    id is what it was, and a record without one changes no answer. *)
Theorem insert_then_lookup (tv_id : option string) (raw symbol action : string)
    (amount : float) (status : string) (response : json) (w : World) :
  let out := (insert_alert py tv_id raw symbol action amount status response w).1 in
  let w' := (insert_alert py tv_id raw symbol action amount status response w).2 in
  (∃ id r, out = Ok id ∧ alerts w' = alerts w ++ [r] ∧ rec_id r = id ∧
           rec_tv_id r = tv_id ∧
           ∀ r', r' ∈ alerts w → (rec_id r' < id)%nat) ∧
  (∀ t, t ≠ "" → tv_id = Some t → already_processed (Some t) w' = (Ok true, w')) ∧
  (∀ t, tv_id ≠ Some t →
        (already_processed (Some t) w').1 = (already_processed (Some t) w).1).
Proof.
  unfold insert_alert, already_processed. simpl. split; [|split].
  - eexists _, _. split; [reflexivity|]. split; [reflexivity|].
    split; [reflexivity|]. split; [reflexivity|]. apply next_rowid_above.
  - intros t Ht ->. destruct t; [done|]. simpl.
    rewrite existsb_app. simpl. unfold has_tv_id at 2. simpl.
    rewrite bool_decide_eq_true_2 by done. by rewrite orb_true_r.
  - intros t Ht. destruct t; [reflexivity|]. simpl.
    rewrite existsb_app. simpl. unfold has_tv_id at 2. simpl.
    rewrite bool_decide_eq_false_2 by done. by rewrite !orb_false_r.
Qed.

End StoreOperations.

Lemma checkpoint_round_trip_witness :
  float_of_str cpython (str_of_float cpython (ticking 5)) = Some (ticking 5) ∧
  get_last_order_ts cpython
    (set_last_order_ts cpython (ticking 5)
       (set_last_order_ts cpython (ticking 0) garbled).2).2
  = (Ok (ticking 5),
     (set_last_order_ts cpython (ticking 5)
        (set_last_order_ts cpython (ticking 0) garbled).2).2).
Proof.
  assert (H : float_of_str cpython (str_of_float cpython (ticking 5)) = Some (ticking 5))
    by run.
  split; [exact H|].
  exact (proj1 (checkpoint_round_trip cpython (ticking 0) (ticking 5) garbled H)).
Defined.

Lemma insert_then_lookup_witness :
  "42" ≠ "" ∧
  let w' := (insert_alert cpython (Some "42") buy_10_id_42 "BTC-USD" "buy"
               (F.of_int 10) "placed" (JDict []) fresh).2 in
  already_processed (Some "42") w' = (Ok true, w') ∧
  (already_processed (Some "7") w').1 = (already_processed (Some "7") fresh).1.
Proof.
  assert (H : "42" ≠ "") by discriminate.
  split; [exact H|].
  pose proof (insert_then_lookup cpython (Some "42") buy_10_id_42 "BTC-USD" "buy"
                (F.of_int 10) "placed" (JDict []) fresh) as (_ & Hsame & Hother).
  split; [exact (Hsame "42" H eq_refl)|].
  apply (Hother "7"). discriminate.
Defined.

Lemma blank_body_rejected_witness :
  blank "   " = true ∧
  tradingview_webhook default_config cpython (answering created) "   " fresh =
  (Ok (JDict [("error", JStr "empty body")], 400), fresh).
Proof.
  assert (H : blank "   " = true) by run.
  split; [exact H|].
  exact (blank_body_rejected default_config cpython (answering created) "   " fresh H).
Defined.

Lemma wrong_secret_unauthorized_witness :
  (Py.strip wrong_secret ≠ "" ∧
   parse_alert_text (Py.strip wrong_secret) = Ok (PipelineSpec.parse wrong_secret) ∧
   PipelineSpec.parse wrong_secret !! "secret" ≠ Some (ALERT_SECRET default_config) ∧
   (PipelineSpec.parse wrong_secret !! "secret" = None →
    ALERT_SECRET default_config ≠ "")) ∧
  tradingview_webhook default_config cpython (answering created) wrong_secret fresh =
  (Ok (JDict [("error", JStr "invalid secret")], 401), fresh).
Proof.
  assert (H1 : Py.strip wrong_secret ≠ "") by (vm_compute; discriminate).
  assert (H2 : parse_alert_text (Py.strip wrong_secret) =
               Ok (PipelineSpec.parse wrong_secret)) by run.
  assert (H3 : PipelineSpec.parse wrong_secret !! "secret" ≠
               Some (ALERT_SECRET default_config)) by (vm_compute; discriminate).
  assert (H4 : PipelineSpec.parse wrong_secret !! "secret" = None →
               ALERT_SECRET default_config ≠ "") by (intros _; discriminate).
  split; [done|].
  exact (wrong_secret_unauthorized default_config cpython (answering created)
           wrong_secret fresh _ H1 H2 (conj H3 H4)).
Defined.

Lemma empty_secret_admits_unsigned_witness :
  (ALERT_SECRET no_alert_secret = "" ∧
   parse_alert_text (Py.strip no_secret) = Ok (PipelineSpec.parse no_secret) ∧
   PipelineSpec.parse no_secret !! "secret" = None) ∧
  (tradingview_webhook no_alert_secret cpython (answering created) no_secret fresh).1 =
  Ok (JDict [("status", JStr "ok"); ("code", JInt 201);
             ("response", JDict [("id", JStr "X")])], 200) ∧
  ∀ body w',
    tradingview_webhook no_alert_secret cpython (answering created) no_secret fresh
    ≠ (Ok (body, 401), w').
Proof.
  assert (H1 : ALERT_SECRET no_alert_secret = "") by reflexivity.
  assert (H2 : parse_alert_text (Py.strip no_secret) =
               Ok (PipelineSpec.parse no_secret)) by run.
  assert (H3 : PipelineSpec.parse no_secret !! "secret" = None) by run.
  split; [done|]. split; [run|].
  exact (empty_secret_admits_unsigned no_alert_secret cpython (answering created)
           no_secret fresh _ H1 H2 H3).
Defined.

Lemma missing_fields_rejected_witness :
  (Py.strip no_amount ≠ "" ∧
   parse_alert_text (Py.strip no_amount) = Ok (PipelineSpec.parse no_amount) ∧
   default "" (PipelineSpec.parse no_amount !! "secret") = ALERT_SECRET default_config ∧
   (∀ t, idempotency_key (PipelineSpec.parse no_amount) = Some t →
         ¬ Wording.recorded t fresh) ∧
   Py.truthy_opt (PipelineSpec.parse no_amount !! "symbol")
   && Py.truthy_opt (PipelineSpec.parse no_amount !! "action")
   && Py.truthy_opt (PipelineSpec.parse no_amount !! "amount") = false) ∧
  tradingview_webhook default_config cpython (answering created) no_amount fresh =
  (Ok (JDict [("error", JStr "missing fields");
              ("received", json_of_dict (PipelineSpec.parse no_amount))], 400), fresh).
Proof.
  assert (H1 : Py.strip no_amount ≠ "") by (vm_compute; discriminate).
  assert (H2 : parse_alert_text (Py.strip no_amount) =
               Ok (PipelineSpec.parse no_amount)) by run.
  assert (H3 : default "" (PipelineSpec.parse no_amount !! "secret") =
               ALERT_SECRET default_config) by run.
  assert (H4 : ∀ t, idempotency_key (PipelineSpec.parse no_amount) = Some t →
                    ¬ Wording.recorded t fresh)
    by (intros t _; apply fresh_has_no_record).
  assert (H5 : Py.truthy_opt (PipelineSpec.parse no_amount !! "symbol")
               && Py.truthy_opt (PipelineSpec.parse no_amount !! "action")
               && Py.truthy_opt (PipelineSpec.parse no_amount !! "amount") = false)
    by run.
  split; [done|].
  exact (missing_fields_rejected default_config cpython (answering created)
           no_amount fresh _ H1 H2 H3 H4 H5).
Defined.

(** A store just created satisfies every invariant. *)
Lemma fresh_is_well_kept :
  Store.unique_ids fresh ∧ Store.sequential_ids fresh ∧
  Forall (Store.valid_record default_config) (alerts fresh) ∧ Store.accounted fresh.
Proof.
  split; [apply NoDup_nil_2|]. split; [reflexivity|]. split; [apply Forall_nil_2|].
  repeat split. apply le_n.
Qed.

Lemma unique_ids_kept_witness :
  Store.unique_ids fresh ∧
  Store.unique_ids
    (serve default_config cpython (flaky created)
       [buy_10_id_42; buy_10_id_42; no_secret; buy_10_id_42; sell_50; buy_abc] fresh).
Proof.
  split; [apply fresh_is_well_kept|].
  exact (unique_ids_kept default_config cpython (flaky created) _ fresh
           (proj1 fresh_is_well_kept)).
Defined.

Lemma sequential_ids_kept_witness :
  Store.sequential_ids fresh ∧
  Store.sequential_ids
    (serve default_config cpython (flaky created)
       [buy_10_id_42; buy_10_id_42; no_secret; buy_10_id_42; sell_50; buy_abc] fresh).
Proof.
  split; [apply fresh_is_well_kept|].
  exact (sequential_ids_kept default_config cpython (flaky created) _ fresh
           (proj1 (proj2 fresh_is_well_kept))).
Defined.

Lemma records_valid_kept_witness :
  Forall (Store.valid_record default_config) (alerts fresh) ∧
  Forall (Store.valid_record default_config)
    (alerts (serve default_config cpython (flaky created)
               [buy_10_id_42; buy_10_id_42; no_secret; buy_10_id_42; sell_50; buy_abc]
               fresh)).
Proof.
  split; [apply fresh_is_well_kept|].
  exact (records_valid_kept default_config cpython (flaky created) _ fresh
           (proj1 (proj2 (proj2 fresh_is_well_kept)))).
Defined.

Lemma accounting_kept_witness :
  Store.accounted fresh ∧
  Store.accounted
    (serve default_config cpython (flaky created)
       [buy_10_id_42; buy_10_id_42; no_secret; buy_10_id_42; sell_50; buy_abc] fresh).
Proof.
  split; [apply fresh_is_well_kept|].
  exact (accounting_kept default_config cpython (flaky created) _ fresh
           (proj2 (proj2 (proj2 fresh_is_well_kept)))).
Defined.

(** ** Rate limit, order and answer *)

Lemma ltb_nan (x : float) : F.ltb x S754_nan = false.
Proof. by destruct x. Qed.

Section Orders.

Variable cfg : Config.
Variable py : Runtime.
Variable env : Env.

(** Signing at a clock reading of [secs] seconds with a secret that
    decodes to [key]. *)
Lemma cb_auth_headers_ok (method path body : string) (w : World) (secs : Z)
    (key : string) :
  F.to_int (clock env (clock_reads w)) = Ok secs →
  Base64.b64decode (COINBASE_API_SECRET cfg) = Ok key →
  cb_auth_headers cfg py env method path body w =
  (Ok [("CB-ACCESS-KEY", COINBASE_API_KEY cfg);
       ("CB-ACCESS-SIGN", Wording.signature py key (pretty secs) method path body);
       ("CB-ACCESS-TIMESTAMP", pretty secs);
       ("CB-ACCESS-PASSPHRASE", COINBASE_PASSPHRASE cfg);
       ("Content-Type", "application/json")], tick w).
Proof.
  intros Hsecs Hkey. unfold cb_auth_headers, bind, time_time, lift. fold (tick w).
  rewrite Hsecs. cbn [clock_reads tick]. rewrite Hkey. reflexivity.
Qed.

Lemma cb_auth_headers_undecodable (method path body : string) (w : World)
    (secs : Z) (e : exn) :
  F.to_int (clock env (clock_reads w)) = Ok secs →
  Base64.b64decode (COINBASE_API_SECRET cfg) = Raise e →
  cb_auth_headers cfg py env method path body w = (Raise e, tick w).
Proof.
  intros Hsecs Hkey. unfold cb_auth_headers, bind, time_time, lift. fold (tick w).
  rewrite Hsecs. cbn [clock_reads tick]. rewrite Hkey. reflexivity.
Qed.

(** X12. An attempt uses up the rate-limit slot whatever the exchange
    answered: after a request that passed steps 1 to 8 at time [now1] and
    whose order placement returned, with any status code, a request that
    reaches the rate-limit check less than [MIN_SECONDS_BETWEEN_ORDERS]
    after [now1] is answered 429 [{error: "rate limit", min_seconds}] and
    nothing is sent or written, provided the checkpoint text parses back. *)
Theorem attempt_consumes_slot (first second : string) (w w1 : World)
    (reply : json * Z) (tv_id : option string) (raw symbol1 action1 : string)
    (usd_amount now1 : float) (data : gmap string string)
    (symbol action amount : string) (x : float) :
  PipelineSpec.steps_1_8 cfg py env first w =
    Accepted tv_id raw symbol1 action1 usd_amount now1 →
  tradingview_webhook cfg py env first w = (Ok reply, w1) →
  float_of_str py (str_of_float py now1) = Some now1 →
  Wording.passes_checks cfg second w1 data symbol action amount →
  float_of_str py amount = Some x →
  F.leb_int x 0 || F.ltb (MAX_USD_PER_ORDER cfg) x = false →
  F.ltb_int (F.sub (clock env (clock_reads w1)) now1)
    (MIN_SECONDS_BETWEEN_ORDERS cfg) = true →
  tradingview_webhook cfg py env second w1 =
  (Ok (JDict [("error", JStr "rate limit");
              ("min_seconds", JInt (MIN_SECONDS_BETWEEN_ORDERS cfg))], 429), tick w1).
Proof.
  intros Hv Hfirst Hrt Hchecks Hx Hbounds Hsoon.
  rewrite webhook_by_steps, Hv in Hfirst. simpl in Hfirst.
  destruct (place_market_order_by_funds _ _ _ _ _ _ _) as [[[code resp]|e] w0];
    [|discriminate].
  injection Hfirst as _ <-.
  rewrite webhook_by_steps, (passes_checks_steps _ _ _ _ _ _ _ _ _ Hchecks), Hx, Hbounds.
  unfold PipelineSpec.last_timestamp at 1.
  cbn [meta Replies.persisted]. rewrite lookup_insert_eq, Hrt. cbn [default id].
  cbn [clock_reads Replies.persisted] in Hsoon |- *. rewrite Hsoon. reflexivity.
Qed.

(** X13. What an accepted request sends: when the secret decodes and the
    exchange responds, the handler makes one POST to [urljoin(base,
    "/orders")] whose body is the JSON text of [{type: "market", side,
    product_id: symbol, funds: str(round(amount, 2))}], with side "buy" when
    the lower-cased action starts with "buy" and "sell" for anything else,
    under headers whose signature covers that very body and the timestamp
    header; then it inserts the record and writes the checkpoint, in this
    order, and answers from the response. *)
Theorem accepted_order_sent (request_data : string) (w : World)
    (tv_id : option string) (raw symbol action : string)
    (usd_amount now_ts : float) (secs : Z) (key : string) (r : HttpResponse) :
  PipelineSpec.steps_1_8 cfg py env request_data w =
    Accepted tv_id raw symbol action usd_amount now_ts →
  F.to_int (clock env (S (clock_reads w))) = Ok secs →
  Base64.b64decode (COINBASE_API_SECRET cfg) = Ok key →
  let data :=
    json_dumps py
      (JDict [("type", JStr "market");
              ("side", JStr (if Py.startswith "buy" (Py.lower action)
                             then "buy" else "sell"));
              ("product_id", JStr symbol);
              ("funds", JStr (str_of_float py (round2 py usd_amount)))]) in
  let url := urljoin py (COINBASE_API_BASE cfg) "/orders" in
  let headers :=
    [("CB-ACCESS-KEY", COINBASE_API_KEY cfg);
     ("CB-ACCESS-SIGN", Wording.signature py key (pretty secs) "POST" "/orders" data);
     ("CB-ACCESS-TIMESTAMP", pretty secs);
     ("CB-ACCESS-PASSPHRASE", COINBASE_PASSPHRASE cfg);
     ("Content-Type", "application/json")] in
  transport env (events w) url headers data = Ok r →
  ∃ record w',
    tradingview_webhook cfg py env request_data w =
    (Ok (Replies.reply (status_code r)
           (match json_body r with Some j => j | None => JStr (text r) end)), w') ∧
    events w' = events w ++ [Post url headers data; InsertAlert record;
                             SetMeta "last_order_ts" (str_of_float py now_ts)] ∧
    alerts w' = alerts w ++ [record] ∧
    rec_raw record = Py.strip request_data.
Proof.
  intros Hv Hsecs Hkey data url headers Hr.
  pose proof (accepted_facts cfg py env _ _ _ _ _ _ _ _ Hv) as (_ & Hraw & _).
  rewrite webhook_by_steps, Hv. simpl.
  unfold place_market_order_by_funds, PipelineSpec.side_of. fold data. fold url.
  unfold bind at 1.
  rewrite (cb_auth_headers_ok "POST" "/orders" data (tick w) secs key Hsecs Hkey).
  fold headers. unfold bind, requests_post. cbn [events tick]. rewrite Hr.
  destruct (json_body r); simpl; eexists _, _;
    (split; [reflexivity|]); simpl; rewrite <- app_assoc; simpl;
    (split; [reflexivity|]); (split; [reflexivity|]); exact Hraw.
Qed.

(** X14. With a secret that does not decode, no order ever leaves: a
    request that passes steps 1 to 8 makes the handler raise the decoder's
    exception before anything is sent, and no record or checkpoint is
    written. *)
Theorem undecodable_secret_blocks_orders (request_data : string) (w : World)
    (tv_id : option string) (raw symbol action : string)
    (usd_amount now_ts : float) (secs : Z) (e : exn) :
  PipelineSpec.steps_1_8 cfg py env request_data w =
    Accepted tv_id raw symbol action usd_amount now_ts →
  F.to_int (clock env (S (clock_reads w))) = Ok secs →
  Base64.b64decode (COINBASE_API_SECRET cfg) = Raise e →
  ∃ w',
    tradingview_webhook cfg py env request_data w = (Raise e, w') ∧
    events w' = events w ∧ alerts w' = alerts w ∧ meta w' = meta w.
Proof.
  intros Hv Hsecs Hkey. rewrite webhook_by_steps, Hv. simpl.
  unfold place_market_order_by_funds. unfold bind at 1.
  rewrite (cb_auth_headers_undecodable "POST" "/orders" _ (tick w) secs e Hsecs Hkey).
  eexists. split; [reflexivity|]. done.
Qed.

(** X15. Every answer of the handler carries one of the statuses 200, 400,
    401, 409, 429 and 500.  And the handler does answer, without raising,
    whenever the clock reading used for signing is finite, the secret
    decodes and the exchange responds to whatever it is sent. *)
Theorem handler_answers (request_data : string) (w : World) :
  (∀ body status w',
     tradingview_webhook cfg py env request_data w = (Ok (body, status), w') →
     status ∈ [200; 400; 401; 409; 429; 500]) ∧
  (∀ secs key,
     F.to_int (clock env (S (clock_reads w))) = Ok secs →
     Base64.b64decode (COINBASE_API_SECRET cfg) = Ok key →
     (∀ url headers data, ∃ r, transport env (events w) url headers data = Ok r) →
     ∃ reply w', tradingview_webhook cfg py env request_data w = (Ok reply, w')).
Proof.
  rewrite webhook_by_steps. split.
  - intros body status w'.
    destruct (PipelineSpec.steps_1_8 cfg py env request_data w); simpl.
    8: { destruct (place_market_order_by_funds _ _ _ _ _ _ _)
           as [[[code resp]|e] w1]; [|discriminate].
         unfold Replies.reply. destruct (is_success code);
           intros [= <- <- <-]; set_solver. }
    all: intros [= <- <- <-]; set_solver.
  - intros secs key Hsecs Hkey Hnet.
    destruct (PipelineSpec.steps_1_8 cfg py env request_data w); simpl; eauto.
    unfold place_market_order_by_funds. unfold bind at 1.
    rewrite (cb_auth_headers_ok "POST" "/orders" _ (tick w) secs key Hsecs Hkey).
    unfold bind, requests_post. cbn [events tick].
    match goal with
    | |- context [transport env (events w) ?u ?h ?d] =>
        destruct (Hnet u h d) as [r ->]
    end.
    destruct (json_body r); simpl; eauto.
Qed.

(** X16. An amount that parses to NaN slips through the bounds check: such
    a request is never answered 400; it goes on to the rate limit and to
    the exchange. *)
Theorem nan_amount_passes_bounds (request_data : string) (w : World)
    (data : gmap string string) (symbol action amount : string) :
  Wording.passes_checks cfg request_data w data symbol action amount →
  float_of_str py amount = Some S754_nan →
  (PipelineSpec.steps_1_8 cfg py env request_data w = RateLimited ∨
   PipelineSpec.steps_1_8 cfg py env request_data w =
     Accepted (idempotency_key data) (Py.strip request_data) symbol action S754_nan
       (clock env (clock_reads w))) ∧
  ∀ body w', tradingview_webhook cfg py env request_data w ≠ (Ok (body, 400), w').
Proof.
  intros Hchecks Hnan.
  pose proof (passes_checks_steps cfg py env _ _ _ _ _ _ Hchecks) as Hv.
  rewrite Hnan, ltb_nan in Hv. simpl in Hv.
  split.
  - rewrite Hv. destruct (F.ltb_int _ _); auto.
  - intros body w'. rewrite webhook_by_steps, Hv.
    destruct (F.ltb_int _ _); simpl; [discriminate|].
    destruct (place_market_order_by_funds _ _ _ _ _ _ _) as [[[code resp]|e] w1];
      [|discriminate].
    unfold Replies.reply. destruct (is_success code); discriminate.
Qed.

End Orders.

Lemma passes_checks_without_id (cfg : Config) (request_data : string) (w : World)
    (symbol action amount : string) :
  Py.strip request_data ≠ "" →
  default "" (PipelineSpec.parse (Py.strip request_data) !! "secret") = ALERT_SECRET cfg →
  idempotency_key (PipelineSpec.parse (Py.strip request_data)) = None →
  PipelineSpec.parse (Py.strip request_data) !! "symbol" = Some symbol →
  symbol ≠ "" →
  PipelineSpec.parse (Py.strip request_data) !! "action" = Some action →
  action ≠ "" →
  PipelineSpec.parse (Py.strip request_data) !! "amount" = Some amount →
  amount ≠ "" →
  Wording.passes_checks cfg request_data w
    (PipelineSpec.parse (Py.strip request_data)) symbol action amount.
Proof.
  intros ? ? Hid **. repeat split; try assumption.
  - apply parse_alert_text_ok.
  - intros t Ht. congruence.
Qed.

Lemma attempt_consumes_slot_witness :
  let first := tradingview_webhook one_per_minute cpython (answering bad_gateway)
                 sell_50 fresh in
  (PipelineSpec.steps_1_8 one_per_minute cpython (answering bad_gateway) sell_50 fresh
     = Accepted None sell_50 "BTC-USD" "sell" (F.of_int 50) (ticking 0) ∧
   first.1 = Ok (Replies.reply 502 (JStr "<html>Bad Gateway</html>")) ∧
   float_of_str cpython (str_of_float cpython (ticking 0)) = Some (ticking 0) ∧
   Wording.passes_checks one_per_minute buy_max first.2
     (PipelineSpec.parse (Py.strip buy_max)) "BTC-USD" "buy" "100" ∧
   float_of_str cpython "100" = Some (F.of_int 100) ∧
   F.leb_int (F.of_int 100) 0 || F.ltb (MAX_USD_PER_ORDER one_per_minute) (F.of_int 100)
     = false ∧
   F.ltb_int (F.sub (clock (answering bad_gateway) (clock_reads first.2)) (ticking 0))
     (MIN_SECONDS_BETWEEN_ORDERS one_per_minute) = true) ∧
  tradingview_webhook one_per_minute cpython (answering bad_gateway) buy_max first.2 =
  (Ok (JDict [("error", JStr "rate limit"); ("min_seconds", JInt 60)], 429),
   tick first.2).
Proof.
  intros first.
  assert (H1 : PipelineSpec.steps_1_8 one_per_minute cpython (answering bad_gateway)
                 sell_50 fresh =
               Accepted None sell_50 "BTC-USD" "sell" (F.of_int 50) (ticking 0)) by run.
  assert (H2 : tradingview_webhook one_per_minute cpython (answering bad_gateway)
                 sell_50 fresh =
               (Ok (Replies.reply 502 (JStr "<html>Bad Gateway</html>")), first.2))
    by run.
  assert (H3 : float_of_str cpython (str_of_float cpython (ticking 0)) =
               Some (ticking 0)) by run.
  assert (H4 : Wording.passes_checks one_per_minute buy_max first.2
                 (PipelineSpec.parse (Py.strip buy_max)) "BTC-USD" "buy" "100")
    by (apply passes_checks_without_id; solve [run | vm_compute; discriminate]).
  assert (H5 : float_of_str cpython "100" = Some (F.of_int 100)) by run.
  assert (H6 : F.leb_int (F.of_int 100) 0
               || F.ltb (MAX_USD_PER_ORDER one_per_minute) (F.of_int 100) = false) by run.
  assert (H7 : F.ltb_int
                 (F.sub (clock (answering bad_gateway) (clock_reads first.2)) (ticking 0))
                 (MIN_SECONDS_BETWEEN_ORDERS one_per_minute) = true) by run.
  split.
  - split; [exact H1|]. split; [exact (f_equal fst H2)|].
    exact (conj H3 (conj H4 (conj H5 (conj H6 H7)))).
  - exact (attempt_consumes_slot one_per_minute cpython (answering bad_gateway)
             sell_50 buy_max fresh first.2 _ _ _ _ _ _ _ _ _ _ _ _
             H1 H2 H3 H4 H5 H6 H7).
Defined.

Lemma accepted_order_sent_witness :
  (PipelineSpec.steps_1_8 default_config cpython (answering created) buy_10_id_42 fresh
     = Accepted (Some "42") buy_10_id_42 "BTC-USD" "buy" (F.of_int 10) (ticking 0) ∧
   F.to_int (clock (answering created) (S (clock_reads fresh))) = Ok 1700000001 ∧
   Base64.b64decode (COINBASE_API_SECRET default_config) = Ok "") ∧
  ∃ record w',
    tradingview_webhook default_config cpython (answering created) buy_10_id_42 fresh =
    (Ok (Replies.reply 201 (JDict [("id", JStr "X")])), w') ∧
    events w' =
    [Post "https://api-public.sandbox.pro.coinbase.com/orders"
       [("CB-ACCESS-KEY", "");
        ("CB-ACCESS-SIGN", "e0g4OG4tyCIU4KVnW1xWjUWMAI+r3Sv0/mnSSn/EJ8I=");
        ("CB-ACCESS-TIMESTAMP", "1700000001");
        ("CB-ACCESS-PASSPHRASE", "");
        ("Content-Type", "application/json")]
       (CPython.json_dumps
          (JDict [("type", JStr "market"); ("side", JStr "buy");
                  ("product_id", JStr "BTC-USD"); ("funds", JStr "10.0")]));
     InsertAlert record;
     SetMeta "last_order_ts" "1700000000.0"] ∧
    rec_status record = "placed".
Proof.
  assert (H1 : PipelineSpec.steps_1_8 default_config cpython (answering created)
                 buy_10_id_42 fresh =
               Accepted (Some "42") buy_10_id_42 "BTC-USD" "buy" (F.of_int 10)
                 (ticking 0)) by run.
  assert (H2 : F.to_int (clock (answering created) (S (clock_reads fresh))) =
               Ok 1700000001) by run.
  assert (H3 : Base64.b64decode (COINBASE_API_SECRET default_config) = Ok "") by run.
  split; [done|].
  destruct (accepted_order_sent default_config cpython (answering created)
              buy_10_id_42 fresh _ _ _ _ _ _ _ _ created H1 H2 H3 eq_refl)
    as (record & w' & Hrun & Hevents & Halerts & _).
  exists record, w'. split; [exact Hrun|]. split.
  - rewrite Hevents. vm_compute. reflexivity.
  - assert (Hw : alerts w' =
                 alerts (tradingview_webhook default_config cpython (answering created)
                           buy_10_id_42 fresh).2) by (by rewrite Hrun).
    rewrite Halerts in Hw. vm_compute in Hw. injection Hw as ->. reflexivity.
Defined.

Lemma undecodable_secret_blocks_orders_witness :
  (PipelineSpec.steps_1_8 (with_secret "c2VjcmV") cpython (answering created)
     sell_50 fresh
     = Accepted None sell_50 "BTC-USD" "sell" (F.of_int 50) (ticking 0) ∧
   F.to_int (clock (answering created) (S (clock_reads fresh))) = Ok 1700000001 ∧
   Base64.b64decode (COINBASE_API_SECRET (with_secret "c2VjcmV")) = Raise BinasciiError) ∧
  ∃ w',
    tradingview_webhook (with_secret "c2VjcmV") cpython (answering created)
      sell_50 fresh = (Raise BinasciiError, w') ∧
    events w' = [] ∧ alerts w' = [].
Proof.
  assert (H1 : PipelineSpec.steps_1_8 (with_secret "c2VjcmV") cpython
                 (answering created) sell_50 fresh =
               Accepted None sell_50 "BTC-USD" "sell" (F.of_int 50) (ticking 0)) by run.
  assert (H2 : F.to_int (clock (answering created) (S (clock_reads fresh))) =
               Ok 1700000001) by run.
  assert (H3 : Base64.b64decode (COINBASE_API_SECRET (with_secret "c2VjcmV")) =
               Raise BinasciiError) by run.
  split; [done|].
  destruct (undecodable_secret_blocks_orders (with_secret "c2VjcmV") cpython
              (answering created) sell_50 fresh _ _ _ _ _ _ _ _ H1 H2 H3)
    as (w' & Hrun & He & Ha & _).
  exists w'. split; [exact Hrun|]. split; [exact He|exact Ha].
Defined.

Lemma handler_answers_witness :
  (F.to_int (clock (answering bad_gateway) (S (clock_reads fresh))) = Ok 1700000001 ∧
   Base64.b64decode (COINBASE_API_SECRET default_config) = Ok "" ∧
   ∀ url headers data,
     ∃ r, transport (answering bad_gateway) (events fresh) url headers data = Ok r) ∧
  ∃ body status w',
    tradingview_webhook default_config cpython (answering bad_gateway) sell_50 fresh =
    (Ok (body, status), w') ∧
    status ∈ [200; 400; 401; 409; 429; 500].
Proof.
  assert (H1 : F.to_int (clock (answering bad_gateway) (S (clock_reads fresh))) =
               Ok 1700000001) by run.
  assert (H2 : Base64.b64decode (COINBASE_API_SECRET default_config) = Ok "") by run.
  assert (H3 : ∀ url headers data,
             ∃ r, transport (answering bad_gateway) (events fresh) url headers data = Ok r)
    by (intros; eexists; reflexivity).
  split; [done|].
  destruct (handler_answers default_config cpython (answering bad_gateway) sell_50 fresh)
    as [Hstatus Hanswer].
  destruct (Hanswer _ _ H1 H2 H3) as ([body status] & w' & Hrun).
  exists body, status, w'. split; [exact Hrun|]. exact (Hstatus _ _ _ Hrun).
Defined.

Lemma nan_amount_passes_bounds_witness :
  (Wording.passes_checks default_config buy_nan fresh
     (PipelineSpec.parse (Py.strip buy_nan)) "BTC-USD" "buy" "nan" ∧
   float_of_str cpython "nan" = Some S754_nan) ∧
  (tradingview_webhook default_config cpython (answering created) buy_nan fresh).1 =
    Ok (JDict [("status", JStr "ok"); ("code", JInt 201);
               ("response", JDict [("id", JStr "X")])], 200) ∧
  ∀ body w',
    tradingview_webhook default_config cpython (answering created) buy_nan fresh
    ≠ (Ok (body, 400), w').
Proof.
  assert (Hc : Wording.passes_checks default_config buy_nan fresh
                 (PipelineSpec.parse (Py.strip buy_nan)) "BTC-USD" "buy" "nan").
  { apply passes_checks_fresh; solve [run | vm_compute; discriminate]. }
  assert (Hf : float_of_str cpython "nan" = Some S754_nan) by run.
  split; [done|]. split; [run|].
  exact (proj2 (nan_amount_passes_bounds default_config cpython (answering created)
                  buy_nan fresh _ _ _ _ Hc Hf)).
Defined.

(** ** Strings: reversal, trimming and lower-casing *)

Lemma append_cons (c : ascii) (s t : string) : String c s +:+ t = String c (s +:+ t).
Proof. reflexivity. Qed.

Lemma append_empty_r (s : string) : s +:+ "" = s.
Proof. induction s as [|c s IH]; [reflexivity|]. by rewrite append_cons, IH. Qed.

Lemma append_snoc_assoc (s t : string) (c : ascii) :
  (s +:+ String c "") +:+ t = s +:+ String c t.
Proof. induction s as [|d s IH]; [reflexivity|]. by rewrite !append_cons, IH. Qed.

Lemma rev_app_append (s t : string) : String.rev_app s t = String.rev s +:+ t.
Proof.
  unfold String.rev. revert t. induction s as [|c s IH]; intros t; simpl; [reflexivity|].
  rewrite (IH (String c t)), (IH (String c "")). by rewrite append_snoc_assoc.
Qed.

Lemma rev_cons (c : ascii) (s : string) :
  String.rev (String c s) = String.rev s +:+ String c "".
Proof. unfold String.rev at 1. simpl. apply rev_app_append. Qed.

Lemma rev_snoc (s : string) (c : ascii) :
  String.rev (s +:+ String c "") = String c (String.rev s).
Proof.
  induction s as [|d s IH]; [reflexivity|].
  by rewrite append_cons, !rev_cons, IH, append_cons.
Qed.

Lemma rev_involutive (s : string) : String.rev (String.rev s) = s.
Proof.
  induction s as [|c s IH]; [reflexivity|]. by rewrite rev_cons, rev_snoc, IH.
Qed.

Lemma lstrip_idempotent (s : string) : Py.lstrip (Py.lstrip s) = Py.lstrip s.
Proof.
  induction s as [|c s IH]; simpl; [reflexivity|].
  destruct (Py.isspace c) eqn:Hc; [exact IH|]. simpl. by rewrite Hc.
Qed.

Lemma lstrip_length (s : string) : (String.length (Py.lstrip s) ≤ String.length s)%nat.
Proof.
  induction s as [|c s IH]; simpl; [lia|].
  destruct (Py.isspace c); simpl; lia.
Qed.

Lemma append_length (s t : string) :
  String.length (s +:+ t) = (String.length s + String.length t)%nat.
Proof. induction s as [|c s IH]; [reflexivity|]. rewrite append_cons. simpl. lia. Qed.

(** Stripping the front of a string keeps a clean end clean. *)
Lemma lstrip_keeps_end (u : string) :
  Py.lstrip (String.rev u) = String.rev u →
  Py.lstrip (String.rev (Py.lstrip u)) = String.rev (Py.lstrip u).
Proof.
  induction u as [|c u IH]; [done|]. simpl.
  destruct (Py.isspace c) eqn:Hc; [|done].
  rewrite rev_cons. intros H. apply IH.
  destruct (String.rev u) as [|d r] eqn:Hr.
  - simpl in H. rewrite Hc in H. discriminate.
  - rewrite append_cons in H. simpl in *.
    destruct (Py.isspace d); [|reflexivity].
    exfalso. pose proof (lstrip_length (r +:+ String c "")) as Hlen.
    rewrite H in Hlen. simpl in Hlen. rewrite !append_length in Hlen. simpl in Hlen. lia.
Qed.

Lemma strip_fixed (s : string) :
  Py.lstrip s = s → Py.lstrip (String.rev s) = String.rev s → trimmed s.
Proof.
  intros H1 H2. unfold trimmed, Py.strip, Py.rstrip.
  by rewrite H1, H2, rev_involutive.
Qed.

Lemma strip_trimmed (s : string) : trimmed (Py.strip s).
Proof.
  unfold Py.strip, Py.rstrip. apply strip_fixed.
  - apply lstrip_keeps_end. rewrite rev_involutive. apply lstrip_idempotent.
  - rewrite rev_involutive. apply lstrip_idempotent.
Qed.

Lemma isspace_lower_char (c : ascii) : Py.isspace (Py.lower_char c) = Py.isspace c.
Proof. destruct c as [[] [] [] [] [] [] [] []]; reflexivity. Qed.

Lemma no_upper_lower_char (c : ascii) :
  negb ((65 <=? nat_of_ascii (Py.lower_char c))%nat
        && (nat_of_ascii (Py.lower_char c) <=? 90)%nat) = true.
Proof. destruct c as [[] [] [] [] [] [] [] []]; reflexivity. Qed.

Lemma lstrip_lower (s : string) : Py.lstrip (Py.lower s) = Py.lower (Py.lstrip s).
Proof.
  induction s as [|c s IH]; [reflexivity|]. unfold Py.lower in *. simpl.
  rewrite isspace_lower_char. destruct (Py.isspace c); [exact IH|reflexivity].
Qed.

Lemma lower_append (s t : string) : Py.lower (s +:+ t) = Py.lower s +:+ Py.lower t.
Proof.
  induction s as [|c s IH]; [reflexivity|]. unfold Py.lower in *.
  rewrite append_cons. simpl. by rewrite IH.
Qed.

Lemma rev_lower (s : string) : String.rev (Py.lower s) = Py.lower (String.rev s).
Proof.
  induction s as [|c s IH]; [reflexivity|].
  change (Py.lower (String c s)) with (String (Py.lower_char c) (Py.lower s)).
  by rewrite !rev_cons, IH, lower_append.
Qed.

Lemma strip_lower (s : string) : Py.strip (Py.lower s) = Py.lower (Py.strip s).
Proof.
  unfold Py.strip, Py.rstrip.
  by rewrite lstrip_lower, rev_lower, lstrip_lower, rev_lower.
Qed.

Lemma no_upper_lower (s : string) : no_upper (Py.lower s) = true.
Proof.
  induction s as [|c s IH]; [reflexivity|].
  change (Py.lower (String c s)) with (String (Py.lower_char c) (Py.lower s)).
  cbn [no_upper]. by rewrite no_upper_lower_char, IH.
Qed.

Lemma last_value_in (k v : string) (kvs : list (string * string)) :
  ParserSpec.last_value k kvs = Some v → (k, v) ∈ kvs.
Proof.
  unfold ParserSpec.last_value.
  destruct (last (filter (λ kv : string * string, kv.1 = k) kvs)) as [[k' v']|] eqn:Hl;
    [|discriminate].
  simpl. intros [= <-].
  apply last_Some in Hl as [l' Hl].
  assert (Hin : (k', v') ∈ filter (λ kv : string * string, kv.1 = k) kvs)
    by (rewrite Hl; apply elem_of_app; right; apply list_elem_of_here).
  apply list_elem_of_filter in Hin as [Hk Hin]. simpl in Hk. by subst.
Qed.

(** ** The parser on every text *)

Section ParserOverStrFacts.

Variable str_strip : string -> string.
Variable str_lower : string -> string.

Lemma parse_segment_with_ok (parts : gmap string string) (p : string) :
  parse_segment_with str_strip str_lower parts p =
  Ok (if Py.contains ":" p
      then <[str_lower (str_strip (ParserSpec.before_colon p)) :=
               str_strip (ParserSpec.after_colon p)]> parts
      else parts).
Proof.
  unfold parse_segment_with.
  destruct (Py.contains ":" p) eqn:Hp; [|reflexivity].
  rewrite (split1_colon p Hp). reflexivity.
Qed.

Lemma parse_segments_with_ok (ps : list string) (parts : gmap string string) :
  parse_segments_with str_strip str_lower parts ps =
  Ok (foldl (fun m kv => <[kv.1 := kv.2]> m) parts
        ((fun p => (str_lower (str_strip (ParserSpec.before_colon p)),
                    str_strip (ParserSpec.after_colon p)))
         <$> filter (fun p => Is_true (Py.contains ":" p)) ps)).
Proof.
  revert parts. induction ps as [|p ps IH]; intros parts; simpl; [reflexivity|].
  rewrite parse_segment_with_ok, filter_cons.
  destruct (Py.contains ":" p) eqn:Hp.
  - rewrite decide_True by exact I. simpl. apply IH.
  - rewrite decide_False by (intros []). apply IH.
Qed.

Lemma parse_alert_text_with_ok (txt : string) :
  ∃ parts : gmap string string,
    parse_alert_text_with str_strip str_lower txt = Ok parts ∧
    ∀ k, parts !! k =
         ParserSpec.last_value k (fields_with str_strip str_lower txt).
Proof.
  unfold parse_alert_text_with, fields_with.
  rewrite parse_segments_with_ok. eexists. split; [reflexivity|].
  intros k. rewrite foldl_insert_lookup, lookup_empty.
  by destruct (ParserSpec.last_value _ _).
Qed.

End ParserOverStrFacts.

Lemma parse_segments_instance (ps : list string) (parts : gmap string string) :
  parse_segments parts ps = parse_segments_with Py.strip Py.lower parts ps.
Proof.
  revert parts. induction ps as [|p ps IH]; intros parts; simpl; [reflexivity|].
  change (parse_segment_with Py.strip Py.lower parts p) with (parse_segment parts p).
  destruct (parse_segment parts p); [apply IH|reflexivity].
Qed.

Lemma is_ws_isspace (c : ascii) : StrSpec.is_ws c = Py.isspace c.
Proof. destruct c as [[] [] [] [] [] [] [] []]; reflexivity. Qed.

Lemma to_lower_lower_char (c : ascii) : Py.lower_char c = StrSpec.to_lower c.
Proof. destruct c as [[] [] [] [] [] [] [] []]; reflexivity. Qed.

Lemma lower_by_char (s : string) :
  list_ascii_of_string (Py.lower s) = StrSpec.to_lower <$> list_ascii_of_string s.
Proof.
  induction s as [|c s IH]; [reflexivity|].
  change (Py.lower (String c s)) with (String (Py.lower_char c) (Py.lower s)).
  simpl. by rewrite IH, to_lower_lower_char.
Qed.

Lemma append_assoc (s t u : string) : (s +:+ t) +:+ u = s +:+ t +:+ u.
Proof. induction s as [|c s IH]; [reflexivity|]. by rewrite !append_cons, IH. Qed.

Lemma rev_append (s t : string) :
  String.rev (s +:+ t) = String.rev t +:+ String.rev s.
Proof.
  induction s as [|c s IH].
  - by rewrite append_empty_r.
  - by rewrite append_cons, !rev_cons, IH, append_assoc.
Qed.

Lemma all_ws_append (s t : string) :
  StrSpec.all_ws (s +:+ t) = StrSpec.all_ws s && StrSpec.all_ws t.
Proof.
  induction s as [|c s IH]; [reflexivity|].
  rewrite append_cons. simpl. by rewrite IH, andb_assoc.
Qed.

Lemma all_ws_rev (s : string) : StrSpec.all_ws (String.rev s) = StrSpec.all_ws s.
Proof.
  induction s as [|c s IH]; [reflexivity|].
  rewrite rev_cons, all_ws_append, IH. simpl. by rewrite andb_true_r, andb_comm.
Qed.

(** What [lstrip] drops is a run of whitespace. *)
Lemma lstrip_cut (s : string) :
  ∃ pre, s = pre +:+ Py.lstrip s ∧ StrSpec.all_ws pre = true.
Proof.
  induction s as [|c s (pre & Hs & Hpre)]; [by exists ""|]. simpl.
  destruct (Py.isspace c) eqn:Hc; [|by exists ""].
  exists (String c pre). rewrite append_cons, <- Hs. split; [reflexivity|].
  simpl. by rewrite is_ws_isspace, Hc, Hpre.
Qed.

Lemma rstrip_cut (s : string) :
  ∃ post, s = Py.rstrip s +:+ post ∧ StrSpec.all_ws post = true.
Proof.
  destruct (lstrip_cut (String.rev s)) as (pre & Hs & Hpre).
  exists (String.rev pre). split.
  - unfold Py.rstrip. by rewrite <- rev_append, <- Hs, rev_involutive.
  - by rewrite all_ws_rev.
Qed.

Lemma lstrip_fixed_clean (s : string) : Py.lstrip s = s → StrSpec.clean_start s.
Proof.
  destruct s as [|c s]; [done|]. simpl. rewrite is_ws_isspace.
  destruct (Py.isspace c); [|done].
  intros Hs. exfalso. pose proof (lstrip_length s) as Hlen.
  rewrite Hs in Hlen. simpl in Hlen. lia.
Qed.

Lemma strip_clean_ends (s : string) : StrSpec.clean_ends (Py.strip s).
Proof.
  split; apply lstrip_fixed_clean; unfold Py.strip, Py.rstrip.
  - apply lstrip_keeps_end. rewrite rev_involutive. apply lstrip_idempotent.
  - rewrite rev_involutive. apply lstrip_idempotent.
Qed.

(** [strip] cuts a run of whitespace off each end and leaves none there. *)
Lemma strip_cut (s : string) :
  ∃ pre post,
    s = pre +:+ Py.strip s +:+ post ∧
    StrSpec.all_ws pre = true ∧ StrSpec.all_ws post = true ∧
    StrSpec.clean_ends (Py.strip s).
Proof.
  destruct (lstrip_cut s) as (pre & Hs & Hpre).
  destruct (rstrip_cut (Py.lstrip s)) as (post & Ht & Hpost).
  exists pre, post. split; [|split; [exact Hpre|split; [exact Hpost|]]].
  - unfold Py.strip. by rewrite <- Ht.
  - apply strip_clean_ends.
Qed.

Lemma split_nonempty (sep : ascii) (s : string) : Py.split sep s ≠ [].
Proof.
  destruct s as [|c s]; simpl; [done|].
  destruct (Ascii.eqb c sep); [done|]. by destruct (Py.split sep s).
Qed.

(** [split] cuts at every separator and nowhere else. *)
Lemma split_join (sep : ascii) (s : string) :
  StrSpec.join sep (Py.split sep s) = s ∧
  Forall (fun p => Py.contains sep p = false) (Py.split sep s).
Proof.
  induction s as [|c s [IHj IHp]]; simpl; [by repeat constructor|].
  pose proof (split_nonempty sep s) as Hne.
  destruct (Ascii.eqb c sep) eqn:Hc.
  - apply Ascii.eqb_eq in Hc as ->.
    destruct (Py.split sep s) as [|p ps]; [done|].
    split; [|by constructor].
    change (StrSpec.join sep ("" :: p :: ps))
      with (String sep (StrSpec.join sep (p :: ps))).
    by rewrite IHj.
  - destruct (Py.split sep s) as [|p ps]; [done|].
    apply Forall_cons in IHp as [Hp Hps]. split.
    + rewrite <- IHj. by destruct ps.
    + constructor; [|exact Hps]. simpl. by rewrite Hc, Hp.
Qed.

Lemma contains_in (c : ascii) (s : string) :
  Py.contains c s = true ↔ c ∈ list_ascii_of_string s.
Proof.
  induction s as [|d s IH]; simpl.
  - split; [discriminate|by intros ?%elem_of_nil].
  - rewrite orb_true_iff, IH, elem_of_cons, Ascii.eqb_eq.
    split; (intros [H|H]; [left; by symmetry|by right]).
Qed.

(** C7. On every text the parser returns, without raising, the mapping that
    sends each key to the value of the last segment carrying it, where the
    segments are the pieces between semicolons that contain a colon, the key
    is the lower-cased, trimmed text before the first colon and the value
    the trimmed text after it.  This holds with [str.strip] and [str.lower]
    as the library has them, whatever they do beyond ASCII.
    [parse_alert_text] is the parser with [Py.strip] and [Py.lower]; these
    cut a run of ASCII whitespace off each end, leaving none there, and turn
    the letters A to Z into a to z, leaving every other character.  The
    segments, joined by semicolons, are the text, and none holds a
    semicolon; a segment contains a colon when one of its characters is
    one.  On the sample alert the parser yields the four expected fields;
    upper-case keys, blanks around keys and values, segments without a
    colon, further colons and repeated keys are handled as said. *)
Theorem parse_alert_text_spec :
  (∀ (str_strip str_lower : string → string) (txt : string),
     ∃ parts : gmap string string,
       parse_alert_text_with str_strip str_lower txt = Ok parts ∧
       ∀ k, parts !! k =
            ParserSpec.last_value k (fields_with str_strip str_lower txt)) ∧
  (∀ txt : string,
     parse_alert_text txt = parse_alert_text_with Py.strip Py.lower txt) ∧
  (∀ txt : string,
     ∃ parts : gmap string string,
       parse_alert_text txt = Ok parts ∧
       ∀ k, parts !! k = ParserSpec.last_value k (ParserSpec.fields txt)) ∧
  (∀ s : string,
     ∃ pre post,
       s = pre +:+ Py.strip s +:+ post ∧
       StrSpec.all_ws pre = true ∧ StrSpec.all_ws post = true ∧
       StrSpec.clean_ends (Py.strip s)) ∧
  (∀ s : string,
     list_ascii_of_string (Py.lower s) =
     StrSpec.to_lower <$> list_ascii_of_string s) ∧
  (∀ txt : string,
     StrSpec.join ";" (Py.split ";" txt) = txt ∧
     Forall (fun p => Py.contains ";" p = false) (Py.split ";" txt)) ∧
  (∀ (c : ascii) (p : string),
     Py.contains c p = true ↔ c ∈ list_ascii_of_string p) ∧
  parse_alert_text "secret: s; symbol: BTC-USD; action: buy; amount: 10" =
    Ok (<["secret" := "s"]> (<["symbol" := "BTC-USD"]>
         (<["action" := "buy"]> (<["amount" := "10"]> ∅)))) ∧
  parse_alert_text mixed_case =
    Ok (<["secret" := "changeme"]> (<["symbol" := "BTC-USD"]>
         (<["action" := "Buy now"]> (<["amount" := "10"]> ∅)))) ∧
  parse_alert_text "a: 1;; A :2:3 ;:" = Ok (<["a" := "2:3"]> (<["" := ""]> ∅)).
Proof.
  split; [apply parse_alert_text_with_ok|].
  split; [intros txt; apply parse_segments_instance|].
  split.
  { intros txt. exists (PipelineSpec.parse txt). split.
    - apply parse_alert_text_ok.
    - intros k. apply parse_lookup. }
  split; [apply strip_cut|].
  split; [apply lower_by_char|].
  split; [intros txt; apply split_join|].
  split; [apply contains_in|].
  repeat split; vm_compute; reflexivity.
Qed.

(** ** The shape of parsed keys and values on ASCII text *)

Lemma isascii_append (s t : string) : isascii (s +:+ t) = isascii s && isascii t.
Proof.
  unfold isascii. induction s as [|c s IH]; [reflexivity|].
  rewrite append_cons. simpl. by rewrite IH, andb_assoc.
Qed.

Lemma isascii_rev (s : string) : isascii (String.rev s) = isascii s.
Proof.
  induction s as [|c s IH]; [reflexivity|].
  rewrite rev_cons, isascii_append, IH. unfold isascii. simpl.
  by rewrite andb_true_r, andb_comm.
Qed.

Lemma isascii_lstrip (s : string) : isascii s = true → isascii (Py.lstrip s) = true.
Proof.
  unfold isascii. induction s as [|c s IH]; [done|]. simpl.
  intros [Hc Hs]%andb_true_iff.
  destruct (Py.isspace c); [by apply IH|]. simpl. by rewrite Hc, Hs.
Qed.

Lemma isascii_strip (s : string) : isascii s = true → isascii (Py.strip s) = true.
Proof.
  intros Hs. unfold Py.strip, Py.rstrip.
  rewrite isascii_rev. apply isascii_lstrip.
  rewrite isascii_rev. by apply isascii_lstrip.
Qed.

Lemma isascii_lower_char (c : ascii) :
  (N_of_ascii (Py.lower_char c) <? 128)%N = (N_of_ascii c <? 128)%N.
Proof. destruct c as [[] [] [] [] [] [] [] []]; reflexivity. Qed.

Lemma isascii_lower (s : string) : isascii (Py.lower s) = isascii s.
Proof.
  unfold isascii. induction s as [|c s IH]; [reflexivity|].
  change (Py.lower (String c s)) with (String (Py.lower_char c) (Py.lower s)).
  simpl. by rewrite isascii_lower_char, IH.
Qed.

Lemma isascii_split (sep : ascii) (s p : string) :
  isascii s = true → p ∈ Py.split sep s → isascii p = true.
Proof.
  unfold isascii. revert p. induction s as [|c s IH]; intros p; simpl.
  - by intros _ ->%list_elem_of_singleton.
  - intros [Hc Hs]%andb_true_iff.
    destruct (Ascii.eqb c sep).
    + intros [->|Hp]%elem_of_cons; [reflexivity|by apply IH].
    + destruct (Py.split sep s) as [|q qs].
      * intros ->%list_elem_of_singleton. simpl. by rewrite Hc.
      * intros [->|Hp]%elem_of_cons.
        -- simpl. rewrite Hc. apply (IH q Hs). apply list_elem_of_here.
        -- apply (IH p Hs). by apply list_elem_of_further.
Qed.

Lemma isascii_before_colon (s : string) :
  isascii s = true → isascii (ParserSpec.before_colon s) = true.
Proof.
  unfold isascii. induction s as [|c s IH]; [done|]. simpl.
  intros [Hc Hs]%andb_true_iff.
  destruct (Ascii.eqb c ":"); [reflexivity|]. simpl. by rewrite Hc, IH.
Qed.

Lemma isascii_after_colon (s : string) :
  isascii s = true → isascii (ParserSpec.after_colon s) = true.
Proof.
  unfold isascii. induction s as [|c s IH]; [done|]. simpl.
  intros [Hc Hs]%andb_true_iff.
  destruct (Ascii.eqb c ":"); [exact Hs|by apply IH].
Qed.

(** X17. For every ASCII text, every key and every value of the parsed
    mapping is ASCII, every key is trimmed and free of upper-case letters,
    and every value is trimmed: each entry is the normalised key and value
    of some segment of the text that holds a colon. *)
Theorem parsed_fields_normalised (txt : string) (parts : gmap string string)
    (k v : string) :
  isascii txt = true →
  parse_alert_text txt = Ok parts →
  parts !! k = Some v →
  isascii k = true ∧ isascii v = true ∧
  trimmed k ∧ no_upper k = true ∧ trimmed v ∧
  ∃ p, p ∈ Py.split ";" txt ∧ Py.contains ":" p = true ∧
       k = Py.lower (Py.strip (ParserSpec.before_colon p)) ∧
       v = Py.strip (ParserSpec.after_colon p).
Proof.
  intros Htxt Hparse Hk.
  rewrite parse_alert_text_ok in Hparse. injection Hparse as <-.
  rewrite parse_lookup in Hk. apply last_value_in in Hk.
  unfold ParserSpec.fields in Hk.
  apply list_elem_of_fmap in Hk as (p & Hkv & Hp).
  apply list_elem_of_filter in Hp as [Hcolon Hp].
  unfold ParserSpec.key_value in Hkv. injection Hkv as -> ->.
  pose proof (isascii_split ";" txt p Htxt Hp) as Hascii.
  split; [|split; [|split; [|split; [|split]]]].
  - rewrite isascii_lower. by apply isascii_strip, isascii_before_colon.
  - by apply isascii_strip, isascii_after_colon.
  - unfold trimmed. rewrite strip_lower. f_equal. apply strip_trimmed.
  - apply no_upper_lower.
  - apply strip_trimmed.
  - exists p. split; [exact Hp|]. split; [by apply Is_true_true|]. done.
Qed.

Lemma parsed_fields_normalised_witness :
  (isascii mixed_case = true ∧
   parse_alert_text mixed_case = Ok (PipelineSpec.parse mixed_case) ∧
   PipelineSpec.parse mixed_case !! "action" = Some "Buy now") ∧
  isascii "action" = true ∧ isascii "Buy now" = true ∧
  trimmed "action" ∧ no_upper "action" = true ∧ trimmed "Buy now".
Proof.
  assert (H0 : isascii mixed_case = true) by reflexivity.
  assert (H1 : parse_alert_text mixed_case = Ok (PipelineSpec.parse mixed_case))
    by apply parse_alert_text_ok.
  assert (H2 : PipelineSpec.parse mixed_case !! "action" = Some "Buy now") by run.
  split; [exact (conj H0 (conj H1 H2))|].
  destruct (parsed_fields_normalised mixed_case _ "action" "Buy now" H0 H1 H2)
    as (Hak & Hav & Hk & Hu & Hv & _).
  exact (conj Hak (conj Hav (conj Hk (conj Hu Hv)))).
Defined.

(** ** base64 there and back *)

Lemma every_ascii (x : ascii) : In x (ascii_of_nat <$> seq 0 256).
Proof.
  apply in_map_iff. exists (nat_of_ascii x). split; [apply ascii_nat_embedding|].
  apply in_seq. pose proof (nat_ascii_bounded x). lia.
Qed.

Lemma by_ascii_pairs (f : ascii → ascii → bool) :
  forallb (fun x => forallb (f x) (ascii_of_nat <$> seq 0 256))
    (ascii_of_nat <$> seq 0 256) = true →
  ∀ x y, f x y = true.
Proof.
  intros H x y.
  rewrite forallb_forall in H. specialize (H x (every_ascii x)).
  rewrite forallb_forall in H. exact (H y (every_ascii y)).
Qed.

Lemma digit_mod (n : N) : Base64.digit n = Base64.digit (n mod 64).
Proof. unfold Base64.digit. by rewrite N.Div0.mod_mod. Qed.

Lemma value_digit (n : N) : Base64.value (Base64.digit n) = Some (n mod 64)%N.
Proof.
  assert (H : forallb (fun m => match Base64.value (Base64.digit m) with
                                | Some v => (v =? m)%N
                                | None => false
                                end) (N.of_nat <$> seq 0 64) = true)
    by (vm_compute; reflexivity).
  rewrite forallb_forall in H. specialize (H (n mod 64)%N).
  rewrite <- digit_mod in H.
  destruct (Base64.value (Base64.digit n)) as [v|].
  - f_equal. apply N.eqb_eq, H. apply in_map_iff. exists (N.to_nat (n mod 64)).
    split; [apply N2Nat.id|]. apply in_seq.
    assert (Hm : (n mod 64 < 64)%N) by (apply N.mod_upper_bound; discriminate).
    revert Hm. generalize (n mod 64)%N. clear. intros m Hm. lia.
  - exfalso. assert (false = true); [|discriminate]. apply H.
    apply in_map_iff. exists (N.to_nat (n mod 64)).
    split; [apply N2Nat.id|]. apply in_seq.
    assert (Hm : (n mod 64 < 64)%N) by (apply N.mod_upper_bound; discriminate).
    revert Hm. generalize (n mod 64)%N. clear. intros m Hm. lia.
Qed.

Lemma digit_in_alphabet (n : N) : Base64.in_alphabet (Base64.digit n) = true.
Proof.
  unfold Base64.in_alphabet. apply bool_decide_eq_true. rewrite value_digit. eauto.
Qed.

(** One data character, spelled out. *)
Lemma a2b_loop_digit (n : N) (s : string) (quad_pos : nat) (leftchar : N)
    (pads : nat) (out : string) :
  Base64.a2b_loop (String (Base64.digit n) s) quad_pos leftchar pads out =
  match quad_pos with
  | 0%nat => Base64.a2b_loop s 1%nat (n mod 64)%N 0%nat out
  | 1%nat =>
      Base64.a2b_loop s 2%nat (N.land (n mod 64) 15) 0%nat
        (String (Base64.byte (N.lor (N.shiftl leftchar 2) (N.shiftr (n mod 64) 4))) out)
  | 2%nat =>
      Base64.a2b_loop s 3%nat (N.land (n mod 64) 3) 0%nat
        (String (Base64.byte (N.lor (N.shiftl leftchar 4) (N.shiftr (n mod 64) 2))) out)
  | _ =>
      Base64.a2b_loop s 0%nat 0%N 0%nat
        (String (Base64.byte (N.lor (N.shiftl leftchar 6) (n mod 64))) out)
  end.
Proof.
  simpl. rewrite (in_alphabet_not_pad _ (digit_in_alphabet n)), value_digit.
  by destruct quad_pos as [|[|[|q]]].
Qed.

Lemma first_byte (x y : ascii) :
  Base64.byte
    (N.lor (N.shiftl (N.shiftr (N_of_ascii x) 2 mod 64) 2)
       (N.shiftr
          (N.lor (N.shiftl (N.land (N_of_ascii x) 3) 4) (N.shiftr (N_of_ascii y) 4)
           mod 64) 4)) = x.
Proof.
  apply Ascii.eqb_eq. revert x y. apply by_ascii_pairs. vm_compute. reflexivity.
Qed.

Lemma first_byte_alone (x : ascii) :
  Base64.byte
    (N.lor (N.shiftl (N.shiftr (N_of_ascii x) 2 mod 64) 2)
       (N.shiftr (N.shiftl (N.land (N_of_ascii x) 3) 4 mod 64) 4)) = x.
Proof.
  apply Ascii.eqb_eq. revert x.
  assert (H : ∀ x y : ascii,
            Ascii.eqb
              (Base64.byte
                 (N.lor (N.shiftl (N.shiftr (N_of_ascii x) 2 mod 64) 2)
                    (N.shiftr (N.shiftl (N.land (N_of_ascii x) 3) 4 mod 64) 4))) x
            = true)
    by (apply by_ascii_pairs; vm_compute; reflexivity).
  intros x. exact (H x x).
Qed.

Lemma second_left (x y : ascii) :
  N.land
    (N.lor (N.shiftl (N.land (N_of_ascii x) 3) 4) (N.shiftr (N_of_ascii y) 4) mod 64) 15
  = N.shiftr (N_of_ascii y) 4.
Proof.
  apply N.eqb_eq. revert x y. apply by_ascii_pairs. vm_compute. reflexivity.
Qed.

Lemma second_byte (y z : ascii) :
  Base64.byte
    (N.lor (N.shiftl (N.shiftr (N_of_ascii y) 4) 4)
       (N.shiftr
          (N.lor (N.shiftl (N.land (N_of_ascii y) 15) 2) (N.shiftr (N_of_ascii z) 6)
           mod 64) 2)) = y.
Proof.
  apply Ascii.eqb_eq. revert y z. apply by_ascii_pairs. vm_compute. reflexivity.
Qed.

Lemma second_byte_alone (y : ascii) :
  Base64.byte
    (N.lor (N.shiftl (N.shiftr (N_of_ascii y) 4) 4)
       (N.shiftr (N.shiftl (N.land (N_of_ascii y) 15) 2 mod 64) 2)) = y.
Proof.
  apply Ascii.eqb_eq. revert y.
  assert (H : ∀ y z : ascii,
            Ascii.eqb
              (Base64.byte
                 (N.lor (N.shiftl (N.shiftr (N_of_ascii y) 4) 4)
                    (N.shiftr (N.shiftl (N.land (N_of_ascii y) 15) 2 mod 64) 2))) y
            = true)
    by (apply by_ascii_pairs; vm_compute; reflexivity).
  intros y. exact (H y y).
Qed.

Lemma third_byte (y z : ascii) :
  Base64.byte
    (N.lor
       (N.shiftl
          (N.land
             (N.lor (N.shiftl (N.land (N_of_ascii y) 15) 2) (N.shiftr (N_of_ascii z) 6)
              mod 64) 3) 6)
       (N.land (N_of_ascii z) 63 mod 64)) = z.
Proof.
  apply Ascii.eqb_eq. revert y z. apply by_ascii_pairs. vm_compute. reflexivity.
Qed.

Lemma a2b_loop_encode (n : nat) :
  ∀ (b : string) (leftchar : N) (out : string),
    (String.length b ≤ n)%nat →
    Base64.a2b_loop (Base64.b64encode b) 0 leftchar 0 out = Ok (String.rev out +:+ b).
Proof.
  induction n as [n H] using lt_wf_ind. intros b leftchar out Hlen.
  destruct b as [|x [|y [|z b]]].
  - simpl. by rewrite append_empty_r.
  - cbn [Base64.b64encode]. rewrite !a2b_loop_digit. simpl.
    by rewrite first_byte_alone, rev_cons.
  - cbn [Base64.b64encode]. rewrite !a2b_loop_digit, second_left. simpl.
    rewrite first_byte, second_byte_alone, !rev_cons.
    by rewrite append_snoc_assoc.
  - cbn [Base64.b64encode]. rewrite !a2b_loop_digit, second_left.
    rewrite first_byte, second_byte, third_byte.
    simpl in Hlen. rewrite (H (n - 3)%nat) by lia.
    by rewrite !rev_cons, !append_snoc_assoc.
Qed.

Lemma b64encode_ascii (n : nat) :
  ∀ b : string, (String.length b ≤ n)%nat → Base64.is_ascii (Base64.b64encode b) = true.
Proof.
  induction n as [n H] using lt_wf_ind. intros b Hlen.
  destruct b as [|x [|y [|z b]]]; cbn [Base64.b64encode Base64.is_ascii];
    rewrite ?(in_alphabet_ascii _ (digit_in_alphabet _)); try reflexivity.
  simpl in Hlen. apply (H (n - 3)%nat); lia.
Qed.

(** What [b64encode] writes, [b64decode] reads back. *)
Lemma b64decode_b64encode (b : string) :
  Base64.b64decode (Base64.b64encode b) = Ok b.
Proof.
  unfold Base64.b64decode.
  rewrite (b64encode_ascii _ b (le_n _)), (a2b_loop_encode _ b 0%N "" (le_n _)).
  reflexivity.
Qed.

Section SecretAndLimit.

Variable cfg : Config.
Variable py : Runtime.
Variable env : Env.

(** X18. When the configured secret is the base64 text of some key bytes,
    as the exchange issues it, signing cannot fail on the secret, the HMAC
    is keyed with exactly those bytes, and the CB-ACCESS-SIGN header decodes
    back to the HMAC digest of timestamp, upper-cased method, path and
    body. *)
Theorem secret_and_signature_round_trip (method path body : string) (w : World)
    (secs : Z) (key_bytes : string) :
  COINBASE_API_SECRET cfg = Base64.b64encode key_bytes →
  F.to_int (clock env (clock_reads w)) = Ok secs →
  ∃ signature,
    cb_auth_headers cfg py env method path body w =
    (Ok [("CB-ACCESS-KEY", COINBASE_API_KEY cfg);
         ("CB-ACCESS-SIGN", signature);
         ("CB-ACCESS-TIMESTAMP", pretty secs);
         ("CB-ACCESS-PASSPHRASE", COINBASE_PASSPHRASE cfg);
         ("Content-Type", "application/json")], tick w) ∧
    Base64.b64decode signature =
    Ok (hmac_sha256 py key_bytes
          (pretty secs +:+ Py.upper method +:+ path +:+ body)).
Proof.
  intros Hsecret Hsecs. eexists. split.
  - apply (cb_auth_headers_ok cfg py env method path body w secs key_bytes Hsecs).
    rewrite Hsecret. apply b64decode_b64encode.
  - unfold Wording.signature. apply b64decode_b64encode.
Qed.

(** X19. The rate limit is a strict comparison on the stored checkpoint: a
    request that reaches the rate-limit check at time [now], with [last]
    what [get_last_order_ts] returns, is answered 429 exactly when
    [now - last < MIN_SECONDS_BETWEEN_ORDERS]; at exactly the minimum
    distance it goes through to the exchange. *)
Theorem rate_limit_exact (request_data : string) (w : World)
    (data : gmap string string) (symbol action amount : string) (x last : float) :
  Wording.passes_checks cfg request_data w data symbol action amount →
  float_of_str py amount = Some x →
  F.leb_int x 0 || F.ltb (MAX_USD_PER_ORDER cfg) x = false →
  get_last_order_ts py w = (Ok last, w) →
  (tradingview_webhook cfg py env request_data w =
   (Ok (JDict [("error", JStr "rate limit");
               ("min_seconds", JInt (MIN_SECONDS_BETWEEN_ORDERS cfg))], 429), tick w)
   ↔ F.ltb_int (F.sub (clock env (clock_reads w)) last)
       (MIN_SECONDS_BETWEEN_ORDERS cfg) = true) ∧
  (F.ltb_int (F.sub (clock env (clock_reads w)) last)
     (MIN_SECONDS_BETWEEN_ORDERS cfg) = false →
   PipelineSpec.steps_1_8 cfg py env request_data w =
   Accepted (idempotency_key data) (Py.strip request_data) symbol action x
     (clock env (clock_reads w))).
Proof.
  intros Hchecks Hx Hbounds Hlast.
  rewrite get_last_order_ts_spec in Hlast. injection Hlast as Hlast.
  pose proof (passes_checks_steps cfg py env _ _ _ _ _ _ Hchecks) as Hv.
  rewrite Hx, Hbounds, Hlast in Hv.
  split.
  - rewrite webhook_by_steps, Hv.
    destruct (F.ltb_int _ _); simpl; [done|]. split; [|discriminate].
    destruct (place_market_order_by_funds _ _ _ _ _ _ _) as [[[code resp]|e] w1];
      [|discriminate].
    unfold Replies.reply. destruct (is_success code); discriminate.
  - intros Hnot. by rewrite Hv, Hnot.
Qed.

End SecretAndLimit.

Lemma secret_and_signature_round_trip_witness :
  (COINBASE_API_SECRET (with_secret "c2VjcmV0") = Base64.b64encode "secret" ∧
   F.to_int (clock (answering created) (clock_reads fresh)) = Ok 1700000000) ∧
  ∃ signature,
    cb_auth_headers (with_secret "c2VjcmV0") cpython (answering created)
      "post" "/orders" "{}" fresh =
    (Ok [("CB-ACCESS-KEY", "key");
         ("CB-ACCESS-SIGN", signature);
         ("CB-ACCESS-TIMESTAMP", "1700000000");
         ("CB-ACCESS-PASSPHRASE", "passphrase");
         ("Content-Type", "application/json")], tick fresh) ∧
    Base64.b64decode signature =
    Ok (hmac_sha256 cpython "secret" "1700000000POST/orders{}").
Proof.
  assert (H1 : COINBASE_API_SECRET (with_secret "c2VjcmV0") = Base64.b64encode "secret")
    by run.
  assert (H2 : F.to_int (clock (answering created) (clock_reads fresh)) = Ok 1700000000)
    by run.
  split; [exact (conj H1 H2)|].
  exact (secret_and_signature_round_trip (with_secret "c2VjcmV0") cpython
           (answering created) "post" "/orders" "{}" fresh 1700000000 "secret" H1 H2).
Defined.

Lemma rate_limit_exact_witness :
  let w := (set_last_order_ts cpython (ticking 0) fresh).2 in
  let later :=
    {| clock := fun _ => F.of_int 1700000060; transport := fun _ _ _ _ => Ok created |} in
  (Wording.passes_checks one_per_minute sell_50 w
     (PipelineSpec.parse (Py.strip sell_50)) "BTC-USD" "sell" "50" ∧
   float_of_str cpython "50" = Some (F.of_int 50) ∧
   F.leb_int (F.of_int 50) 0 || F.ltb (MAX_USD_PER_ORDER one_per_minute) (F.of_int 50)
     = false ∧
   get_last_order_ts cpython w = (Ok (ticking 0), w) ∧
   F.ltb_int (F.sub (clock later (clock_reads w)) (ticking 0))
     (MIN_SECONDS_BETWEEN_ORDERS one_per_minute) = false) ∧
  PipelineSpec.steps_1_8 one_per_minute cpython later sell_50 w =
  Accepted None sell_50 "BTC-USD" "sell" (F.of_int 50) (F.of_int 1700000060).
Proof.
  intros w later.
  assert (H1 : Wording.passes_checks one_per_minute sell_50 w
                 (PipelineSpec.parse (Py.strip sell_50)) "BTC-USD" "sell" "50")
    by (apply passes_checks_without_id; solve [run | vm_compute; discriminate]).
  assert (H2 : float_of_str cpython "50" = Some (F.of_int 50)) by run.
  assert (H3 : F.leb_int (F.of_int 50) 0
               || F.ltb (MAX_USD_PER_ORDER one_per_minute) (F.of_int 50) = false) by run.
  assert (H4 : get_last_order_ts cpython w = (Ok (ticking 0), w)) by run.
  assert (H5 : F.ltb_int (F.sub (clock later (clock_reads w)) (ticking 0))
                 (MIN_SECONDS_BETWEEN_ORDERS one_per_minute) = false) by run.
  split; [exact (conj H1 (conj H2 (conj H3 (conj H4 H5))))|].
  exact (proj2 (rate_limit_exact one_per_minute cpython later sell_50 w _ _ _ _ _ _
                  H1 H2 H3 H4) H5).
Defined.
